(** * A shallow embedding of the Relaynet core library

    The development follows the TypeScript sources: the RAMF codec
    ([ramf/serialization]), the X.509 wrapper
    ([crypto_wrappers/x509/Certificate.ts]), the CMS EnvelopedData wrapper
    ([crypto_wrappers/cms/envelopedData.ts]), the private key store
    ([keyStores/PrivateKeyStore.ts]) and the gateway channel
    ([nodes/channels/GatewayChannel.ts]).

    Conventions.
    - A function that may throw returns a [result]; [Throw e] carries the
      class of the exception and its message.
    - [async] functions are sequential here: awaiting is binding.
    - Buffers, ArrayBuffers and Uint8Arrays are [list byte].
    - A string is the sequence of its code units, kept in [string]; its
      [length] is the number of them.
    - JavaScript numbers that hold counts of octets, characters or
      milliseconds are integers ([Z]). The numbers that a caller gives
      and that the code compares or prints (the TTL of a message, the
      AES key size, the RSA modulus, the path length constraint) are
      [number]s: an integer, another finite number, an infinity or NaN.
    - A [Date] is its time value: milliseconds since the epoch, in UTC.
    - Third-party code (asn1js, PKI.js, WebCrypto, the WHATWG URL parser)
      and the modules of the library that the functions above only call
      are fields of the [Host] classes below. *)

From Stdlib Require Import ZArith Lia String Ascii List DecimalString HexadecimalString.
From stdpp Require Import base option list strings gmap.

Import ListNotations.
Local Open Scope string_scope.
Local Open Scope Z_scope.

Abbreviation byte := Byte.byte.

(** ** Exceptions and results *)

Module JS.

(** The exception classes of the library; [Error] stands for a native
    error or one thrown by a third-party package. *)
Inductive error : Type :=
| Error (message : string)
| RAMFSyntaxError (message : string)
| RAMFValidationError (message : string)
| CMSError (message : string)
| CertificateError (message : string)
| KeyStoreError (message : string)
| UnknownKeyError (message : string).

Definition message (e : error) : string :=
  match e with
  | Error m | RAMFSyntaxError m | RAMFValidationError m | CMSError m
  | CertificateError m | KeyStoreError m | UnknownKeyError m => m
  end.

Inductive result (A : Type) : Type :=
| Ok (a : A)
| Throw (e : error).
Global Arguments Ok {A} a.
Global Arguments Throw {A} e.

Global Instance result_ret : MRet result := fun A a => Ok a.
Global Instance result_bind : MBind result := fun A B f m =>
  match m with
  | Ok a => f a
  | Throw e => Throw e
  end.

(** [try { m } catch (err) { throw new C(err, context) }]: the wrapping
    error's message is the context, a colon and the cause's message. *)
Definition wrapCause (cls : string -> error) (context : string) (cause : error) : error :=
  cls (context +:+ ": " +:+ message cause).

Definition tryCatch {A} (m : result A) (handler : error -> error) : result A :=
  match m with
  | Ok a => Ok a
  | Throw e => Throw (handler e)
  end.

Definition isOk {A} (m : result A) : bool :=
  match m with Ok _ => true | Throw _ => false end.

(** [if (cond) throw e] *)
Definition throwIf (cond : bool) (e : error) : result unit :=
  if cond then Throw e else Ok tt.

(** *** Numbers

    A number is a double. [Num z] is the integer [z]; [Fraction k e] is
    [(2k + 1) / 2^e], a finite number that is not an integer (every such
    double is an odd multiple of a negative power of two, in one way);
    then the two infinities and NaN. Zero has no sign here. Where a
    value is printed that no double has, it stands for the nearest
    double. *)

Inductive number : Type :=
| Num (z : Z)
| Infinity
| NegInfinity
| NaN
| Fraction (k : Z) (e : positive).

(** [a < b] on numbers: false as soon as one of them is NaN. *)
Definition ltb (a b : number) : bool :=
  match a, b with
  | Num x, Num y => x <? y
  | Num x, Fraction k e => x * 2 ^ Z.pos e <? 2 * k + 1
  | Fraction k e, Num y => 2 * k + 1 <? y * 2 ^ Z.pos e
  | Fraction k e, Fraction k' e' =>
      (2 * k + 1) * 2 ^ Z.pos e' <? (2 * k' + 1) * 2 ^ Z.pos e
  | (Num _ | Fraction _ _), Infinity => true
  | NegInfinity, (Num _ | Fraction _ _ | Infinity) => true
  | _, _ => false
  end.

(** **** Number::toString (ECMA-262, 6.1.6.1.20), radix 10

    A positive rational is a pair of a numerator and a positive
    denominator. *)

Definition decimalDigits (z : Z) : string :=
  DecimalString.NilZero.string_of_int (Z.to_int z).

Definition scale2 (x : Z * Z) (e : Z) : Z * Z :=
  let '(p, q) := x in if 0 <=? e then (p * 2 ^ e, q) else (p, q * 2 ^ (- e)).

Definition scale10 (x : Z * Z) (e : Z) : Z * Z :=
  let '(p, q) := x in if 0 <=? e then (p * 10 ^ e, q) else (p, q * 10 ^ (- e)).

Definition Qleb (x y : Z * Z) : bool := fst x * snd y <=? fst y * snd x.

Definition Qeqb (x y : Z * Z) : bool := fst x * snd y =? fst y * snd x.

(** The distance between two rationals. *)
Definition Qdist (x y : Z * Z) : Z * Z :=
  (Z.abs (fst x * snd y - fst y * snd x), snd x * snd y).

(** The Number value for a positive rational: the nearest double, ties
    to even, with a significand of 53 bits above the exponent [-1074];
    [None] is the overflow to infinity. *)
Definition nearestDouble (x : Z * Z) : option (Z * Z) :=
  let '(p, q) := x in
  let t := Z.log2 p - Z.log2 q in
  let L := if Qleb (scale2 (1, 1) t) x then t else t - 1 in
  let E := Z.max (L - 52) (-1074) in
  let '(P, Q) := scale2 x (- E) in
  let M0 := P / Q in
  let R := P mod Q in
  let M := if (Q <? 2 * R) || ((2 * R =? Q) && Z.odd M0) then M0 + 1 else M0 in
  if Qleb (scale2 (1, 1) 1024) (scale2 (M, 1) E) then None else Some (scale2 (M, 1) E).

Definition sameDouble (a b : option (Z * Z)) : bool :=
  match a, b with
  | Some x, Some y => Qeqb x y
  | None, None => true
  | _, _ => false
  end.

(** The [n] with [10^(n-1) <= x < 10^n], from an estimate. *)
Fixpoint adjustExponent (fuel : nat) (n : Z) (x : Z * Z) : Z :=
  match fuel with
  | O => n
  | S fuel' =>
      if Qleb (scale10 (1, 1) n) x then adjustExponent fuel' (n + 1) x
      else if negb (Qleb (scale10 (1, 1) (n - 1)) x) then adjustExponent fuel' (n - 1) x
      else n
  end.

Definition decimalExponent (x : Z * Z) : Z :=
  let '(p, q) := x in
  adjustExponent 8 (((Z.log2 p - Z.log2 q) * 30103) / 100000) x.

(** The pairs [(s, n)] with [10^(k-1) <= s < 10^k] for which the Number
    value of [s * 10^(n-k)] is the double [x]: on each side of [x], for
    the exponent of [x] and the next one. *)
Definition candidates (x : Z * Z) (n0 k : Z) : list (Z * Z) :=
  flat_map
    (fun n =>
       let '(P, Q) := scale10 x (k - n) in
       let s := P / Q in
       List.filter
         (fun c =>
            (10 ^ (k - 1) <=? fst c) && (fst c <? 10 ^ k) &&
            sameDouble (nearestDouble (scale10 (fst c, 1) (n - k))) (Some x))
         [(s, n); (s + 1, n)])
    [n0; n0 + 1].

(** Of two candidates the one closest to [x], and the even one when
    they are as close. *)
Definition closer (x : Z * Z) (k : Z) (a b : Z * Z) : Z * Z :=
  let da := Qdist (scale10 (fst a, 1) (snd a - k)) x in
  let db := Qdist (scale10 (fst b, 1) (snd b - k)) x in
  if Qeqb da db then (if Z.even (fst a) then a else b)
  else if Qleb da db then a else b.

Definition best (x : Z * Z) (k : Z) (cs : list (Z * Z)) : option (Z * Z) :=
  match cs with
  | [] => None
  | c :: rest => Some (fold_left (closer x k) rest c)
  end.

(** [(s, n, k)] with [k] as small as possible; 17 digits are enough for
    every double. *)
Fixpoint shortest (fuel : nat) (x : Z * Z) (n0 k : Z) : Z * Z * Z :=
  match fuel with
  | O => (fst x / snd x, n0, k)
  | S fuel' =>
      match best x k (candidates x n0 k) with
      | Some (s, n) => (s, n, k)
      | None => shortest fuel' x n0 (k + 1)
      end
  end.

Definition zeros (n : Z) : string := string_of_list_ascii (repeat "0"%char (Z.to_nat n)).

Definition formatDigits (s n k : Z) : string :=
  let digits := decimalDigits s in
  if (-5 <=? n) && (n <=? 21) then
    if k <=? n then digits +:+ zeros (n - k)
    else if 0 <? n then
      String.substring 0 (Z.to_nat n) digits +:+ "." +:+
      String.substring (Z.to_nat n) (Z.to_nat (k - n)) digits
    else "0." +:+ zeros (- n) +:+ digits
  else
    let e := n - 1 in
    let exponent := (if 0 <=? e then "+" else "-") +:+ decimalDigits (Z.abs e) in
    if k =? 1 then digits +:+ "e" +:+ exponent
    else String.substring 0 1 digits +:+ "." +:+
         String.substring 1 (Z.to_nat (k - 1)) digits +:+ "e" +:+ exponent.

Definition positiveToString (x : Z * Z) : string :=
  match nearestDouble x with
  | None => "Infinity"
  | Some d =>
      let '(s, n, k) := shortest 17 d (decimalExponent d) 1 in
      formatDigits s n k
  end.

Definition rationalToString (x : Z * Z) : string :=
  let '(p, q) := x in
  if p =? 0 then "0"
  else if p <? 0 then "-" +:+ positiveToString (- p, q)
  else positiveToString x.

(** An integer inside a template literal. *)
Definition Z_toString (z : Z) : string := rationalToString (z, 1).
Global Arguments Z_toString : simpl never.

(** A number inside a template literal. *)
Definition toString (n : number) : string :=
  match n with
  | Num z => Z_toString z
  | Fraction k e => rationalToString (2 * k + 1, 2 ^ Z.pos e)
  | Infinity => "Infinity"
  | NegInfinity => "-Infinity"
  | NaN => "NaN"
  end.

(** [n.toString(16)] for a natural number *)
Definition toString16 (n : Z) : string :=
  HexadecimalString.NilZero.string_of_uint (N.to_hex_uint (Z.to_N n)).

(** [Number(b)] for a bigint [b]: the nearest double, ties to even, which
    is an integer or an infinity. A double has a 53-bit significand and
    the largest finite one is below [2^1024]. *)
Definition roundToDouble (n : Z) : Z :=
  let bits := Z.log2 n + 1 in
  if bits <=? 53 then n
  else
    let sh := bits - 53 in
    let q := Z.shiftr n sh in
    let r := Z.land n (Z.ones sh) in
    let half := Z.shiftl 1 (sh - 1) in
    let q' := if (half <? r) || ((r =? half) && Z.odd q) then q + 1 else q in
    Z.shiftl q' sh.

Definition Number_of_bigint (b : Z) : number :=
  if 0 <=? b then
    let m := roundToDouble b in
    if m <? 2 ^ 1024 then Num m else Infinity
  else
    let m := roundToDouble (- b) in
    if m <? 2 ^ 1024 then Num (- m) else NegInfinity.

Definition MAX_SAFE_INTEGER : Z := 2 ^ 53 - 1.

(** [Math.min] on two integers *)
Definition Math_min (a b : Z) : Z := Z.min a b.

(** *** Strings and buffers *)

Global Instance byte_eq_dec : EqDecision byte := Byte.byte_eq_dec.

(** The double quote, for messages that quote a value. *)
Definition dquote : string := String (ascii_of_nat 34) EmptyString.

Definition byteLength (b : list byte) : Z := Z.of_nat (length b).

Definition strLength (s : string) : Z := Z.of_nat (String.length s).

Definition hexDigit (n : N) : ascii :=
  match n with
  | 0%N => "0" | 1%N => "1" | 2%N => "2" | 3%N => "3" | 4%N => "4"
  | 5%N => "5" | 6%N => "6" | 7%N => "7" | 8%N => "8" | 9%N => "9"
  | 10%N => "a" | 11%N => "b" | 12%N => "c" | 13%N => "d" | 14%N => "e"
  | _ => "f"
  end%char.

(** [buffer.toString('hex')] *)
Fixpoint Buffer_toHex (b : list byte) : string :=
  match b with
  | [] => EmptyString
  | x :: rest =>
      String (hexDigit (Byte.to_N x / 16)) (String (hexDigit (Byte.to_N x mod 16)) (Buffer_toHex rest))
  end.

(** [Buffer.from('...')] for an ASCII literal *)
Definition Buffer_from (s : string) : list byte :=
  map byte_of_ascii (list_ascii_of_string s).

(** Truthiness of an optional string: [undefined] and the empty string
    are falsy. *)
Definition truthyString (s : option string) : bool :=
  match s with
  | Some s => negb (String.eqb s EmptyString)
  | None => false
  end.

(** An optional string inside a template literal *)
Definition templateString (s : option string) : string :=
  match s with
  | Some s => s
  | None => "undefined"
  end.

(** Truthiness of an optional number: [undefined], [0] and [NaN] are
    falsy. *)
Definition truthyNumber (n : option number) : bool :=
  match n with
  | Some (Num z) => negb (z =? 0)
  | Some NaN => false
  | Some _ => true
  | None => false
  end.

(** *** Dates

    The time value of a Date is kept in UTC; the methods that read or
    write its fields in local time go through the host's time zone, as in
    ECMA-262 (LocalTime, UTC, MakeTime, MakeDate). [LocalTZA t true] is
    the offset of local time at the UTC instant [t]; [LocalTZA t false]
    is the offset to use for the local time value [t]. *)

Definition Date := Z.

Record TimeZone : Type := { LocalTZA : Z -> bool -> Z }.

Definition msPerSecond : Z := 1000.
Definition msPerMinute : Z := 60000.
Definition msPerHour : Z := 3600000.
Definition msPerDay : Z := 86400000.

Definition Day (t : Z) : Z := t / msPerDay.
Definition HourFromTime (t : Z) : Z := (t / msPerHour) mod 24.
Definition MinFromTime (t : Z) : Z := (t / msPerMinute) mod 60.
Definition SecFromTime (t : Z) : Z := (t / msPerSecond) mod 60.
Definition msFromTime (t : Z) : Z := t mod msPerSecond.

Definition MakeTime (hour min sec ms : Z) : Z :=
  hour * msPerHour + min * msPerMinute + sec * msPerSecond + ms.
Definition MakeDate (day time : Z) : Z := day * msPerDay + time.

Definition LocalTime (tz : TimeZone) (t : Z) : Z := t + LocalTZA tz t true.
Definition UTC (tz : TimeZone) (t : Z) : Z := t - LocalTZA tz t false.

(** [date.getTime()] *)
Definition getTime (d : Date) : Z := d.

(** [date.getHours()] *)
Definition getHours (tz : TimeZone) (d : Date) : Z := HourFromTime (LocalTime tz d).

(** [date.setHours(hour)] *)
Definition setHours (tz : TimeZone) (d : Date) (hour : Z) : Date :=
  let t := LocalTime tz d in
  UTC tz (MakeDate (Day t) (MakeTime hour (MinFromTime t) (SecFromTime t) (msFromTime t))).

(** [date.setMilliseconds(ms)] *)
Definition setMilliseconds (tz : TimeZone) (d : Date) (ms : Z) : Date :=
  let t := LocalTime tz d in
  UTC tz (MakeDate (Day t) (MakeTime (HourFromTime t) (MinFromTime t) (SecFromTime t) ms)).

(** The zone whose local time is UTC, and a zone with a fixed offset. *)
Definition utcZone : TimeZone := {| LocalTZA := fun _ _ => 0 |}.
Definition fixedZone (offset : Z) : TimeZone := {| LocalTZA := fun _ _ => offset |}.

(** A zone with a single daylight-saving transition: the offset is
    [before] up to the UTC instant [at] and [after] from then on. A local
    time value that the transition skips or repeats takes the offset in
    force before the transition. *)
Definition zoneWithTransition (at_ before after : Z) : TimeZone :=
  {| LocalTZA := fun t isUTC =>
       if isUTC then (if t <? at_ then before else after)
       else (if t <? at_ + Z.max before after then before else after) |}.

(** Offsets are whole seconds and truncating a local time to the second
    does not cross a transition: this holds of a fixed offset, and of a
    zone with transitions except during an hour that the clocks repeat. *)
Definition WholeSecondZone (tz : TimeZone) : Prop :=
  forall t : Z,
    (LocalTZA tz t true) mod 1000 = 0 /\
    LocalTZA tz (1000 * ((t + LocalTZA tz t true) / 1000)) false = LocalTZA tz t true.

(** Dropping the milliseconds of a date never moves it forward. *)
Definition TruncatingZone (tz : TimeZone) : Prop :=
  forall d : Date, setMilliseconds tz d 0 <= d.

End JS.

Import JS.

(** ** Keys

    A [CryptoKey] is opaque to the library: it records the parameter of
    its algorithm (the hash of an RSA-PSS key, the curve of an ECDH key)
    and the key material that the crypto engine exports. *)

Record CryptoKey : Type := {
  keyParams : string;
  keyMaterial : list byte;
}.

(** ** keyStores/PrivateKeyStore.ts *)

Module PrivateKeyStore.

(** Data for a private key of a session key pair. *)
Record SessionPrivateKeyData : Type := {
  keySerialized : list byte;
  privateAddress : string;
  peerPrivateAddress : option string;
}.

(** The abstract methods of the class, over the state [S] of a backend,
    and the two functions of [crypto_wrappers/keys] that the session-key
    methods call. A backend method that throws raises a native error. *)
Class Backend (S : Type) : Type := {
  saveSessionKeySerialized :
    S -> string -> list byte -> string -> option string -> result S;
  retrieveSessionKeyData : S -> string -> result (option SessionPrivateKeyData);
  derSerializePrivateKey : CryptoKey -> result (list byte);
  derDeserializeECDHPrivateKey : list byte -> string -> result CryptoKey;
}.

Section Store.
Context {S : Type} `{!Backend S}.

Definition saveSessionKey (store : S) (privateKey : CryptoKey) (keyId : list byte)
    (privateAddress : string) (peerPrivateAddress : option string) : result S :=
  let keyIdString := Buffer_toHex keyId in
  privateKeyDer ← derSerializePrivateKey privateKey;
  tryCatch
    (saveSessionKeySerialized store keyIdString privateKeyDer privateAddress peerPrivateAddress)
    (wrapCause KeyStoreError ("Failed to save key " +:+ keyIdString)).

Definition retrieveSessionKeyDataOrThrowError (store : S) (keyId : list byte)
    (privateAddress : string) : result SessionPrivateKeyData :=
  let keyIdHex := Buffer_toHex keyId in
  keyData ← tryCatch (retrieveSessionKeyData store keyIdHex)
                     (wrapCause KeyStoreError "Failed to retrieve key");
  match keyData with
  | None => Throw (UnknownKeyError ("Key " +:+ keyIdHex +:+ " does not exist"))
  | Some keyData =>
      if negb (String.eqb keyData.(PrivateKeyStore.privateAddress) privateAddress)
      then Throw (UnknownKeyError "Key is owned by a different node")
      else Ok keyData
  end.

Definition retrieveUnboundSessionKey (store : S) (keyId : list byte)
    (privateAddress : string) : result CryptoKey :=
  keyData ← retrieveSessionKeyDataOrThrowError store keyId privateAddress;
  if truthyString keyData.(peerPrivateAddress)
  then Throw (UnknownKeyError ("Key " +:+ Buffer_toHex keyId +:+ " is bound"))
  else derDeserializeECDHPrivateKey keyData.(keySerialized) "P-256".

(** The message of the error for a key bound to another recipient. *)
Definition boundToAnotherMessage (keyIdHex stored given : string) : string :=
  "Session key " +:+ keyIdHex +:+ " is bound to another recipient " +:+
  "(" +:+ stored +:+ ", not " +:+ given +:+ ")".

Definition retrieveSessionKey (store : S) (keyId : list byte)
    (privateAddress : string) (peerPrivateAddress : string) : result CryptoKey :=
  keyData ← retrieveSessionKeyDataOrThrowError store keyId privateAddress;
  let keyIdHex := Buffer_toHex keyId in
  if truthyString keyData.(PrivateKeyStore.peerPrivateAddress)
     && negb (bool_decide (Some peerPrivateAddress = keyData.(PrivateKeyStore.peerPrivateAddress)))
  then Throw (UnknownKeyError
                (boundToAnotherMessage keyIdHex
                   (templateString keyData.(PrivateKeyStore.peerPrivateAddress))
                   peerPrivateAddress))
  else derDeserializeECDHPrivateKey keyData.(keySerialized) "P-256".

End Store.

(** *** keyStores/testMocks.ts: the in-memory store of the test suite *)

Record MockPrivateKeyStore : Type := {
  sessionKeys : gmap string SessionPrivateKeyData;
  failOnSave : bool;
  failOnFetch : bool;
}.

(** The mock serializes a key as its material (any DER codec would do). *)
Global Instance mockBackend : Backend MockPrivateKeyStore := {|
  saveSessionKeySerialized store keyId keySerialized privateAddress peerPrivateAddress :=
    if store.(failOnSave) then Throw (Error "Denied")
    else Ok {| sessionKeys :=
                 <[keyId := {| keySerialized := keySerialized;
                               privateAddress := privateAddress;
                               peerPrivateAddress := peerPrivateAddress |}]>
                   store.(sessionKeys);
               failOnSave := store.(failOnSave);
               failOnFetch := store.(failOnFetch) |};
  retrieveSessionKeyData store keyId :=
    if store.(failOnFetch) then Throw (Error "Denied")
    else Ok (store.(sessionKeys) !! keyId);
  derSerializePrivateKey key := Ok key.(keyMaterial);
  derDeserializeECDHPrivateKey der curve :=
    Ok {| keyParams := curve; keyMaterial := der |};
|}.

Definition emptyMockStore : MockPrivateKeyStore :=
  {| sessionKeys := ∅; failOnSave := false; failOnFetch := false |}.

(** Two stores with one session key of node [0a] under the key id [ab]:
    in the first the peer address is the empty string, in the second the
    key is bound to the peer [0b]. *)
Definition boundToNobody : MockPrivateKeyStore :=
  {| sessionKeys :=
       {[ "ab" := {| keySerialized := [Byte.x07];
                     privateAddress := "0a";
                     peerPrivateAddress := Some EmptyString |} ]};
     failOnSave := false;
     failOnFetch := false |}.

Definition boundToPeer : MockPrivateKeyStore :=
  {| sessionKeys :=
       {[ "ab" := {| keySerialized := [Byte.x07];
                     privateAddress := "0a";
                     peerPrivateAddress := Some "0b" |} ]};
     failOnSave := false;
     failOnFetch := false |}.

End PrivateKeyStore.

(** ** ASN.1 values (asn1js) *)

Module Asn1.

(** The blocks the library builds itself, and any other block kept by
    its encoding. *)
Inductive Block : Type :=
| BmpString (value : string)
| VisibleString (value : string)
| Integer (valueHex : list byte)
| OctetString (valueHex : list byte)
| AnyBlock (der : list byte).

(** The content octets read as an unsigned big-endian number. *)
Definition unsignedValue (valueHex : list byte) : Z :=
  fold_left (fun acc b => acc * 256 + Z.of_N (Byte.to_N b)) valueHex 0.

(** [integer.toBigInt()]: the content octets of an INTEGER are a
    big-endian two's complement number. *)
Definition toBigInt (valueHex : list byte) : Z :=
  match valueHex with
  | [] => 0
  | b :: _ =>
      if 127 <? Z.of_N (Byte.to_N b)
      then unsignedValue valueHex - 2 ^ (8 * Z.of_nat (length valueHex))
      else unsignedValue valueHex
  end.

End Asn1.

(** ** oids.ts *)

Module oids.
Definition COMMON_NAME : string := "2.5.4.3".
Definition BASIC_CONSTRAINTS : string := "2.5.29.19".
Definition AUTHORITY_KEY : string := "2.5.29.35".
Definition SUBJECT_KEY : string := "2.5.29.14".
Definition ENVELOPED_DATA : string := "1.2.840.113549.1.7.3".
Definition RELAYCORP : string := "0.4.0.127.0.17".
Definition RELAYNET : string := RELAYCORP +:+ ".0".
Definition ORIGINATOR_EPHEMERAL_CERT_SERIAL_NUMBER : string := RELAYNET +:+ ".1.0".
End oids.

(** ** crypto_wrappers/x509/Certificate.ts *)

Module X509.

Definition MAX_PATH_LENGTH_CONSTRAINT : Z := 2.

Record AttributeTypeAndValue : Type := {
  atvType : string;
  atvValue : Asn1.Block;
}.

Record Extension : Type := {
  critical : bool;
  extnID : string;
  extnValue : list byte;
}.

Record BasicConstraints : Type := {
  cA : bool;
  pathLenConstraint : option number;
}.

(** The fields of [pkijs.Certificate] that the wrapper reads or writes. *)
Record PkijsCertificate : Type := {
  version : Z;
  serialNumber : list byte;
  notBefore : Date;
  notAfter : Date;
  subject : list AttributeTypeAndValue;
  issuer : list AttributeTypeAndValue;
  extensions : option (list Extension);
  subjectPublicKeyInfo : option CryptoKey;
  signatureValue : list byte;
}.

Record Certificate : Type := {
  pkijsCertificate : PkijsCertificate;
  privateAddressCache : option string;
}.

(** [new Certificate(pkijsCertificate)] *)
Definition newCertificate (c : PkijsCertificate) : Certificate :=
  {| pkijsCertificate := c; privateAddressCache := None |}.

Definition startDate (c : Certificate) : Date := c.(pkijsCertificate).(notBefore).
Definition expiryDate (c : Certificate) : Date := c.(pkijsCertificate).(notAfter).

Record FullCertificateIssuanceOptions : Type := {
  issuerPrivateKey : CryptoKey;
  subjectPublicKey : CryptoKey;
  commonName : string;
  validityStartDate : option Date;
  validityEndDate : Date;
  issuerCertificate : option Certificate;
  isCA : option bool;
  optPathLenConstraint : option number;
}.

(** What the wrapper calls in asn1js, PKI.js, the crypto engine and
    [crypto_wrappers/_utils]. *)
Class Host : Type := {
  toBER : Asn1.Block -> list byte;
  derDeserialize : list byte -> result Asn1.Block;
  certificateFromSchema : Asn1.Block -> result PkijsCertificate;
  basicConstraintsFromSchema : Asn1.Block -> result BasicConstraints;
  basicConstraintsToBER : BasicConstraints -> list byte;
  authorityKeyIdentifierToBER : Asn1.Block -> list byte;
  getPublicKeyDigest : CryptoKey -> result (list byte);
  getPublicKey : PkijsCertificate -> result CryptoKey;
  importKey : CryptoKey -> result CryptoKey;
  signCertificate : PkijsCertificate -> CryptoKey -> string -> result (list byte);
}.

Section Certificate.
Context `{!Host}.

(** [Certificate.deserialize] *)
Definition deserialize (certDer : list byte) : result Certificate :=
  asn1Value ← derDeserialize certDer;
  pkijsCert ← certificateFromSchema asn1Value;
  Ok (newCertificate pkijsCert).

(** [generatePositiveASN1Integer], given the octets that
    [generateRandom64BitValue] returned: the result is the [valueHex] of
    the INTEGER. *)
Definition generatePositiveASN1Integer (random64 : list byte) : list byte :=
  let signedInteger := random64 in
  match signedInteger with
  | first :: _ =>
      if 127 <? Z.of_N (Byte.to_N first)
      then Byte.x00 :: signedInteger
      else signedInteger
  | [] => signedInteger
  end.

Definition makeBasicConstraintsExtension (cA : bool) (pathLenConstraint : number)
    : result Extension :=
  if ltb pathLenConstraint (Num 0) || ltb (Num MAX_PATH_LENGTH_CONSTRAINT) pathLenConstraint
  then Throw (CertificateError
                ("pathLenConstraint must be between 0 and 2 (got " +:+
                 toString pathLenConstraint +:+ ")"))
  else
    let basicConstraints := {| X509.cA := cA; X509.pathLenConstraint := Some pathLenConstraint |} in
    Ok {| critical := true;
          extnID := oids.BASIC_CONSTRAINTS;
          extnValue := basicConstraintsToBER basicConstraints |}.

Definition makeAuthorityKeyIdExtension (publicKey : CryptoKey) : result Extension :=
  keyDigest ← getPublicKeyDigest publicKey;
  let keyIdEncoded := Asn1.OctetString keyDigest in
  Ok {| critical := false;
        extnID := oids.AUTHORITY_KEY;
        extnValue := authorityKeyIdentifierToBER keyIdEncoded |}.

Definition makeSubjectKeyIdExtension (publicKey : CryptoKey) : result Extension :=
  keyDigest ← getPublicKeyDigest publicKey;
  Ok {| critical := false;
        extnID := oids.SUBJECT_KEY;
        extnValue := toBER (Asn1.OctetString keyDigest) |}.

Definition validateIssuerCertificate (issuerCertificate : Certificate) : result unit :=
  let extensions := default [] issuerCertificate.(pkijsCertificate).(X509.extensions) in
  let matchingExtensions :=
    filter (fun e => e.(extnID) = oids.BASIC_CONSTRAINTS) extensions in
  match matchingExtensions with
  | [] => Throw (CertificateError
                   "Basic constraints extension is missing from issuer certificate")
  | extension :: _ =>
      basicConstraintsAsn1 ← derDeserialize extension.(extnValue);
      basicConstraints ← basicConstraintsFromSchema basicConstraintsAsn1;
      if negb basicConstraints.(cA)
      then Throw (CertificateError "Issuer is not a CA")
      else Ok tt
  end.

Definition cloneAsn1jsValue (value : Asn1.Block) : result Asn1.Block :=
  let valueSerialized := toBER value in
  derDeserialize valueSerialized.

(** [issuerDn.map((attribute) => new AttributeTypeAndValue({ type, value:
    cloneAsn1jsValue(attribute.value) }))] *)
Fixpoint cloneDn (dn : list AttributeTypeAndValue) : result (list AttributeTypeAndValue) :=
  match dn with
  | [] => Ok []
  | attribute :: rest =>
      value ← cloneAsn1jsValue attribute.(atvValue);
      rest' ← cloneDn rest;
      Ok ({| atvType := attribute.(atvType); atvValue := value |} :: rest')
  end.

(** date-fns: [setMilliseconds(date, ms)] sets the field on a copy, and
    [min] picks the earliest date. *)
Definition dateFns_setMilliseconds (tz : TimeZone) (d : Date) (ms : Z) : Date :=
  setMilliseconds tz d ms.
Definition dateFns_min (a b : Date) : Date := Z.min a b.

(** [Certificate.issue]. [now] is what [new Date()] returns and
    [random64] what [generateRandom64BitValue()] returns. *)
Definition issue (tz : TimeZone) (now : Date) (random64 : list byte)
    (options : FullCertificateIssuanceOptions) : result Certificate :=
  let validityStartDate :=
    dateFns_setMilliseconds tz (default now options.(X509.validityStartDate)) 0 in
  let issuerCertificate := options.(X509.issuerCertificate) in
  let validityEndDate :=
    dateFns_setMilliseconds tz
      (match issuerCertificate with
       | Some issuerCertificate =>
           dateFns_min (expiryDate issuerCertificate) options.(X509.validityEndDate)
       | None => options.(X509.validityEndDate)
       end) 0 in
  _ ← throwIf (validityEndDate <? validityStartDate)
        (CertificateError "The end date must be later than the start date");
  _ ← match issuerCertificate with
      | Some issuerCertificate => validateIssuerCertificate issuerCertificate
      | None => Ok tt
      end;
  issuerPublicKey ← match issuerCertificate with
                    | Some issuerCertificate =>
                        getPublicKey issuerCertificate.(pkijsCertificate)
                    | None => Ok options.(subjectPublicKey)
                    end;
  basicConstraintsExt ←
    makeBasicConstraintsExtension
      (bool_decide (options.(isCA) = Some true))
      (default (Num 0) options.(optPathLenConstraint));
  authorityKeyIdExt ← makeAuthorityKeyIdExtension issuerPublicKey;
  subjectKeyIdExt ← makeSubjectKeyIdExtension options.(subjectPublicKey);
  let subjectDn :=
    [ {| atvType := oids.COMMON_NAME;
         atvValue := Asn1.BmpString options.(commonName) |} ] in
  let issuerDn :=
    match issuerCertificate with
    | Some issuerCertificate => issuerCertificate.(pkijsCertificate).(subject)
    | None => subjectDn
    end in
  issuerDnCloned ← cloneDn issuerDn;
  spki ← importKey options.(subjectPublicKey);
  let pkijsCert :=
    {| version := 2;
       serialNumber := generatePositiveASN1Integer random64;
       notBefore := validityStartDate;
       notAfter := validityEndDate;
       subject := subjectDn;
       issuer := issuerDnCloned;
       extensions := Some [basicConstraintsExt; authorityKeyIdExt; subjectKeyIdExt];
       subjectPublicKeyInfo := Some spki;
       signatureValue := [] |} in
  let signatureHashAlgo := options.(issuerPrivateKey).(keyParams) in
  signature ← signCertificate pkijsCert options.(issuerPrivateKey) signatureHashAlgo;
  Ok (newCertificate
        {| version := pkijsCert.(version);
           serialNumber := pkijsCert.(serialNumber);
           notBefore := pkijsCert.(notBefore);
           notAfter := pkijsCert.(notAfter);
           subject := pkijsCert.(subject);
           issuer := pkijsCert.(issuer);
           extensions := pkijsCert.(extensions);
           subjectPublicKeyInfo := pkijsCert.(subjectPublicKeyInfo);
           signatureValue := signature |}).

(** [certificate.validate()], with [currentDate] the value of
    [new Date()]. *)
Definition validate (currentDate : Date) (c : Certificate) : result unit :=
  let x509CertVersion := c.(pkijsCertificate).(version) + 1 in
  _ ← throwIf (negb (x509CertVersion =? 3))
        (CertificateError
           ("Only X.509 v3 certificates are supported (got v" +:+
            Z_toString x509CertVersion +:+ ")"));
  _ ← throwIf (currentDate <? startDate c)
        (CertificateError "Certificate is not yet valid");
  throwIf (expiryDate c <? currentDate)
    (CertificateError "Certificate already expired").

End Certificate.

End X509.

(** ** SessionKey.ts *)

Record SessionKey : Type := {
  keyId : list byte;
  publicKey : CryptoKey;
}.

(** ** crypto_wrappers/cms/envelopedData.ts *)

Module CMS.

Definition AES_CIPHER_MODE : string := "AES-CBC".
Definition AES_KEY_SIZES : list Z := [128; 192; 256].

(** [array.includes(x)] *)
Definition includes (l : list Z) (x : Z) : bool := existsb (Z.eqb x) l.

(** [array.includes(x)] for a number: an array of integers holds no
    other number. *)
Definition includesNumber (l : list Z) (x : number) : bool :=
  match x with
  | Num z => includes l z
  | _ => false
  end.

Record EncryptionOptions : Type := {
  aesKeySize : option number;
}.

(** The value of a [RecipientInfo]: variant 1 holds a
    [KeyTransRecipientInfo], variant 2 a [KeyAgreeRecipientInfo]. *)
Inductive RecipientInfoValue : Type :=
| KeyTransRecipientInfo (ridSerialNumber : list byte)
| KeyAgreeRecipientInfo (originatorDer : list byte) (curveOid : string)
    (subjectKeyIdentifier : list byte)
| OtherRecipientInfo.

Record RecipientInfo : Type := {
  variant : Z;
  value : RecipientInfoValue;
}.

Record Attribute : Type := {
  attrType : string;
  attrValues : list (list byte);
}.

(** The fields of [pkijs.EnvelopedData] that the wrapper reads. *)
Record PkijsEnvelopedData : Type := {
  recipientInfos : list RecipientInfo;
  unprotectedAttrs : option (list Attribute);
  encryptedContent : list byte;
}.

(** [new pkijs.EnvelopedData({ unprotectedAttrs })] *)
Definition newPkijsEnvelopedData (attrs : option (list Attribute)) : PkijsEnvelopedData :=
  {| recipientInfos := []; unprotectedAttrs := attrs; encryptedContent := [] |}.

Record ContentInfo : Type := {
  contentType : string;
  content : Asn1.Block;
}.

(** The two subclasses of the abstract class [EnvelopedData]. *)
Inductive EnvelopedData : Type :=
| SessionlessEnvelopedData (pkijsEnvelopedData : PkijsEnvelopedData)
| SessionEnvelopedData (pkijsEnvelopedData : PkijsEnvelopedData).

Definition pkijsEnvelopedDataOf (e : EnvelopedData) : PkijsEnvelopedData :=
  match e with
  | SessionlessEnvelopedData p | SessionEnvelopedData p => p
  end.

Record SessionEncryptionResult : Type := {
  dhKeyId : list byte;
  dhPrivateKey : CryptoKey;
  envelopedData : EnvelopedData;
}.

(** What the wrapper calls in PKI.js, in [cms/_utils] and in
    [crypto_wrappers/keys]. [pkijsEncrypt] returns the value with its
    ciphertext and, per recipient, the ephemeral ECDH private key if one
    was generated. *)
Class Host : Type := {
  deserializeContentInfo : list byte -> result ContentInfo;
  envelopedDataFromSchema : Asn1.Block -> result PkijsEnvelopedData;
  addRecipientByCertificate :
    PkijsEnvelopedData -> X509.PkijsCertificate -> result PkijsEnvelopedData;
  addRecipientByKeyIdentifier :
    PkijsEnvelopedData -> CryptoKey -> list byte -> result PkijsEnvelopedData;
  pkijsEncrypt :
    PkijsEnvelopedData -> string -> number -> list byte ->
    result (PkijsEnvelopedData * list (option CryptoKey));
  getAlgorithmByOID : string -> result string;
  derDeserializeECDHPublicKey : list byte -> string -> result CryptoKey;
}.

Section EnvelopedData.
Context `{!Host}.

(** [EnvelopedData.deserialize] *)
Definition deserialize (envelopedDataSerialized : list byte) : result EnvelopedData :=
  contentInfo ← deserializeContentInfo envelopedDataSerialized;
  _ ← throwIf (negb (String.eqb contentInfo.(contentType) oids.ENVELOPED_DATA))
        (CMSError ("ContentInfo does not wrap an EnvelopedData value (got OID " +:+
                   contentInfo.(contentType) +:+ ")"));
  pkijsEnvelopedData ←
    tryCatch (envelopedDataFromSchema contentInfo.(content))
             (wrapCause CMSError "Invalid EnvelopedData value");
  let recipientInfosLength := Z.of_nat (length pkijsEnvelopedData.(recipientInfos)) in
  _ ← throwIf (negb (recipientInfosLength =? 1))
        (CMSError ("EnvelopedData must have exactly one RecipientInfo (got " +:+
                   Z_toString recipientInfosLength +:+ ")"));
  match pkijsEnvelopedData.(recipientInfos) with
  | recipientInfo :: _ =>
      _ ← throwIf (negb (includes [1; 2] recipientInfo.(variant)))
            (CMSError ("Unsupported RecipientInfo (variant: " +:+
                       Z_toString recipientInfo.(variant) +:+ ")"));
      Ok (if recipientInfo.(variant) =? 1
          then SessionlessEnvelopedData pkijsEnvelopedData
          else SessionEnvelopedData pkijsEnvelopedData)
  | [] => Throw (Error "Cannot read properties of undefined (reading 'variant')")
  end.

Definition getAesKeySize (aesKeySize : option number) : result number :=
  match aesKeySize with
  | Some size =>
      if truthyNumber aesKeySize && negb (includesNumber AES_KEY_SIZES size)
      then Throw (CMSError ("Invalid AES key size (" +:+ toString size +:+ ")"))
      else Ok (if truthyNumber aesKeySize then size else Num 128)
  | None => Ok (Num 128)
  end.

(** [SessionlessEnvelopedData.encrypt] *)
Definition sessionlessEncrypt (plaintext : list byte) (certificate : X509.Certificate)
    (options : EncryptionOptions) : result EnvelopedData :=
  let pkijsEnvelopedData := newPkijsEnvelopedData None in
  pkijsEnvelopedData ←
    addRecipientByCertificate pkijsEnvelopedData certificate.(X509.pkijsCertificate);
  aesKeySize ← getAesKeySize options.(aesKeySize);
  '(pkijsEnvelopedData, _) ←
    pkijsEncrypt pkijsEnvelopedData AES_CIPHER_MODE aesKeySize plaintext;
  Ok (SessionlessEnvelopedData pkijsEnvelopedData).

(** [SessionEnvelopedData.encrypt]; [random64] is what
    [generateRandom64BitValue()] returns. *)
Definition sessionEncrypt (random64 : list byte) (plaintext : list byte)
    (recipientSessionKey : SessionKey) (options : EncryptionOptions)
    : result SessionEncryptionResult :=
  let dhKeyId := random64 in
  let dhKeyIdAttribute :=
    {| attrType := oids.ORIGINATOR_EPHEMERAL_CERT_SERIAL_NUMBER;
       attrValues := [dhKeyId] |} in
  let pkijsEnvelopedData := newPkijsEnvelopedData (Some [dhKeyIdAttribute]) in
  pkijsEnvelopedData ←
    addRecipientByKeyIdentifier pkijsEnvelopedData
      recipientSessionKey.(publicKey) recipientSessionKey.(keyId);
  aesKeySize ← getAesKeySize options.(aesKeySize);
  '(pkijsEnvelopedData, results) ←
    pkijsEncrypt pkijsEnvelopedData AES_CIPHER_MODE aesKeySize plaintext;
  match results with
  | Some dhPrivateKey :: _ =>
      Ok {| dhKeyId := dhKeyId;
            dhPrivateKey := dhPrivateKey;
            envelopedData := SessionEnvelopedData pkijsEnvelopedData |}
  | _ => Throw (Error "pkijsEncryptionResult is undefined")
  end.

Definition extractOriginatorKeyId (envelopedData : PkijsEnvelopedData) : result (list byte) :=
  let unprotectedAttrs := default [] envelopedData.(unprotectedAttrs) in
  _ ← throwIf (Z.of_nat (length unprotectedAttrs) =? 0)
        (CMSError "unprotectedAttrs must be present when using channel session");
  let matchingAttrs :=
    filter (fun a => a.(attrType) = oids.ORIGINATOR_EPHEMERAL_CERT_SERIAL_NUMBER)
           unprotectedAttrs in
  match matchingAttrs with
  | [] => Throw (CMSError "unprotectedAttrs does not contain originator key id")
  | originatorKeyIdAttr :: _ =>
      let originatorKeyIds := originatorKeyIdAttr.(attrValues) in
      match originatorKeyIds with
      | [serialNumberBlock] => Ok serialNumberBlock
      | _ =>
          Throw (CMSError ("Originator key id attribute must have exactly one value (got " +:+
                           Z_toString (Z.of_nat (length originatorKeyIds)) +:+ ")"))
      end
  end.

(** [SessionEnvelopedData.getOriginatorKey] *)
Definition getOriginatorKey (this : PkijsEnvelopedData) : result SessionKey :=
  keyId ← extractOriginatorKeyId this;
  match this.(recipientInfos) with
  | [] => Throw (Error "Cannot read properties of undefined (reading 'variant')")
  | recipientInfo :: _ =>
      _ ← throwIf (negb (recipientInfo.(variant) =? 2))
            (CMSError ("Expected KeyAgreeRecipientInfo (got variant: " +:+
                       Z_toString recipientInfo.(variant) +:+ ")"));
      match recipientInfo.(value) with
      | KeyAgreeRecipientInfo publicKeyDer curveOid _ =>
          curveName ← getAlgorithmByOID curveOid;
          publicKey ← derDeserializeECDHPublicKey publicKeyDer curveName;
          Ok {| keyId := keyId; publicKey := publicKey |}
      | _ => Throw (Error "Incorrect type of 'recipientInfo.value'. It should be 'KeyAgreeRecipientInfo'")
      end
  end.

End EnvelopedData.

End CMS.

(** ** ramf/serialization.ts *)

Module RAMF.

(** Maximum length of any RAMF message per RS-001. *)
Definition MAX_RAMF_MESSAGE_LENGTH : Z := 9437184.

Definition MAX_RECIPIENT_ADDRESS_LENGTH : Z := 1024.
Definition MAX_ID_LENGTH : Z := 64.
Definition RAMF_MAX_TTL : Z := 15552000.
Definition MAX_PAYLOAD_LENGTH : Z := 2 ^ 23 - 1.

(** Maximum length of any SDU to be encapsulated in a CMS EnvelopedData
    value. *)
Definition MAX_SDU_PLAINTEXT_LENGTH : Z := 8322048.

Definition FORMAT_SIGNATURE_CONSTANT : list byte := Buffer_from "Relaynet".

(** [PRIVATE_ADDRESS_REGEX = /^[a-f0-9]+$/] *)
Definition isLowerHexChar (c : ascii) : bool :=
  let n := N_of_ascii c in
  ((48 <=? n) && (n <=? 57) || (97 <=? n) && (n <=? 102))%N.

Definition matchesPrivateAddressRegex (s : string) : bool :=
  match list_ascii_of_string s with
  | [] => false
  | chars => forallb isLowerHexChar chars
  end.

Record SignatureOptions : Type := {
  hashingAlgorithmName : option string;
  encapsulatePlaintext : option bool;
}.

Record RAMFMessage : Type := {
  recipientAddress : string;
  id : string;
  creationDate : Date;
  ttl : number;
  payloadSerialized : list byte;
  senderCertificate : X509.Certificate;
  senderCaCertificateChain : list X509.Certificate;
}.

Record MessageFormatSignature : Type := {
  concreteMessageType : byte;
  concreteMessageVersion : byte;
}.

Record MessageFieldSet : Type := {
  fsRecipientAddress : string;
  fsId : string;
  fsDate : Date;
  fsTtl : number;
  fsPayload : list byte;
}.

(** The [valueHex] of the five primitive blocks that
    [asn1js.verifySchema] finds under [ASN1_SCHEMA]. *)
Record MessageBlock : Type := {
  blockRecipientAddress : list byte;
  blockId : list byte;
  blockDate : list byte;
  blockTtl : list byte;
  blockPayload : list byte;
}.

(** The result of [cmsSignedData.verifySignature]. *)
Record SignatureVerification : Type := {
  plaintext : list byte;
  signerCertificate : X509.Certificate;
  attachedCertificates : list X509.Certificate;
}.

(** What the codec calls: the [asn1] helpers of the library
    ([makeImplicitlyTaggedSequence], [dateToASN1DateTimeInUTC],
    [asn1DateTimeToDate]), asn1js ([verifySchema] against [ASN1_SCHEMA],
    [new Integer({ value })]), [cms/signedData], [TextDecoder] and
    [new URL(...)]. *)
Class Host : Type := {
  makeImplicitlyTaggedSequence : list Asn1.Block -> list byte;
  dateToASN1DateTimeInUTC : Date -> Asn1.Block;
  integerOfNumber : number -> Asn1.Block;
  asn1DateTimeToDate : list byte -> result Date;
  verifySchema : list byte -> option MessageBlock;
  textDecode : list byte -> string;
  parsesAsURL : string -> bool;
  cmsSign :
    list byte -> CryptoKey -> X509.Certificate -> list X509.Certificate ->
    option SignatureOptions -> result (list byte);
  cmsVerifySignature : list byte -> result SignatureVerification;
}.

(** Modelled from the spec: [generateFormatSignature] of
    [messages/formatSignature] is not among the sources; the format
    signature is the 8 ASCII bytes [Relaynet] followed by the concrete
    message type octet and the concrete message version octet. *)
Definition generateFormatSignature (concreteMessageTypeOctet concreteMessageVersionOctet : byte)
    : list byte :=
  (FORMAT_SIGNATURE_CONSTANT ++ [concreteMessageTypeOctet; concreteMessageVersionOctet])%list.

Definition decimalToHex (numberDecimal : Z) : string :=
  "0x" +:+ toString16 numberDecimal.

Definition octet (b : byte) : Z := Z.of_N (Byte.to_N b).

(** *** Serialization and deserialization validation *)

Definition validateMessageLength (serialization : list byte) : result unit :=
  throwIf (MAX_RAMF_MESSAGE_LENGTH <? byteLength serialization)
    (RAMFSyntaxError ("Message should not be longer than 9 MiB (got " +:+
                      Z_toString (byteLength serialization) +:+ " octets)")).

Definition validateFileFormatSignature (messageFields : MessageFormatSignature)
    (concreteMessageTypeOctet concreteMessageVersionOctet : byte) : result unit :=
  _ ← throwIf (negb (octet messageFields.(concreteMessageType) =? octet concreteMessageTypeOctet))
        (RAMFSyntaxError
           ("Expected concrete message type " +:+
            decimalToHex (octet concreteMessageTypeOctet) +:+ " but got " +:+
            decimalToHex (octet messageFields.(concreteMessageType))));
  throwIf (negb (octet messageFields.(concreteMessageVersion) =? octet concreteMessageVersionOctet))
    (RAMFSyntaxError
       ("Expected concrete message version " +:+
        decimalToHex (octet concreteMessageVersionOctet) +:+ " but got " +:+
        decimalToHex (octet messageFields.(concreteMessageVersion)))).

Definition validateRecipientAddressLength (recipientAddress : string) : result unit :=
  let length := strLength recipientAddress in
  throwIf (MAX_RECIPIENT_ADDRESS_LENGTH <? length)
    (RAMFSyntaxError
       ("Recipient address should not span more than " +:+
        Z_toString MAX_RECIPIENT_ADDRESS_LENGTH +:+ " characters " +:+
        "(got " +:+ Z_toString length +:+ ")")).

Definition validateMessageIdLength (messageId : string) : result unit :=
  let length := strLength messageId in
  throwIf (MAX_ID_LENGTH <? length)
    (RAMFSyntaxError
       ("Id should not span more than " +:+ Z_toString MAX_ID_LENGTH +:+
        " characters (got " +:+ Z_toString length +:+ ")")).

Definition validateTtl (ttl : number) : result unit :=
  _ ← throwIf (ltb ttl (Num 0)) (RAMFSyntaxError "TTL cannot be negative");
  throwIf (ltb (Num RAMF_MAX_TTL) ttl)
    (RAMFSyntaxError ("TTL must be less than " +:+ Z_toString RAMF_MAX_TTL +:+
                      " (got " +:+ toString ttl +:+ ")")).

Definition validatePayloadLength (payloadBuffer : list byte) : result unit :=
  let length := byteLength payloadBuffer in
  throwIf (MAX_PAYLOAD_LENGTH <? length)
    (RAMFSyntaxError ("Payload size must not exceed 8 MiB (got " +:+
                      Z_toString length +:+ " octets)")).

Section Codec.
Context `{!Host}.

Definition validateRecipientAddress (recipientAddress : string) : result unit :=
  if parsesAsURL recipientAddress then Ok tt
  else
    (* The address isn't public. Check if it's private: *)
    throwIf (negb (matchesPrivateAddressRegex recipientAddress))
      (RAMFValidationError
         ("Recipient address should be a valid node address (got: " +:+ dquote +:+
          recipientAddress +:+ dquote +:+ ")")).

(** *** serialize *)

Definition serialize (message : RAMFMessage)
    (concreteMessageTypeOctet concreteMessageVersionOctet : byte)
    (senderPrivateKey : CryptoKey) (signatureOptions : option SignatureOptions)
    : result (list byte) :=
  _ ← validateRecipientAddressLength message.(recipientAddress);
  _ ← validateMessageIdLength message.(id);
  _ ← validateTtl message.(ttl);
  _ ← validatePayloadLength message.(payloadSerialized);
  let formatSignature :=
    generateFormatSignature concreteMessageTypeOctet concreteMessageVersionOctet in
  let fieldSetSerialized :=
    makeImplicitlyTaggedSequence
      [ Asn1.VisibleString message.(recipientAddress);
        Asn1.VisibleString message.(id);
        dateToASN1DateTimeInUTC message.(creationDate);
        integerOfNumber message.(ttl);
        Asn1.OctetString message.(payloadSerialized) ] in
  signature ← cmsSign fieldSetSerialized senderPrivateKey
                message.(senderCertificate) message.(senderCaCertificateChain)
                signatureOptions;
  let serialization := (formatSignature ++ signature)%list in
  Ok serialization.

(** *** deserialize *)

Definition parseMessageFormatSignature (serialization : list byte)
    : result MessageFormatSignature :=
  _ ← throwIf (byteLength serialization <? 10)
        (RAMFSyntaxError "Serialization is too small to contain RAMF format signature");
  let formatSignature := take 10 serialization in
  _ ← throwIf (negb (bool_decide (FORMAT_SIGNATURE_CONSTANT = take 8 formatSignature)))
        (RAMFSyntaxError
           ("RAMF format signature does not begin with " +:+ dquote +:+ "Relaynet" +:+ dquote));
  Ok {| concreteMessageType := nth 8 formatSignature Byte.x00;
        concreteMessageVersion := nth 9 formatSignature Byte.x00 |}.

Definition getDateFromPrimitiveBlock (block : list byte) : result Date :=
  tryCatch (asn1DateTimeToDate block)
           (wrapCause RAMFValidationError "Message date is invalid").

Definition getIntegerFromPrimitiveBlock (block : list byte) : Z :=
  Asn1.toBigInt block.

Definition parseMessageFields (serialization : list byte) : result MessageFieldSet :=
  match verifySchema serialization with
  | None => Throw (RAMFSyntaxError "Invalid RAMF fields")
  | Some messageBlock =>
      let ttlBigInt := getIntegerFromPrimitiveBlock messageBlock.(blockTtl) in
      date ← getDateFromPrimitiveBlock messageBlock.(blockDate);
      Ok {| fsDate := date;
            fsId := textDecode messageBlock.(blockId);
            fsPayload := messageBlock.(blockPayload);
            fsRecipientAddress := textDecode messageBlock.(blockRecipientAddress);
            fsTtl := Number_of_bigint ttlBigInt (* Cannot exceed Number.MAX_SAFE_INTEGER anyway *)
         |}
  end.

Definition verifySignature (cmsSignedDataSerialized : list byte)
    : result SignatureVerification :=
  tryCatch (cmsVerifySignature cmsSignedDataSerialized)
           (wrapCause RAMFValidationError "Invalid RAMF message signature").

Definition deserialize (serialization : list byte)
    (concreteMessageTypeOctet concreteMessageVersionOctet : byte) : result RAMFMessage :=
  _ ← validateMessageLength serialization;
  messageFormatSignature ← parseMessageFormatSignature (take 10 serialization);
  _ ← validateFileFormatSignature messageFormatSignature
        concreteMessageTypeOctet concreteMessageVersionOctet;
  signatureVerification ← verifySignature (drop 10 serialization);
  messageFields ← parseMessageFields signatureVerification.(plaintext);
  _ ← validateRecipientAddressLength messageFields.(fsRecipientAddress);
  _ ← validateRecipientAddress messageFields.(fsRecipientAddress);
  _ ← validateMessageIdLength messageFields.(fsId);
  _ ← validateTtl messageFields.(fsTtl);
  _ ← validatePayloadLength messageFields.(fsPayload);
  Ok {| recipientAddress := messageFields.(fsRecipientAddress);
        senderCertificate := signatureVerification.(signerCertificate);
        payloadSerialized := messageFields.(fsPayload);
        creationDate := messageFields.(fsDate);
        id := messageFields.(fsId);
        senderCaCertificateChain := signatureVerification.(attachedCertificates);
        ttl := messageFields.(fsTtl) |}.

End Codec.

End RAMF.

(** ** nodes/channels/GatewayChannel.ts *)

Module GatewayChannel.

Definition CLOCK_DRIFT_TOLERANCE_HOURS : Z := 3.

Record MessageWithExpiryDate : Type := {
  messageSerialized : list byte;
  expiryDate : Date;
}.

(** The fields of the channel that [generateCargoes] reads. *)
Record Channel : Type := {
  nodePrivateKey : CryptoKey;
  nodeDeliveryAuth : X509.Certificate;
  outboundRAMFAddress : string;
  signatureOptions : option RAMF.SignatureOptions;
}.

(** What the generator calls outside this file:
    [CargoMessageSet.batchMessagesSerialized] (the batches it yields, and
    the error that ends it if it fails), [Channel.wrapMessagePayload] and
    the random id that the message constructor draws. *)
Class Host : Type := {
  batchMessagesSerialized :
    list MessageWithExpiryDate -> list MessageWithExpiryDate * option error;
  wrapMessagePayload : Channel -> list byte -> result (list byte);
  uuid4 : nat -> string;
}.

Definition getCargoCreationTime (tz : TimeZone) (now : Date) : Date :=
  let creationDate := now in
  let creationDate := setMilliseconds tz creationDate 0 in
  let creationDate :=
    setHours tz creationDate (getHours tz creationDate - CLOCK_DRIFT_TOLERANCE_HOURS) in
  creationDate.

Definition getSecondsBetweenDates (date expiryDate : Date) : Z :=
  (getTime expiryDate - getTime date) / 1000.

(** Modelled from the spec: [messages/Cargo] is not among the sources; a
    cargo is a RAMF message with type octet 0x43 and version 0x00. *)
Definition CARGO_TYPE_OCTET : byte := Byte.x43.
Definition CARGO_VERSION_OCTET : byte := Byte.x00.

Section Generator.
Context `{!Host} `{!RAMF.Host}.

Definition encryptPayload (this : Channel) (payloadPlaintext : list byte)
    : result (list byte) :=
  wrapMessagePayload this payloadPlaintext.

(** The [Cargo] that one iteration of the loop builds for a batch; [now]
    is what [new Date()] returns in that iteration and [n] counts the
    ids drawn so far. *)
Definition makeCargo (tz : TimeZone) (this : Channel) (now : Date) (n : nat)
    (batch : MessageWithExpiryDate) : result RAMF.RAMFMessage :=
  let recipientAddress := this.(outboundRAMFAddress) in
  let creationDate := getCargoCreationTime tz now in
  let ttl := getSecondsBetweenDates creationDate batch.(expiryDate) in
  payload ← encryptPayload this batch.(messageSerialized);
  Ok {| RAMF.recipientAddress := recipientAddress;
        RAMF.senderCertificate := this.(nodeDeliveryAuth);
        RAMF.payloadSerialized := payload;
        RAMF.creationDate := creationDate;
        RAMF.ttl := Num (Math_min ttl RAMF.RAMF_MAX_TTL);
        RAMF.id := uuid4 n;
        RAMF.senderCaCertificateChain := [] |}.

(** The body of the loop: build the cargo, serialize it and yield it. *)
Definition cargoStep (tz : TimeZone) (this : Channel) (now : Date) (n : nat)
    (batch : MessageWithExpiryDate) : result (list byte) :=
  cargo ← makeCargo tz this now n batch;
  RAMF.serialize cargo CARGO_TYPE_OCTET CARGO_VERSION_OCTET
    this.(nodePrivateKey) this.(signatureOptions).

(** The buffers yielded, in order, and the error that ends the
    generator if an iteration throws; [clock n] is the time at the [n]th
    iteration. *)
Fixpoint cargoLoop (tz : TimeZone) (this : Channel) (clock : nat -> Date) (n : nat)
    (batches : list MessageWithExpiryDate) (failure : option error)
    : list (list byte) * option error :=
  match batches with
  | [] => ([], failure)
  | batch :: rest =>
      match cargoStep tz this (clock n) n batch with
      | Ok cargoSerialized =>
          let '(yielded, e) := cargoLoop tz this clock (S n) rest failure in
          (cargoSerialized :: yielded, e)
      | Throw e => ([], Some e)
      end
  end.

Definition generateCargoes (tz : TimeZone) (this : Channel) (clock : nat -> Date)
    (messages : list MessageWithExpiryDate) : list (list byte) * option error :=
  let '(cargoMessageSets, failure) := batchMessagesSerialized messages in
  cargoLoop tz this clock 0 cargoMessageSets failure.

End Generator.

End GatewayChannel.

(** ** Test doubles

    Small hosts in the manner of [keyStores/testMocks.ts], used to run the
    functions above on concrete inputs. Their encodings are not DER: a
    block is a tag octet followed by its content, and a field set is a
    sequence of fields, each preceded by its length in one octet. *)

Module Mock.

Definition bytesToString (b : list byte) : string :=
  string_of_list_ascii (map ascii_of_byte b).

Definition oneOctet (n : Z) : byte :=
  default Byte.x00 (Byte.of_N (Z.to_N n)).

(** The [n] low octets of [z], most significant first. *)
Fixpoint bigEndian (n : nat) (z : Z) : list byte :=
  match n with
  | O => []
  | S n' => (bigEndian n' (z / 256) ++ [oneOctet (z mod 256)])%list
  end.

Definition mockToBER (b : Asn1.Block) : list byte :=
  match b with
  | Asn1.BmpString s => Byte.x1e :: Buffer_from s
  | Asn1.VisibleString s => Byte.x1a :: Buffer_from s
  | Asn1.Integer v => Byte.x02 :: v
  | Asn1.OctetString v => Byte.x04 :: v
  | Asn1.AnyBlock der => der
  end.

Definition mockDerDeserialize (der : list byte) : result Asn1.Block :=
  match der with
  | [] => Throw (Error "Value is not DER-encoded")
  | tag :: content =>
      if bool_decide (tag = Byte.x1e) then Ok (Asn1.BmpString (bytesToString content))
      else if bool_decide (tag = Byte.x1a) then Ok (Asn1.VisibleString (bytesToString content))
      else if bool_decide (tag = Byte.x02) then Ok (Asn1.Integer content)
      else if bool_decide (tag = Byte.x04) then Ok (Asn1.OctetString content)
      else Ok (Asn1.AnyBlock der)
  end.

(** A mock certificate is encoded as a SEQUENCE tag, its version and its
    two validity dates in seconds, one octet each. *)
Definition mockCertificateFromSchema (b : Asn1.Block) : result X509.PkijsCertificate :=
  match b with
  | Asn1.AnyBlock [tag; version; notBefore; notAfter] =>
      if bool_decide (tag = Byte.x30)
      then Ok {| X509.version := RAMF.octet version;
                 X509.serialNumber := [Byte.x01];
                 X509.notBefore := 1000 * RAMF.octet notBefore;
                 X509.notAfter := 1000 * RAMF.octet notAfter;
                 X509.subject := [];
                 X509.issuer := [];
                 X509.extensions := None;
                 X509.subjectPublicKeyInfo := None;
                 X509.signatureValue := [] |}
      else Throw (Error "Object's schema was not verified against input data for Certificate")
  | _ => Throw (Error "Object's schema was not verified against input data for Certificate")
  end.

Global Instance x509Host : X509.Host := {|
  X509.toBER := mockToBER;
  X509.derDeserialize := mockDerDeserialize;
  X509.certificateFromSchema := mockCertificateFromSchema;
  X509.basicConstraintsFromSchema b :=
    match b with
    | Asn1.AnyBlock [_; flag] =>
        Ok {| X509.cA := negb (bool_decide (flag = Byte.x00));
              X509.pathLenConstraint := None |}
    | _ => Throw (Error "Object's schema was not verified against input data for BasicConstraints")
    end;
  X509.basicConstraintsToBER bc :=
    [Byte.x30; if bc.(X509.cA) then Byte.xff else Byte.x00];
  X509.authorityKeyIdentifierToBER keyId := Byte.x30 :: mockToBER keyId;
  X509.getPublicKeyDigest key := Ok key.(keyMaterial);
  X509.getPublicKey c :=
    match c.(X509.subjectPublicKeyInfo) with
    | Some key => Ok key
    | None => Throw (Error "No public key")
    end;
  X509.importKey key := Ok key;
  X509.signCertificate c key hash := Ok key.(keyMaterial);
|}.

(** A mock EnvelopedData is encoded with one octet per RecipientInfo,
    holding its variant. *)
Global Instance cmsHost : CMS.Host := {|
  CMS.deserializeContentInfo der :=
    Ok {| CMS.contentType := oids.ENVELOPED_DATA; CMS.content := Asn1.AnyBlock der |};
  CMS.envelopedDataFromSchema b :=
    Ok {| CMS.recipientInfos :=
            map (fun v => {| CMS.variant := RAMF.octet v;
                             CMS.value := CMS.OtherRecipientInfo |})
                (mockToBER b);
          CMS.unprotectedAttrs := None;
          CMS.encryptedContent := [] |};
  CMS.addRecipientByCertificate p c :=
    Ok {| CMS.recipientInfos :=
            [{| CMS.variant := 1;
                CMS.value := CMS.KeyTransRecipientInfo c.(X509.serialNumber) |}];
          CMS.unprotectedAttrs := p.(CMS.unprotectedAttrs);
          CMS.encryptedContent := p.(CMS.encryptedContent) |};
  CMS.addRecipientByKeyIdentifier p key keyId :=
    Ok {| CMS.recipientInfos :=
            [{| CMS.variant := 2;
                CMS.value := CMS.KeyAgreeRecipientInfo key.(keyMaterial) key.(keyParams) keyId |}];
          CMS.unprotectedAttrs := p.(CMS.unprotectedAttrs);
          CMS.encryptedContent := p.(CMS.encryptedContent) |};
  CMS.pkijsEncrypt p mode keyLength plaintext :=
    Ok ({| CMS.recipientInfos := p.(CMS.recipientInfos);
           CMS.unprotectedAttrs := p.(CMS.unprotectedAttrs);
           CMS.encryptedContent := plaintext |},
        [Some {| keyParams := "P-256";
                 keyMaterial := match keyLength with
                                | Num bits => [oneOctet (bits / 8)]
                                | _ => []
                                end |}]);
  CMS.getAlgorithmByOID oid := Ok oid;
  CMS.derDeserializeECDHPublicKey der curve :=
    Ok {| keyParams := curve; keyMaterial := der |};
|}.

Definition blockContent (b : Asn1.Block) : list byte :=
  match b with
  | Asn1.BmpString s | Asn1.VisibleString s => Buffer_from s
  | Asn1.Integer v | Asn1.OctetString v | Asn1.AnyBlock v => v
  end.

Definition writeFields (blocks : list Asn1.Block) : list byte :=
  concat (map (fun b => oneOctet (byteLength (blockContent b)) :: blockContent b) blocks).

Fixpoint readFields (n : nat) (bs : list byte) : option (list (list byte)) :=
  match n with
  | O => match bs with [] => Some [] | _ => None end
  | S n' =>
      match bs with
      | [] => None
      | len :: rest =>
          let k := Z.to_nat (RAMF.octet len) in
          if (k <=? length rest)%nat
          then fields ← readFields n' (drop k rest); Some (take k rest :: fields)
          else None
      end
  end.

(** [new URL(s)] without a base fails unless [s] starts with a scheme: a
    letter, then letters, digits, [+], [-] or [.], then a colon. The mock
    accepts exactly the strings that start with a scheme. *)
Definition isAlpha (c : ascii) : bool :=
  let n := N_of_ascii c in
  ((65 <=? n) && (n <=? 90) || (97 <=? n) && (n <=? 122))%N.

Definition isSchemeChar (c : ascii) : bool :=
  let n := N_of_ascii c in
  (isAlpha c || (48 <=? n) && (n <=? 57) || (n =? 43) || (n =? 45) || (n =? 46))%N.

Fixpoint schemeRest (s : string) : bool :=
  match s with
  | EmptyString => false
  | String c rest => if (N_of_ascii c =? 58)%N then true
                     else isSchemeChar c && schemeRest rest
  end.

Definition startsWithScheme (s : string) : bool :=
  match s with
  | EmptyString => false
  | String c rest => isAlpha c && schemeRest rest
  end.

Definition mockCertificate : X509.Certificate :=
  X509.newCertificate
    {| X509.version := 2;
       X509.serialNumber := [Byte.x01];
       X509.notBefore := 0;
       X509.notAfter := 86400000;
       X509.subject := [ {| X509.atvType := oids.COMMON_NAME;
                            X509.atvValue := Asn1.BmpString "0deadbeef" |} ];
       X509.issuer := [ {| X509.atvType := oids.COMMON_NAME;
                           X509.atvValue := Asn1.BmpString "0deadbeef" |} ];
       X509.extensions :=
         Some [ {| X509.critical := true;
                   X509.extnID := oids.BASIC_CONSTRAINTS;
                   X509.extnValue := [Byte.x30; Byte.xff] |} ];
       X509.subjectPublicKeyInfo := Some {| keyParams := "SHA-256"; keyMaterial := [Byte.x07] |};
       X509.signatureValue := [Byte.x07] |}.

(** The mock SignedData is the plaintext followed by the signature
    octets of each certificate of the chain; verification takes the whole
    value as the plaintext of a message signed by [mockCertificate]. *)
Global Instance ramfHost : RAMF.Host := {|
  RAMF.makeImplicitlyTaggedSequence := writeFields;
  RAMF.dateToASN1DateTimeInUTC d := Asn1.AnyBlock (bigEndian 8 (d / 1000));
  RAMF.integerOfNumber n :=
    match n with
    | Num z => Asn1.Integer (bigEndian 8 z)
    | _ => Asn1.Integer []
    end;
  RAMF.asn1DateTimeToDate block := Ok (1000 * Asn1.unsignedValue block);
  RAMF.verifySchema serialization :=
    match readFields 5 serialization with
    | Some [recipientAddress; id; date; ttl; payload] =>
        Some {| RAMF.blockRecipientAddress := recipientAddress;
                RAMF.blockId := id;
                RAMF.blockDate := date;
                RAMF.blockTtl := ttl;
                RAMF.blockPayload := payload |}
    | _ => None
    end;
  RAMF.textDecode := bytesToString;
  RAMF.parsesAsURL := startsWithScheme;
  RAMF.cmsSign plaintext key certificate chain options :=
    Ok (plaintext ++ concat (map (fun c => c.(X509.pkijsCertificate).(X509.signatureValue)) chain))%list;
  RAMF.cmsVerifySignature signedData :=
    Ok {| RAMF.plaintext := signedData;
          RAMF.signerCertificate := mockCertificate;
          RAMF.attachedCertificates := [] |};
|}.

Global Instance channelHost : GatewayChannel.Host := {|
  GatewayChannel.batchMessagesSerialized messages := (messages, None);
  GatewayChannel.wrapMessagePayload this payload := Ok payload;
  GatewayChannel.uuid4 n := "00000000-0000-4000-8000-" +:+ Z_toString (Z.of_nat n);
|}.

Definition mockKey : CryptoKey := {| keyParams := "SHA-256"; keyMaterial := [Byte.x07] |}.

Definition mockMessage (recipientAddress : string) (ttl : number) : RAMF.RAMFMessage :=
  {| RAMF.recipientAddress := recipientAddress;
     RAMF.id := "msg-1";
     RAMF.creationDate := 1750000000000;
     RAMF.ttl := ttl;
     RAMF.payloadSerialized := [Byte.xab; Byte.xab];
     RAMF.senderCertificate := mockCertificate;
     RAMF.senderCaCertificateChain := [] |}.

(** A serialization in the mock encoding, for a parcel (type 0x50,
    version 0) with the given recipient address and TTL octets. *)
Definition mockWire (recipientAddress : string) (ttlOctets : list byte) : list byte :=
  (RAMF.generateFormatSignature Byte.x50 Byte.x00 ++
   writeFields [ Asn1.VisibleString recipientAddress;
                 Asn1.VisibleString "msg-1";
                 Asn1.AnyBlock (bigEndian 8 1750000000);
                 Asn1.Integer ttlOctets;
                 Asn1.OctetString [Byte.xab; Byte.xab] ])%list.

Definition mockFields (recipientAddress : string) (ttl : number) : RAMF.MessageFieldSet :=
  {| RAMF.fsRecipientAddress := recipientAddress;
     RAMF.fsId := "msg-1";
     RAMF.fsDate := 1750000000000;
     RAMF.fsTtl := ttl;
     RAMF.fsPayload := [Byte.xab; Byte.xab] |}.

(** An address of 1025 characters. *)
Definition longAddress : string := string_of_list_ascii (repeat "a"%char 1025).

Definition mockVerification (signedData : list byte) : RAMF.SignatureVerification :=
  {| RAMF.plaintext := signedData;
     RAMF.signerCertificate := mockCertificate;
     RAMF.attachedCertificates := [] |}.

(** The octets of [2^53], one more than [Number.MAX_SAFE_INTEGER]. *)
Definition unsafeTtlOctets : list byte :=
  [Byte.x20; Byte.x00; Byte.x00; Byte.x00; Byte.x00; Byte.x00; Byte.x00].


(** A certificate whose signature has [n] octets. *)
Definition certificateOfSize (n : Z) : X509.Certificate :=
  X509.newCertificate
    {| X509.version := 2;
       X509.serialNumber := [Byte.x01];
       X509.notBefore := 0;
       X509.notAfter := 86400000;
       X509.subject := [];
       X509.issuer := [];
       X509.extensions := None;
       X509.subjectPublicKeyInfo := None;
       X509.signatureValue := repeat Byte.x00 (Z.to_nat n) |}.

(** Options for a certificate issued under [mockCertificate], asking for
    an end date after the issuer's. *)
Definition mockIssuanceOptions : X509.FullCertificateIssuanceOptions :=
  {| X509.issuerPrivateKey := mockKey;
     X509.subjectPublicKey := {| keyParams := "SHA-256"; keyMaterial := [Byte.x09] |};
     X509.commonName := "0cafe";
     X509.validityStartDate := Some 1500;
     X509.validityEndDate := 172800999;
     X509.issuerCertificate := Some mockCertificate;
     X509.isCA := None;
     X509.optPathLenConstraint := None |}.


(** Central European time around the start of summer time in 2025: the
    offset goes from one hour to two at 2025-03-30T01:00:00Z. *)
Definition centralEuropeanZone : TimeZone :=
  zoneWithTransition 1743296400000 3600000 7200000.

(** Central European time around the end of summer time in 2025: the
    offset goes from two hours to one at 2025-10-26T01:00:00Z, and the
    local hour from 02:00 to 03:00 is repeated. *)
Definition endOfSummerTimeZone : TimeZone :=
  zoneWithTransition 1761440400000 7200000 3600000.

(** An issuer like [mockCertificate] that expires in 2030, and options
    under it that start at 00:43:20Z on that day and end at
    01:10:00.200Z, in the second pass of the repeated hour. *)
Definition longLivedIssuer : X509.Certificate :=
  X509.newCertificate
    {| X509.version := 2;
       X509.serialNumber := [Byte.x01];
       X509.notBefore := 0;
       X509.notAfter := 1900000000000;
       X509.subject := [ {| X509.atvType := oids.COMMON_NAME;
                            X509.atvValue := Asn1.BmpString "0deadbeef" |} ];
       X509.issuer := [ {| X509.atvType := oids.COMMON_NAME;
                           X509.atvValue := Asn1.BmpString "0deadbeef" |} ];
       X509.extensions :=
         Some [ {| X509.critical := true;
                   X509.extnID := oids.BASIC_CONSTRAINTS;
                   X509.extnValue := [Byte.x30; Byte.xff] |} ];
       X509.subjectPublicKeyInfo := Some {| keyParams := "SHA-256"; keyMaterial := [Byte.x07] |};
       X509.signatureValue := [Byte.x07] |}.

Definition repeatedHourOptions : X509.FullCertificateIssuanceOptions :=
  {| X509.issuerPrivateKey := mockKey;
     X509.subjectPublicKey := {| keyParams := "SHA-256"; keyMaterial := [Byte.x09] |};
     X509.commonName := "0cafe";
     X509.validityStartDate := Some 1761439400000;
     X509.validityEndDate := 1761441000200;
     X509.issuerCertificate := Some longLivedIssuer;
     X509.isCA := None;
     X509.optPathLenConstraint := None |}.

Definition mockChannel : GatewayChannel.Channel :=
  {| GatewayChannel.nodePrivateKey := mockKey;
     GatewayChannel.nodeDeliveryAuth := mockCertificate;
     GatewayChannel.outboundRAMFAddress := "https://gateway.example";
     GatewayChannel.signatureOptions := None |}.

(** A message with a short payload and the given chain. *)
Definition messageWithChain (chain : list X509.Certificate) : RAMF.RAMFMessage :=
  {| RAMF.recipientAddress := "0deadbeef";
     RAMF.id := "msg-1";
     RAMF.creationDate := 1750000000000;
     RAMF.ttl := Num 1000;
     RAMF.payloadSerialized := [Byte.xab; Byte.xab];
     RAMF.senderCertificate := mockCertificate;
     RAMF.senderCaCertificateChain := chain |}.

End Mock.

(** ** crypto_wrappers/x509/Certificate.ts: the other methods *)

Module CertificateOps.
Import X509.

(** What these methods call beyond [X509.Host]:
    [getPrivateAddressFromIdentityKey] of [crypto_wrappers/keys] and the
    [parsedValue] that PKI.js computes for an AuthorityKeyIdentifier
    extension ([None] when it is not an AuthorityKeyIdentifier,
    [Some None] when it has no [keyIdentifier]). *)
Class Host : Type := {
  getPrivateAddressFromIdentityKey : CryptoKey -> result string;
  authorityKeyIdentifierOf : list byte -> option (option (list byte));
}.

(** [block.valueBlock.value] for a block that holds a string. *)
Definition stringValue (b : Asn1.Block) : option string :=
  match b with
  | Asn1.BmpString value | Asn1.VisibleString value => Some value
  | _ => None
  end.

(** [certificate.getSerialNumber()]: the content octets of the INTEGER. *)
Definition getSerialNumber (this : Certificate) : list byte :=
  let serialNumberBlock := this.(pkijsCertificate).(serialNumber) in
  serialNumberBlock.

Definition getSerialNumberHex (this : Certificate) : string :=
  let serialNumber := getSerialNumber this in
  Buffer_toHex serialNumber.

(** [certificate.getCommonName()]; the result is [None] when the value
    of the attribute is not a string. *)
Definition getCommonName (this : Certificate) : result (option string) :=
  let matchingDnAttr :=
    filter (fun a => a.(atvType) = oids.COMMON_NAME) this.(pkijsCertificate).(subject) in
  match matchingDnAttr with
  | [] => Throw (CertificateError "Distinguished Name does not contain Common Name")
  | first :: _ => Ok (stringValue first.(atvValue))
  end.

Section Methods.
Context `{!X509.Host} `{!Host}.

(** [certificate.calculateSubjectPrivateAddress()]: the address and the
    certificate with its cache. *)
Definition calculateSubjectPrivateAddress (this : Certificate)
    : result (string * Certificate) :=
  if negb (truthyString this.(privateAddressCache))
  then
    key ← getPublicKey this.(pkijsCertificate);
    address ← getPrivateAddressFromIdentityKey key;
    Ok (address,
        {| pkijsCertificate := this.(pkijsCertificate);
           privateAddressCache := Some address |})
  else Ok (default EmptyString this.(privateAddressCache), this).

(** [certificate.getIssuerPrivateAddress()] *)
Definition getIssuerPrivateAddress (this : Certificate) : result (option string) :=
  let authorityKeyAttribute :=
    match this.(pkijsCertificate).(extensions) with
    | Some extensions =>
        List.find (fun attr => bool_decide (attr.(extnID) = oids.AUTHORITY_KEY)) extensions
    | None => None
    end in
  match authorityKeyAttribute with
  | None => Ok None
  | Some authorityKeyAttribute =>
      match authorityKeyIdentifierOf authorityKeyAttribute.(extnValue) with
      | None =>
          Throw (Error "Incorrect type of 'authorityKeyId'. It should be 'AuthorityKeyIdentifier'")
      | Some None =>
          Throw (Error "Required parameter 'authorityKeyId.keyIdentifier' is missing")
      | Some (Some keyIdentifier) =>
          let id := Buffer_toHex keyIdentifier in
          Ok (Some ("0" +:+ id))
      end
  end.

End Methods.

End CertificateOps.

(** ** crypto_wrappers/keyGenerators.ts *)

Module KeyGenerators.

Record CryptoKeyPair : Type := {
  privateKey : CryptoKey;
  publicKey : CryptoKey;
}.

Record RSAKeyGenOptions : Type := {
  modulus : option number;
  hashingAlgorithm : option string;
}.

(** [cryptoEngine.generateKey] for an RSA-PSS key of a modulus length and
    hash, and for an ECDH key on a named curve. The engine is given the
    name of the hash as the caller wrote it. *)
Class Engine : Type := {
  generateRSAPSSKey : number -> string -> result CryptoKeyPair;
  generateECDHKey : string -> result CryptoKeyPair;
}.

Section Generators.
Context `{!Engine}.

Definition generateRSAKeyPair (options : RSAKeyGenOptions) : result CryptoKeyPair :=
  let modulus := default (Num 2048) options.(KeyGenerators.modulus) in
  let hashingAlgorithm := default "SHA-256" options.(KeyGenerators.hashingAlgorithm) in
  _ ← throwIf (ltb modulus (Num 2048))
        (Error ("RSA modulus must be => 2048 per RS-018 (got " +:+ toString modulus +:+ ")"));
  (* RS-018 disallows MD5 and SHA-1, but only SHA-1 is supported in WebCrypto *)
  _ ← throwIf (String.eqb hashingAlgorithm "SHA-1") (Error "SHA-1 is disallowed by RS-018");
  generateRSAPSSKey modulus hashingAlgorithm.

Definition generateECDHKeyPair (curveName : option string) : result CryptoKeyPair :=
  generateECDHKey (default "P-256" curveName).

End Generators.

End KeyGenerators.

(** ** keyStores/PrivateKeyStore.ts: identity keys *)

Module IdentityKeys.
Import KeyGenerators.

Record IdentityKeyPair : Type := {
  keyPair : CryptoKeyPair;
  privateAddress : string;
}.

(** The abstract methods for identity keys, the overridable
    [generateRSAKeyPair] and [getPrivateAddressFromIdentityKey]. *)
Class Backend (S : Type) : Type := {
  saveIdentityKey : S -> string -> CryptoKey -> result S;
  retrieveIdentityKey : S -> string -> result (option CryptoKey);
  storeGenerateRSAKeyPair : RSAKeyGenOptions -> result CryptoKeyPair;
  getPrivateAddressFromIdentityKey : CryptoKey -> result string;
}.

Section Store.
Context {S : Type} `{!Backend S}.

Definition generateIdentityKeyPair (store : S) (keyOptions : RSAKeyGenOptions)
    : result (IdentityKeyPair * S) :=
  keyPair ← storeGenerateRSAKeyPair keyOptions;
  privateAddress ← getPrivateAddressFromIdentityKey keyPair.(publicKey);
  store' ← tryCatch (saveIdentityKey store privateAddress keyPair.(privateKey))
                    (wrapCause KeyStoreError ("Failed to save key for " +:+ privateAddress));
  Ok ({| keyPair := keyPair; privateAddress := privateAddress |}, store').

End Store.

(** *** keyStores/testMocks.ts: the identity keys of [MockPrivateKeyStore] *)

Record MockIdentityKeyStore : Type := {
  identityKeys : gmap string CryptoKey;
  failOnSave : bool;
}.

(** The mock store with the default [generateRSAKeyPair], over a crypto
    engine and an address function. *)
Definition mockBackend `{!Engine} (addressOf : CryptoKey -> result string)
    : Backend MockIdentityKeyStore := {|
  saveIdentityKey store privateAddress privateKey :=
    if store.(failOnSave) then Throw (Error "Denied")
    else Ok {| identityKeys := <[privateAddress := privateKey]> store.(identityKeys);
               failOnSave := store.(failOnSave) |};
  retrieveIdentityKey store privateAddress := Ok (store.(identityKeys) !! privateAddress);
  storeGenerateRSAKeyPair := generateRSAKeyPair;
  getPrivateAddressFromIdentityKey := addressOf;
|}.

End IdentityKeys.

(** ** keyStores/testMocks.ts: [MockPrivateKeyStore] over any key codec *)

Module SessionKeyMock.
Import PrivateKeyStore.

(** The session-key methods of [MockPrivateKeyStore], with the two
    functions of [crypto_wrappers/keys] as parameters. *)
Definition mockBackendWith
    (serializeKey : CryptoKey -> result (list byte))
    (deserializeKey : list byte -> string -> result CryptoKey)
    : Backend MockPrivateKeyStore := {|
  saveSessionKeySerialized store keyId keySerialized privateAddress peerPrivateAddress :=
    if store.(failOnSave) then Throw (Error "Denied")
    else Ok {| sessionKeys :=
                 <[keyId := {| keySerialized := keySerialized;
                               privateAddress := privateAddress;
                               peerPrivateAddress := peerPrivateAddress |}]>
                   store.(sessionKeys);
               failOnSave := store.(failOnSave);
               failOnFetch := store.(failOnFetch) |};
  retrieveSessionKeyData store keyId :=
    if store.(failOnFetch) then Throw (Error "Denied")
    else Ok (store.(sessionKeys) !! keyId);
  derSerializePrivateKey := serializeKey;
  derDeserializeECDHPrivateKey := deserializeKey;
|}.

End SessionKeyMock.

(** ** keyStores/testMocks.ts: [MockCertificateStore] *)

Module MockCertificateStore.

Record MockStoredCertificateData : Type := {
  expiryDate : Date;
  serialization : list byte;
  issuerPrivateAddress : string;
}.

(** The object is a map from private addresses, which are made of a
    zero and lower-case hexadecimal digits and so name no inherited
    property of the object. *)
Record Store : Type := {
  dataByPrivateAddress : gmap string (list MockStoredCertificateData);
}.

(** [array.sort(compare)]: the sort is stable; [compare a b < 0] puts
    [a] first. *)
Fixpoint sortInsert {A : Type} (compare : A -> A -> Z) (x : A) (sorted : list A) : list A :=
  match sorted with
  | [] => [x]
  | y :: rest =>
      if compare x y <=? 0 then x :: y :: rest else y :: sortInsert compare x rest
  end.

Fixpoint Array_sort {A : Type} (compare : A -> A -> Z) (array : list A) : list A :=
  match array with
  | [] => []
  | x :: rest => sortInsert compare x (Array_sort compare rest)
  end.

Definition clear (this : Store) : Store := {| dataByPrivateAddress := ∅ |}.

Definition matchingData (this : Store) (subjectPrivateAddress issuerPrivateAddress : string)
    : list MockStoredCertificateData :=
  let certificateData := default [] (this.(dataByPrivateAddress) !! subjectPrivateAddress) in
  filter (fun d => d.(MockCertificateStore.issuerPrivateAddress) = issuerPrivateAddress)
         certificateData.

Definition retrieveAllSerializations (this : Store)
    (subjectPrivateAddress issuerPrivateAddress : string) : list (list byte) :=
  let matchingCertificateData := matchingData this subjectPrivateAddress issuerPrivateAddress in
  if Z.of_nat (length matchingCertificateData) =? 0 then []
  else map serialization matchingCertificateData.

Definition retrieveLatestSerialization (this : Store)
    (subjectPrivateAddress issuerPrivateAddress : string) : option (list byte) :=
  let matchingCertificateData := matchingData this subjectPrivateAddress issuerPrivateAddress in
  if Z.of_nat (length matchingCertificateData) =? 0 then None
  else
    let dataSorted :=
      Array_sort (fun a b => getTime b.(expiryDate) - getTime a.(expiryDate))
                 matchingCertificateData in
    match dataSorted with
    | first :: _ => Some first.(serialization)
    | [] => None
    end.

Definition saveData (this : Store) (serialization : list byte)
    (subjectPrivateAddress : string) (subjectCertificateExpiryDate : Date)
    (issuerPrivateAddress : string) : Store :=
  let mockData :=
    {| serialization := serialization;
       expiryDate := subjectCertificateExpiryDate;
       issuerPrivateAddress := issuerPrivateAddress |} in
  let originalCertificateData :=
    default [] (this.(dataByPrivateAddress) !! subjectPrivateAddress) in
  {| dataByPrivateAddress :=
       <[subjectPrivateAddress := (originalCertificateData ++ [mockData])%list]>
         this.(dataByPrivateAddress) |}.

End MockCertificateStore.

(** ** Public address resolution (source file without a name) *)

Module PublicAddressing.

Definition CLOUDFLARE_RESOLVER_URL : string := "https://cloudflare-dns.com/dns-query".

Record PublicNodeAddress : Type := {
  host : string;
  port : option Z;
}.

Inductive BindingType : Type := CRC | GSC | PDC.

Definition bindingTypeValue (b : BindingType) : string :=
  match b with
  | CRC => "awala-crc"
  | GSC => "awala-gsc"
  | PDC => "awala-pdc"
  end.

(** An error of the DNS-over-HTTPS client. *)
Record DohError : Type := {
  errno : option string;
  errorMessage : string;
}.

(** What the function throws: the [TypeError] of [new URL], its own two
    classes, and an error of the client thrown again as it came. *)
Inductive failure : Type :=
| TypeError (message : string)
| UnreachableResolverError (message : string)
| PublicAddressingError (message : string)
| Rethrown (error : DohError).

Record URLParts : Type := {
  hostname : string;
  urlPort : string;
}.

Record SrvData : Type := {
  target : option string;
  srvPort : option Z;
}.

Record Answer : Type := {
  answerType : string;
  data : option SrvData;
}.

Record LookupResult : Type := {
  rcode : string;
  flag_ad : bool;
  answers : list Answer;
}.

(** [new URL(...)], [None] when it throws, and the SRV lookup
    [doh.getDNS({ dnssec: true, name, rrtype: 'SRV', decode: true })] of
    the client made for a resolver URL. *)
Class Resolver : Type := {
  parseURL : string -> option URLParts;
  getDNS : string -> string -> DohError + LookupResult;
}.

(** [parseInt(s, 10)]; [None] is NaN. *)
Definition isWhiteSpace (c : ascii) : bool :=
  let n := N_of_ascii c in
  ((9 <=? n) && (n <=? 13) || (n =? 32) || (n =? 160))%N.

Definition digitValue (c : ascii) : option Z :=
  let n := N_of_ascii c in
  if ((48 <=? n) && (n <=? 57))%N then Some (Z.of_N n - 48) else None.

Fixpoint skipWhiteSpace (s : string) : string :=
  match s with
  | String c rest => if isWhiteSpace c then skipWhiteSpace rest else s
  | EmptyString => s
  end.

Fixpoint parseDigits (acc : option Z) (s : string) : option Z :=
  match s with
  | String c rest =>
      match digitValue c with
      | Some d => parseDigits (Some (10 * default 0 acc + d)) rest
      | None => acc
      end
  | EmptyString => acc
  end.

Definition parseInt10 (s : string) : option Z :=
  match skipWhiteSpace s with
  | String "-" rest => Z.opp <$> parseDigits None rest
  | String "+" rest => parseDigits None rest
  | trimmed => parseDigits None trimmed
  end.

(** [host.replace(/\.$/, '')] *)
Fixpoint removeTrailingDot (host : string) : string :=
  match host with
  | EmptyString => EmptyString
  | String c EmptyString => if Ascii.eqb c "." then EmptyString else host
  | String c rest => String c (removeTrailingDot rest)
  end.

Section Resolution.
Context `{!Resolver}.

Definition resolvePublicAddress (hostName : string) (bindingType : BindingType)
    (resolverURL : option string) : failure + option PublicNodeAddress :=
  let resolverURL := default CLOUDFLARE_RESOLVER_URL resolverURL in
  match parseURL ("scheme://" +:+ hostName) with
  | None => inl (TypeError "Invalid URL")
  | Some urlParts =>
      if negb (String.eqb urlParts.(urlPort) EmptyString)
      then
        let port := parseInt10 urlParts.(urlPort) in
        inr (Some {| host := urlParts.(hostname); port := port |})
      else
        let name := "_" +:+ bindingTypeValue bindingType +:+ "._tcp." +:+ hostName in
        match getDNS resolverURL name with
        | inl error =>
            inl (if bool_decide (error.(errno) = Some "ENOTFOUND")
                 then UnreachableResolverError
                        ("Failed to reach DoH resolver: " +:+ error.(errorMessage))
                 else Rethrown error)
        | inr result =>
            if String.eqb result.(rcode) "NXDOMAIN"
            then
              (* hostName is an IP address or a domain name without the expected SRV record *)
              inr None
            else if negb (String.eqb result.(rcode) "NOERROR")
            then inl (PublicAddressingError
                        ("SRV lookup for " +:+ name +:+ " failed with status " +:+
                         result.(rcode)))
            else if negb result.(flag_ad)
            then inl (PublicAddressingError
                        ("DNSSEC verification for SRV " +:+ name +:+ " failed"))
            else
              let srvAnswers :=
                filter (fun a => a.(answerType) = "SRV") result.(answers) in
              match srvAnswers with
              | {| data := Some {| target := Some target; srvPort := Some port |} |} :: _ =>
                  if String.eqb target EmptyString || (port =? 0)
                  then inl (PublicAddressingError "DNS answer is malformed")
                  else inr (Some {| host := removeTrailingDot target; port := Some port |})
              | _ => inl (PublicAddressingError "DNS answer is malformed")
              end
        end
  end.

End Resolution.

End PublicAddressing.

(** ** Test doubles for the key generators and the key stores *)

Module MockMore.

(** A crypto engine whose keys record the modulus and the hash; it
    takes a modulus that is an integer. *)
Definition mockEngine : KeyGenerators.Engine := {|
  KeyGenerators.generateRSAPSSKey modulus hashingAlgorithm :=
    match modulus with
    | Num bits =>
        Ok {| KeyGenerators.privateKey :=
                {| keyParams := hashingAlgorithm;
                   keyMaterial := (Mock.bigEndian 2 bits ++ [Byte.x01])%list |};
              KeyGenerators.publicKey :=
                {| keyParams := hashingAlgorithm;
                   keyMaterial := (Mock.bigEndian 2 bits ++ [Byte.x02])%list |} |}
    | _ => Throw (Error "Value is outside the range of an unsigned long")
    end;
  KeyGenerators.generateECDHKey curveName :=
    Ok {| KeyGenerators.privateKey := {| keyParams := curveName; keyMaterial := [Byte.x01] |};
          KeyGenerators.publicKey := {| keyParams := curveName; keyMaterial := [Byte.x02] |} |};
|}.

(** An engine that always fails. *)
Definition failingEngine : KeyGenerators.Engine := {|
  KeyGenerators.generateRSAPSSKey _ _ := Throw (Error "The operation failed");
  KeyGenerators.generateECDHKey _ := Throw (Error "The operation failed");
|}.

Definition mockAddressOf (key : CryptoKey) : result string :=
  Ok ("0" +:+ Buffer_toHex key.(keyMaterial)).

Definition emptyIdentityKeyStore (failOnSave : bool) : IdentityKeys.MockIdentityKeyStore :=
  {| IdentityKeys.identityKeys := ∅; IdentityKeys.failOnSave := failOnSave |}.

(** A key codec: the serialization of a key is its material. *)
Definition mockSerializeKey (key : CryptoKey) : result (list byte) := Ok key.(keyMaterial).
Definition mockDeserializeKey (der : list byte) (curve : string) : result CryptoKey :=
  Ok {| keyParams := curve; keyMaterial := der |}.

(** A URL parser for [scheme://host] and [scheme://host:port], and a
    resolver that knows three names: one with a signed SRV record, one
    whose answer is not authenticated and one that makes the client
    fail; it answers NXDOMAIN for the others. *)
Fixpoint splitAtColon (s : string) : string * string :=
  match s with
  | EmptyString => (EmptyString, EmptyString)
  | String c rest =>
      if Ascii.eqb c ":" then (EmptyString, rest)
      else let '(h, p) := splitAtColon rest in (String c h, p)
  end.

Definition mockParseURL (url : string) : option PublicAddressing.URLParts :=
  if String.prefix "scheme://" url
  then
    let '(h, p) := splitAtColon (String.substring 9 (String.length url - 9) url) in
    if String.eqb h EmptyString then None
    else Some {| PublicAddressing.hostname := h; PublicAddressing.urlPort := p |}
  else None.

Definition mockSrvAnswer : PublicAddressing.Answer :=
  {| PublicAddressing.answerType := "SRV";
     PublicAddressing.data :=
       Some {| PublicAddressing.target := Some "gw.example.com.";
               PublicAddressing.srvPort := Some 443 |} |}.

Definition mockResolver : PublicAddressing.Resolver := {|
  PublicAddressing.parseURL := mockParseURL;
  PublicAddressing.getDNS _ name :=
    if String.eqb name "_awala-gsc._tcp.example.com"
    then inr {| PublicAddressing.rcode := "NOERROR";
                PublicAddressing.flag_ad := true;
                PublicAddressing.answers :=
                  [ {| PublicAddressing.answerType := "RRSIG";
                       PublicAddressing.data := None |};
                    mockSrvAnswer ] |}
    else if String.eqb name "_awala-gsc._tcp.unsigned.example.com"
    then inr {| PublicAddressing.rcode := "NOERROR";
                PublicAddressing.flag_ad := false;
                PublicAddressing.answers := [mockSrvAnswer] |}
    else if String.eqb name "_awala-gsc._tcp.offline.example.com"
    then inl {| PublicAddressing.errno := Some "ENOTFOUND";
                PublicAddressing.errorMessage := "getaddrinfo ENOTFOUND" |}
    else inr {| PublicAddressing.rcode := "NXDOMAIN";
                PublicAddressing.flag_ad := false;
                PublicAddressing.answers := [] |};
|}.

(** The private address of a key as [crypto_wrappers/keys] computes it
    from the digest of the public key, and the parser of the
    AuthorityKeyIdentifier that [Mock.x509Host] encodes. *)
Definition certificateOpsHost : CertificateOps.Host := {|
  CertificateOps.getPrivateAddressFromIdentityKey key :=
    Ok ("0" +:+ Buffer_toHex key.(keyMaterial));
  CertificateOps.authorityKeyIdentifierOf der :=
    match der with
    | tag :: rest =>
        if bool_decide (tag = Byte.x30)
        then match rest with
             | [] => Some None
             | inner :: keyIdentifier =>
                 if bool_decide (inner = Byte.x04) then Some (Some keyIdentifier) else None
             end
        else None
    | [] => None
    end;
|}.

(** Options for a self-issued certificate of a CA. *)
Definition selfIssuanceOptions : X509.FullCertificateIssuanceOptions :=
  {| X509.issuerPrivateKey := Mock.mockKey;
     X509.subjectPublicKey := {| keyParams := "SHA-256"; keyMaterial := [Byte.x09] |};
     X509.commonName := "0cafe";
     X509.validityStartDate := Some 1500;
     X509.validityEndDate := 172800999;
     X509.issuerCertificate := None;
     X509.isCA := Some true;
     X509.optPathLenConstraint := Some (Num 2) |}.

End MockMore.

(** ** Vocabulary of the statements *)

Module Statements.

(** The two classes of exception of the RAMF codec. *)
Definition isRAMFError (e : error) : Prop :=
  (exists m, e = RAMFSyntaxError m) \/ (exists m, e = RAMFValidationError m).

Definition isCMSError (e : error) : Prop := exists m, e = CMSError m.

(** The bounds on the fields of a RAMF message. *)
Definition withinBounds (message : RAMF.RAMFMessage) : Prop :=
  strLength (RAMF.recipientAddress message) <= RAMF.MAX_RECIPIENT_ADDRESS_LENGTH /\
  strLength (RAMF.id message) <= RAMF.MAX_ID_LENGTH /\
  (exists z, RAMF.ttl message = Num z /\ 0 <= z <= RAMF.RAMF_MAX_TTL) /\
  byteLength (RAMF.payloadSerialized message) <= RAMF.MAX_PAYLOAD_LENGTH.

(** What [validateTtl] asks of a number: neither comparison holds. *)
Definition ttlAccepted (ttl : number) : Prop :=
  ltb ttl (Num 0) = false /\ ltb (Num RAMF.RAMF_MAX_TTL) ttl = false.

(** The fields that pass the four checks of [serialize]. *)
Definition fieldsAccepted (message : RAMF.RAMFMessage) : Prop :=
  strLength (RAMF.recipientAddress message) <= RAMF.MAX_RECIPIENT_ADDRESS_LENGTH /\
  strLength (RAMF.id message) <= RAMF.MAX_ID_LENGTH /\
  ttlAccepted (RAMF.ttl message) /\
  byteLength (RAMF.payloadSerialized message) <= RAMF.MAX_PAYLOAD_LENGTH.

(** The field set that [serialize] hands to the signer. *)
Definition fieldSetSerialized `{!RAMF.Host} (message : RAMF.RAMFMessage) : list byte :=
  RAMF.makeImplicitlyTaggedSequence
    [ Asn1.VisibleString (RAMF.recipientAddress message);
      Asn1.VisibleString (RAMF.id message);
      RAMF.dateToASN1DateTimeInUTC (RAMF.creationDate message);
      RAMF.integerOfNumber (RAMF.ttl message);
      Asn1.OctetString (RAMF.payloadSerialized message) ].

(** A string of lower-case hexadecimal digits. *)
Definition isLowerHex (s : string) : Prop :=
  Forall (fun c => RAMF.isLowerHexChar c = true) (list_ascii_of_string s).

End Statements.

(** * Properties *)

(** ** Results, strings and numbers *)

Lemma append_assoc (a b c : string) : (a +:+ b) +:+ c = a +:+ (b +:+ c).
Proof.
  induction a as [|ch a IH]; [reflexivity |].
  change (String ch ((a +:+ b) +:+ c) = String ch (a +:+ (b +:+ c))).
  now f_equal.
Qed.

Lemma eqb_string_false (a b : string) : a <> b -> String.eqb a b = false.
Proof. apply String.eqb_neq. Qed.

Lemma truthyString_Some (s : string) : s <> EmptyString -> truthyString (Some s) = true.
Proof. intros Hs. unfold truthyString. now rewrite eqb_string_false. Qed.

Lemma throwIf_false (e : error) : throwIf false e = Ok tt.
Proof. reflexivity. Qed.

Lemma throwIf_true (e : error) : throwIf true e = Throw e.
Proof. reflexivity. Qed.

(** ** The private key store *)

Module PrivateKeyStoreProps.
Import PrivateKeyStore.

Section WithBackend.
Context {S : Type} `{!Backend S}.
Implicit Types (store : S) (keyId : list byte) (keyData : SessionPrivateKeyData).

Lemma retrieveSessionKeyDataOrThrowError_missing store keyId owner :
  retrieveSessionKeyData store (Buffer_toHex keyId) = Ok None ->
  retrieveSessionKeyDataOrThrowError store keyId owner =
  Throw (UnknownKeyError ("Key " +:+ Buffer_toHex keyId +:+ " does not exist")).
Proof. intros Hget. unfold retrieveSessionKeyDataOrThrowError. now rewrite Hget. Qed.

Lemma retrieveSessionKeyDataOrThrowError_foreign store keyId owner keyData :
  retrieveSessionKeyData store (Buffer_toHex keyId) = Ok (Some keyData) ->
  privateAddress keyData <> owner ->
  retrieveSessionKeyDataOrThrowError store keyId owner =
  Throw (UnknownKeyError "Key is owned by a different node").
Proof.
  intros Hget Hne. unfold retrieveSessionKeyDataOrThrowError.
  rewrite Hget. simpl. now rewrite eqb_string_false.
Qed.

Lemma retrieveSessionKeyDataOrThrowError_owned store keyId keyData :
  retrieveSessionKeyData store (Buffer_toHex keyId) = Ok (Some keyData) ->
  retrieveSessionKeyDataOrThrowError store keyId (privateAddress keyData) = Ok keyData.
Proof.
  intros Hget. unfold retrieveSessionKeyDataOrThrowError.
  rewrite Hget. simpl. now rewrite String.eqb_refl.
Qed.

Lemma retrieveSessionKeyDataOrThrowError_failure store keyId owner cause :
  retrieveSessionKeyData store (Buffer_toHex keyId) = Throw cause ->
  retrieveSessionKeyDataOrThrowError store keyId owner =
  Throw (KeyStoreError ("Failed to retrieve key: " +:+ message cause)).
Proof. intros Hget. unfold retrieveSessionKeyDataOrThrowError. now rewrite Hget. Qed.

(** The message for a key bound to another recipient names the stored
    peer and then the given one. *)
Lemma boundToAnotherMessage_names_both keyIdHex stored given :
  exists before between after : string,
    boundToAnotherMessage keyIdHex stored given =
    before +:+ stored +:+ between +:+ given +:+ after.
Proof.
  exists ("Session key " +:+ keyIdHex +:+ " is bound to another recipient " +:+ "("),
         ", not ", ")".
  unfold boundToAnotherMessage. now rewrite !append_assoc.
Qed.

(** C1, as the code has it. A stored peer address counts as a binding
    when it is a non-empty string. For every call of
    [retrieveSessionKey keyId owner peer]: if the backend has no record
    for the key id, or the record belongs to another node, or the record
    is bound to a non-empty peer address other than [peer], the call
    throws [UnknownKeyError], in the last case with a message that names
    the stored and the given peer address; in every other case with a
    record, the result is the stored key, deserialized. And
    [retrieveUnboundSessionKey] throws [UnknownKeyError] whenever the
    record, if any, is bound to a non-empty peer address. *)
Theorem retrieveSessionKey_cases store keyId owner peer :
  (retrieveSessionKeyData store (Buffer_toHex keyId) = Ok None ->
   exists m, retrieveSessionKey store keyId owner peer = Throw (UnknownKeyError m)) /\
  (forall keyData,
     retrieveSessionKeyData store (Buffer_toHex keyId) = Ok (Some keyData) ->
     privateAddress keyData <> owner ->
     retrieveSessionKey store keyId owner peer =
     Throw (UnknownKeyError "Key is owned by a different node")) /\
  (forall keyData stored,
     retrieveSessionKeyData store (Buffer_toHex keyId) = Ok (Some keyData) ->
     privateAddress keyData = owner ->
     peerPrivateAddress keyData = Some stored ->
     stored <> EmptyString -> stored <> peer ->
     retrieveSessionKey store keyId owner peer =
     Throw (UnknownKeyError (boundToAnotherMessage (Buffer_toHex keyId) stored peer)) /\
     exists before between after : string,
       boundToAnotherMessage (Buffer_toHex keyId) stored peer =
       before +:+ stored +:+ between +:+ peer +:+ after) /\
  (forall keyData,
     retrieveSessionKeyData store (Buffer_toHex keyId) = Ok (Some keyData) ->
     privateAddress keyData = owner ->
     peerPrivateAddress keyData = None \/
     peerPrivateAddress keyData = Some EmptyString \/
     peerPrivateAddress keyData = Some peer ->
     retrieveSessionKey store keyId owner peer =
     derDeserializeECDHPrivateKey (keySerialized keyData) "P-256") /\
  (forall keyData stored,
     retrieveSessionKeyData store (Buffer_toHex keyId) = Ok (Some keyData) ->
     peerPrivateAddress keyData = Some stored ->
     stored <> EmptyString ->
     exists m, retrieveUnboundSessionKey store keyId owner = Throw (UnknownKeyError m)).
Proof.
  split; [| split; [| split; [| split]]].
  - intros Hget. eexists. unfold retrieveSessionKey.
    now rewrite retrieveSessionKeyDataOrThrowError_missing.
  - intros keyData Hget Hne. unfold retrieveSessionKey.
    now rewrite (retrieveSessionKeyDataOrThrowError_foreign _ _ _ _ Hget Hne).
  - intros keyData stored Hget <- Hpeer Hset Hother.
    split; [| apply boundToAnotherMessage_names_both].
    unfold retrieveSessionKey.
    rewrite (retrieveSessionKeyDataOrThrowError_owned _ _ _ Hget). simpl.
    rewrite Hpeer, truthyString_Some by assumption. simpl.
    rewrite bool_decide_eq_false_2; [reflexivity | congruence].
  - intros keyData Hget <- Hpeer. unfold retrieveSessionKey.
    rewrite (retrieveSessionKeyDataOrThrowError_owned _ _ _ Hget). simpl.
    destruct Hpeer as [-> | [-> | ->]]; simpl; try reflexivity.
    rewrite bool_decide_eq_true_2 by reflexivity.
    now rewrite andb_false_r.
  - intros keyData stored Hget Hpeer Hne. unfold retrieveUnboundSessionKey.
    destruct (decide (privateAddress keyData = owner)) as [<- | Hown].
    + rewrite (retrieveSessionKeyDataOrThrowError_owned _ _ _ Hget). simpl.
      rewrite Hpeer, truthyString_Some by assumption. eauto.
    + rewrite (retrieveSessionKeyDataOrThrowError_foreign _ _ _ _ Hget Hown). simpl. eauto.
Qed.

End WithBackend.

(** C1 as the spec states it fails on a record whose peer address is set
    to the empty string: [retrieveSessionKey] returns the key to any
    peer, and [retrieveUnboundSessionKey] returns it as well. *)
Lemma retrieveSessionKey_empty_peer_address :
  ~ (forall (store : MockPrivateKeyStore) keyId owner peer keyData stored,
       retrieveSessionKeyData store (Buffer_toHex keyId) = Ok (Some keyData) ->
       privateAddress keyData = owner ->
       peerPrivateAddress keyData = Some stored ->
       stored <> peer ->
       exists m, retrieveSessionKey store keyId owner peer = Throw (UnknownKeyError m)) /\
  ~ (forall (store : MockPrivateKeyStore) keyId owner keyData stored,
       retrieveSessionKeyData store (Buffer_toHex keyId) = Ok (Some keyData) ->
       peerPrivateAddress keyData = Some stored ->
       exists m, retrieveUnboundSessionKey store keyId owner = Throw (UnknownKeyError m)).
Proof.
  split; intros claim.
  - destruct (claim boundToNobody [Byte.xab] "0a" "0b" _ EmptyString
                eq_refl eq_refl eq_refl ltac:(discriminate)) as [m Hm].
    vm_compute in Hm. discriminate Hm.
  - destruct (claim boundToNobody [Byte.xab] "0a" _ EmptyString eq_refl eq_refl)
      as [m Hm].
    vm_compute in Hm. discriminate Hm.
Qed.

Lemma retrieveSessionKey_cases_witness :
  retrieveSessionKey boundToPeer [Byte.xab] "0a" "0c" =
  Throw (UnknownKeyError "Session key ab is bound to another recipient (0b, not 0c)") /\
  retrieveSessionKey boundToPeer [Byte.xab] "0a" "0b" =
  Ok {| keyParams := "P-256"; keyMaterial := [Byte.x07] |} /\
  (exists m, retrieveUnboundSessionKey boundToPeer [Byte.xab] "0a" = Throw (UnknownKeyError m)) /\
  retrieveSessionKey boundToPeer [Byte.xab] "0z" "0b" =
  Throw (UnknownKeyError "Key is owned by a different node") /\
  (exists m, retrieveSessionKey boundToPeer [Byte.xcd] "0a" "0b" = Throw (UnknownKeyError m)).
Proof.
  pose proof (retrieveSessionKey_cases boundToPeer [Byte.xab] "0a" "0c")
    as (_ & _ & Hbound & _ & Hunbound).
  pose proof (retrieveSessionKey_cases boundToPeer [Byte.xab] "0a" "0b")
    as (_ & _ & _ & Hsame & _).
  pose proof (retrieveSessionKey_cases boundToPeer [Byte.xab] "0z" "0b")
    as (_ & Hforeign & _).
  pose proof (retrieveSessionKey_cases boundToPeer [Byte.xcd] "0a" "0b")
    as (Hmissing & _).
  split; [| split; [| split; [| split]]].
  - apply (Hbound _ "0b" eq_refl eq_refl eq_refl); discriminate.
  - apply (Hsame _ eq_refl eq_refl). right. right. reflexivity.
  - apply (Hunbound _ "0b" eq_refl eq_refl). discriminate.
  - apply (Hforeign _ eq_refl). discriminate.
  - apply Hmissing. reflexivity.
Defined.

End PrivateKeyStoreProps.

(** ** Numbers read from ASN.1 *)

Lemma roundToDouble_small (b : Z) : 0 <= b < 2 ^ 53 -> roundToDouble b = b.
Proof.
  intros Hb. unfold roundToDouble.
  destruct (Z.leb_spec (Z.log2 b + 1) 53) as [_ | Hbits]; [reflexivity |].
  destruct (Z.eq_dec b 0) as [-> | Hnz]; [discriminate Hbits |].
  assert (Z.log2 b < 53) by (apply Z.log2_lt_pow2; lia). lia.
Qed.

Lemma roundToDouble_large (b : Z) : 2 ^ 53 <= b -> 2 ^ 53 <= roundToDouble b.
Proof.
  intros Hb. unfold roundToDouble.
  assert (Hlog : 53 <= Z.log2 b) by (apply Z.log2_le_pow2; lia).
  destruct (Z.leb_spec (Z.log2 b + 1) 53) as [Hbits | _]; [lia |].
  set (sh := Z.log2 b + 1 - 53).
  assert (Hsh : 1 <= sh) by (unfold sh; lia).
  set (q := Z.shiftr b sh).
  assert (Hq : 2 ^ 52 <= q).
  { unfold q. rewrite Z.shiftr_div_pow2 by lia.
    apply Z.div_le_lower_bound; [apply Z.pow_pos_nonneg; lia |].
    rewrite <- Z.pow_add_r by lia.
    replace (sh + 52) with (Z.log2 b) by (unfold sh; lia).
    apply Z.log2_spec. lia. }
  match goal with |- _ <= Z.shiftl ?x _ => set (q' := x) end.
  assert (Hq' : q <= q') by (unfold q'; destruct (_ || _); lia).
  rewrite Z.shiftl_mul_pow2 by lia.
  assert (Hpow : 2 ^ 1 <= 2 ^ sh) by (apply Z.pow_le_mono_r; lia).
  change (2 ^ 53) with (2 ^ 52 * 2 ^ 1). change (2 ^ 52) with 4503599627370496 in *.
  change (2 ^ 1) with 2 in *. nia.
Qed.

Lemma Number_of_bigint_safe (b : Z) : 0 <= b < 2 ^ 53 -> Number_of_bigint b = Num b.
Proof.
  intros Hb. unfold Number_of_bigint.
  destruct (Z.leb_spec 0 b) as [_ | ?]; [| lia].
  rewrite roundToDouble_small by assumption.
  destruct (Z.ltb_spec b (2 ^ 1024)) as [_ | Hbig]; [reflexivity |].
  assert (2 ^ 53 < 2 ^ 1024) by (apply Z.pow_lt_mono_r; lia). lia.
Qed.

Lemma Number_of_bigint_unsafe (b : Z) :
  MAX_SAFE_INTEGER < b ->
  Number_of_bigint b = Infinity \/ exists m, Number_of_bigint b = Num m /\ 2 ^ 53 <= m.
Proof.
  unfold MAX_SAFE_INTEGER. intros Hb. unfold Number_of_bigint.
  destruct (Z.leb_spec 0 b) as [_ | ?]; [| lia].
  pose proof (roundToDouble_large b ltac:(lia)) as Hm.
  destruct (_ <? _); [right; eauto | left; reflexivity].
Qed.

(** ** The RAMF codec *)

Module RAMFProps.
Import RAMF Statements.

Lemma validateRecipientAddressLength_Ok (address : string) :
  validateRecipientAddressLength address = Ok tt <->
  strLength address <= MAX_RECIPIENT_ADDRESS_LENGTH.
Proof.
  unfold validateRecipientAddressLength.
  destruct (Z.ltb_spec MAX_RECIPIENT_ADDRESS_LENGTH (strLength address)); simpl;
    split; try reflexivity; try lia; discriminate.
Qed.

Lemma validateMessageIdLength_Ok (messageId : string) :
  validateMessageIdLength messageId = Ok tt <-> strLength messageId <= MAX_ID_LENGTH.
Proof.
  unfold validateMessageIdLength.
  destruct (Z.ltb_spec MAX_ID_LENGTH (strLength messageId)); simpl;
    split; try reflexivity; try lia; discriminate.
Qed.

Lemma validatePayloadLength_Ok (payload : list byte) :
  validatePayloadLength payload = Ok tt <-> byteLength payload <= MAX_PAYLOAD_LENGTH.
Proof.
  unfold validatePayloadLength.
  destruct (Z.ltb_spec MAX_PAYLOAD_LENGTH (byteLength payload)); simpl;
    split; try reflexivity; try lia; discriminate.
Qed.

Lemma validateTtl_Ok (ttl : number) :
  validateTtl ttl = Ok tt <-> ttlAccepted ttl.
Proof.
  unfold validateTtl, ttlAccepted.
  destruct (ltb ttl (Num 0)), (ltb (Num RAMF_MAX_TTL) ttl); simpl;
    split; intros Hcheck; try discriminate Hcheck; auto;
    destruct Hcheck as [Hlow Hhigh]; discriminate.
Qed.

Lemma ttlAccepted_Num (z : Z) : ttlAccepted (Num z) <-> 0 <= z <= RAMF_MAX_TTL.
Proof.
  unfold ttlAccepted. simpl. rewrite !Z.ltb_ge. reflexivity.
Qed.

(** The numbers that pass the check: NaN, and the finite numbers from 0
    to the cap, integers or not. *)
Lemma ttlAccepted_cases (ttl : number) :
  ttlAccepted ttl <->
  match ttl with
  | Num z => 0 <= z <= RAMF_MAX_TTL
  | Fraction k e => 0 < 2 * k + 1 < RAMF_MAX_TTL * 2 ^ Z.pos e
  | NaN => True
  | Infinity | NegInfinity => False
  end.
Proof.
  destruct ttl as [z | | | | k e].
  - apply ttlAccepted_Num.
  - unfold ttlAccepted. simpl. split; [intros [_ H]; discriminate H | contradiction].
  - unfold ttlAccepted. simpl. split; [intros [H _]; discriminate H | contradiction].
  - unfold ttlAccepted. simpl. tauto.
  - unfold ttlAccepted. simpl. rewrite !Z.ltb_ge.
    assert (Hpow : 2 ^ Z.pos e = 2 * 2 ^ (Z.pos e - 1)).
    { rewrite <- Z.pow_succ_r by lia. f_equal. lia. }
    rewrite Hpow. lia.
Qed.

Lemma validateMessageLength_Ok (serialization : list byte) :
  validateMessageLength serialization = Ok tt <->
  byteLength serialization <= MAX_RAMF_MESSAGE_LENGTH.
Proof.
  unfold validateMessageLength.
  destruct (Z.ltb_spec MAX_RAMF_MESSAGE_LENGTH (byteLength serialization)); simpl;
    split; try reflexivity; try lia; discriminate.
Qed.

Lemma validateTtl_in_range (z : Z) : 0 <= z <= RAMF_MAX_TTL -> validateTtl (Num z) = Ok tt.
Proof.
  intros Hz. unfold validateTtl. simpl.
  destruct (Z.ltb_spec z 0); [lia |]. simpl.
  destruct (Z.ltb_spec RAMF_MAX_TTL z); [lia | reflexivity].
Qed.

Lemma validateTtl_negative (ttl : number) :
  ltb ttl (Num 0) = true -> validateTtl ttl = Throw (RAMFSyntaxError "TTL cannot be negative").
Proof. intros Hlt. unfold validateTtl. now rewrite Hlt. Qed.

Lemma validateTtl_above_cap (ttl : number) :
  ltb (Num RAMF_MAX_TTL) ttl = true ->
  validateTtl ttl =
  Throw (RAMFSyntaxError ("TTL must be less than " +:+ Z_toString RAMF_MAX_TTL +:+
                          " (got " +:+ toString ttl +:+ ")")).
Proof.
  intros Hlt. unfold validateTtl.
  assert (Hneg : ltb ttl (Num 0) = false).
  { destruct ttl as [z | | | | k e]; simpl in *; try reflexivity; try discriminate.
    - apply Z.ltb_lt in Hlt. apply Z.ltb_ge. unfold RAMF_MAX_TTL in Hlt. lia.
    - apply Z.ltb_lt in Hlt. apply Z.ltb_ge. unfold RAMF_MAX_TTL in Hlt.
      pose proof (Z.pow_pos_nonneg 2 (Z.pos e) ltac:(lia) ltac:(lia)). lia. }
  now rewrite Hneg, Hlt.
Qed.

Lemma validateTtl_outside (ttl : number) :
  ltb ttl (Num 0) = true \/ ltb (Num RAMF_MAX_TTL) ttl = true ->
  exists m, validateTtl ttl = Throw (RAMFSyntaxError m).
Proof.
  intros [Hneg | Hcap].
  - rewrite validateTtl_negative by assumption. eauto.
  - rewrite validateTtl_above_cap by assumption. eauto.
Qed.

Lemma validateTtl_throws (ttl : number) (e : error) :
  validateTtl ttl = Throw e -> exists m, e = RAMFSyntaxError m.
Proof.
  unfold validateTtl.
  destruct (ltb ttl (Num 0)), (ltb (Num RAMF_MAX_TTL) ttl); simpl;
    try discriminate; intros Heq; injection Heq as <-; eauto.
Qed.

(** Every exception of the four checks of [serialize] is a
    [RAMFSyntaxError]. *)
Lemma throwIf_syntax (cond : bool) (m : string) :
  throwIf cond (RAMFSyntaxError m) = Ok tt \/
  throwIf cond (RAMFSyntaxError m) = Throw (RAMFSyntaxError m).
Proof. destruct cond; auto. Qed.

Lemma validateTtl_unsafe_integer (b : Z) :
  MAX_SAFE_INTEGER < b ->
  validateTtl (Number_of_bigint b) =
  Throw (RAMFSyntaxError ("TTL must be less than " +:+ Z_toString RAMF_MAX_TTL +:+
                          " (got " +:+ toString (Number_of_bigint b) +:+ ")")).
Proof.
  intros Hb. apply validateTtl_above_cap.
  destruct (Number_of_bigint_unsafe b Hb) as [-> | (m & -> & Hm)]; [reflexivity |].
  simpl. apply Z.ltb_lt. unfold RAMF_MAX_TTL.
  change (2 ^ 53) with 9007199254740992 in Hm. lia.
Qed.

Section WithHost.
Context `{!Host}.

(** With valid lengths and TTL, [serialize] is the SignedData of the
    field set behind the format signature, whatever its length. *)
Lemma serialize_valid message typeOctet versionOctet key options :
  validateRecipientAddressLength (recipientAddress message) = Ok tt ->
  validateMessageIdLength (id message) = Ok tt ->
  validateTtl (ttl message) = Ok tt ->
  validatePayloadLength (payloadSerialized message) = Ok tt ->
  serialize message typeOctet versionOctet key options =
  (signature ←
     cmsSign
       (makeImplicitlyTaggedSequence
          [ Asn1.VisibleString (recipientAddress message);
            Asn1.VisibleString (id message);
            dateToASN1DateTimeInUTC (creationDate message);
            integerOfNumber (ttl message);
            Asn1.OctetString (payloadSerialized message) ])
       key (senderCertificate message) (senderCaCertificateChain message) options;
   Ok (generateFormatSignature typeOctet versionOctet ++ signature)%list).
Proof.
  intros Haddr Hid Httl Hpayload. unfold serialize.
  rewrite Haddr, Hid, Httl, Hpayload. reflexivity.
Qed.

(** [deserialize] once the framing, the signature and the field set
    have been accepted: the checks on the fields, in order. *)
Lemma deserialize_fields serialization typeOctet versionOctet formatSignature verification fields :
  validateMessageLength serialization = Ok tt ->
  parseMessageFormatSignature (take 10 serialization) = Ok formatSignature ->
  validateFileFormatSignature formatSignature typeOctet versionOctet = Ok tt ->
  verifySignature (drop 10 serialization) = Ok verification ->
  parseMessageFields (plaintext verification) = Ok fields ->
  deserialize serialization typeOctet versionOctet =
  (_ ← validateRecipientAddressLength (fsRecipientAddress fields);
   _ ← validateRecipientAddress (fsRecipientAddress fields);
   _ ← validateMessageIdLength (fsId fields);
   _ ← validateTtl (fsTtl fields);
   _ ← validatePayloadLength (fsPayload fields);
   Ok {| recipientAddress := fsRecipientAddress fields;
         senderCertificate := signerCertificate verification;
         payloadSerialized := fsPayload fields;
         creationDate := fsDate fields;
         id := fsId fields;
         senderCaCertificateChain := attachedCertificates verification;
         ttl := fsTtl fields |}).
Proof.
  intros Hlen Hsig Hfile Hver Hfields. unfold deserialize.
  rewrite Hlen. simpl. rewrite Hsig. simpl. rewrite Hfile. simpl.
  rewrite Hver. simpl. rewrite Hfields. reflexivity.
Qed.

(** The length of the serialization is checked first. *)
Lemma deserialize_too_long serialization typeOctet versionOctet :
  MAX_RAMF_MESSAGE_LENGTH < byteLength serialization ->
  deserialize serialization typeOctet versionOctet =
  Throw (RAMFSyntaxError ("Message should not be longer than 9 MiB (got " +:+
                          Z_toString (byteLength serialization) +:+ " octets)")).
Proof.
  intros Hlong. unfold deserialize, validateMessageLength.
  apply Z.ltb_lt in Hlong. now rewrite Hlong.
Qed.

(** [parseMessageFields] does not look at the size of the TTL. *)
Lemma parseMessageFields_ttl serialization block date :
  verifySchema serialization = Some block ->
  asn1DateTimeToDate (blockDate block) = Ok date ->
  parseMessageFields serialization =
  Ok {| fsDate := date;
        fsId := textDecode (blockId block);
        fsPayload := blockPayload block;
        fsRecipientAddress := textDecode (blockRecipientAddress block);
        fsTtl := Number_of_bigint (Asn1.toBigInt (blockTtl block)) |}.
Proof.
  intros Hschema Hdate. unfold parseMessageFields, getDateFromPrimitiveBlock.
  rewrite Hschema, Hdate. reflexivity.
Qed.

(** The checks of [serialize], in order: each one that fails gives the
    exception of [serialize], whatever the signer would do. *)
Lemma serialize_long_address message typeOctet versionOctet key options :
  MAX_RECIPIENT_ADDRESS_LENGTH < strLength (recipientAddress message) ->
  serialize message typeOctet versionOctet key options =
  Throw (RAMFSyntaxError
           ("Recipient address should not span more than 1024 characters (got " +:+
            Z_toString (strLength (recipientAddress message)) +:+ ")")).
Proof.
  intros Hlong. unfold serialize, validateRecipientAddressLength.
  apply Z.ltb_lt in Hlong. rewrite Hlong. reflexivity.
Qed.

Lemma serialize_long_id message typeOctet versionOctet key options :
  strLength (recipientAddress message) <= MAX_RECIPIENT_ADDRESS_LENGTH ->
  MAX_ID_LENGTH < strLength (id message) ->
  serialize message typeOctet versionOctet key options =
  Throw (RAMFSyntaxError
           ("Id should not span more than 64 characters (got " +:+
            Z_toString (strLength (id message)) +:+ ")")).
Proof.
  intros Haddress Hlong. unfold serialize.
  rewrite (proj2 (validateRecipientAddressLength_Ok _) Haddress).
  unfold validateMessageIdLength. apply Z.ltb_lt in Hlong. rewrite Hlong. reflexivity.
Qed.

Lemma serialize_ttl_check message typeOctet versionOctet key options e :
  strLength (recipientAddress message) <= MAX_RECIPIENT_ADDRESS_LENGTH ->
  strLength (id message) <= MAX_ID_LENGTH ->
  validateTtl (ttl message) = Throw e ->
  serialize message typeOctet versionOctet key options = Throw e.
Proof.
  intros Haddress Hid Httl. unfold serialize.
  rewrite (proj2 (validateRecipientAddressLength_Ok _) Haddress).
  rewrite (proj2 (validateMessageIdLength_Ok _) Hid).
  now rewrite Httl.
Qed.

Lemma serialize_long_payload message typeOctet versionOctet key options :
  strLength (recipientAddress message) <= MAX_RECIPIENT_ADDRESS_LENGTH ->
  strLength (id message) <= MAX_ID_LENGTH ->
  ttlAccepted (ttl message) ->
  MAX_PAYLOAD_LENGTH < byteLength (payloadSerialized message) ->
  serialize message typeOctet versionOctet key options =
  Throw (RAMFSyntaxError
           ("Payload size must not exceed 8 MiB (got " +:+
            Z_toString (byteLength (payloadSerialized message)) +:+ " octets)")).
Proof.
  intros Haddress Hid Httl Hlong. unfold serialize.
  rewrite (proj2 (validateRecipientAddressLength_Ok _) Haddress).
  rewrite (proj2 (validateMessageIdLength_Ok _) Hid).
  rewrite (proj2 (validateTtl_Ok _) Httl).
  unfold validatePayloadLength. apply Z.ltb_lt in Hlong. rewrite Hlong. reflexivity.
Qed.

(** Every exception of [serialize] before the signature is a
    [RAMFSyntaxError]. *)
Lemma serialize_rejects_ttl message typeOctet versionOctet key options :
  ltb (ttl message) (Num 0) = true \/ ltb (Num RAMF_MAX_TTL) (ttl message) = true ->
  exists m, serialize message typeOctet versionOctet key options = Throw (RAMFSyntaxError m).
Proof.
  intros Hout. unfold serialize.
  unfold validateRecipientAddressLength, validateMessageIdLength.
  destruct (_ <? strLength (recipientAddress message)); simpl; [eauto |].
  destruct (_ <? strLength (id message)); simpl; [eauto |].
  destruct (validateTtl_outside _ Hout) as [m ->]. simpl. eauto.
Qed.

(** C4. The TTL check accepts 0 and 15_552_000 (and everything in
    between) and throws [RAMFSyntaxError] for every TTL below 0 or above
    15_552_000. [serialize] throws [RAMFSyntaxError] for every message
    with such a TTL, and goes on to sign a message whose TTL is 0 or
    15_552_000 when its address, id and payload have valid lengths.
    [deserialize], once the framing, signature and field set are
    accepted and the address and id are valid, throws [RAMFSyntaxError]
    for such a TTL and returns the message when the TTL is 0 or
    15_552_000 and the payload length is valid. *)
Theorem ttl_bounds message serialization typeOctet versionOctet key options
    formatSignature verification fields :
  validateMessageLength serialization = Ok tt ->
  parseMessageFormatSignature (take 10 serialization) = Ok formatSignature ->
  validateFileFormatSignature formatSignature typeOctet versionOctet = Ok tt ->
  verifySignature (drop 10 serialization) = Ok verification ->
  parseMessageFields (plaintext verification) = Ok fields ->
  validateRecipientAddressLength (fsRecipientAddress fields) = Ok tt ->
  validateRecipientAddress (fsRecipientAddress fields) = Ok tt ->
  validateMessageIdLength (fsId fields) = Ok tt ->
  validateTtl (Num 0) = Ok tt /\
  validateTtl (Num 15552000) = Ok tt /\
  validateTtl (Num (-1)) = Throw (RAMFSyntaxError "TTL cannot be negative") /\
  validateTtl (Num 15552001) =
    Throw (RAMFSyntaxError "TTL must be less than 15552000 (got 15552001)") /\
  (forall t, ltb t (Num 0) = true \/ ltb (Num 15552000) t = true ->
             exists m, validateTtl t = Throw (RAMFSyntaxError m)) /\
  (ltb (ttl message) (Num 0) = true \/ ltb (Num 15552000) (ttl message) = true ->
   exists m, serialize message typeOctet versionOctet key options =
             Throw (RAMFSyntaxError m)) /\
  (ttl message = Num 0 \/ ttl message = Num 15552000 ->
   validateRecipientAddressLength (recipientAddress message) = Ok tt ->
   validateMessageIdLength (id message) = Ok tt ->
   validatePayloadLength (payloadSerialized message) = Ok tt ->
   forall signature,
     cmsSign
       (makeImplicitlyTaggedSequence
          [ Asn1.VisibleString (recipientAddress message);
            Asn1.VisibleString (id message);
            dateToASN1DateTimeInUTC (creationDate message);
            integerOfNumber (ttl message);
            Asn1.OctetString (payloadSerialized message) ])
       key (senderCertificate message) (senderCaCertificateChain message) options
     = Ok signature ->
     serialize message typeOctet versionOctet key options =
     Ok (generateFormatSignature typeOctet versionOctet ++ signature)%list) /\
  (ltb (fsTtl fields) (Num 0) = true \/ ltb (Num 15552000) (fsTtl fields) = true ->
   exists m, deserialize serialization typeOctet versionOctet =
             Throw (RAMFSyntaxError m)) /\
  (fsTtl fields = Num 0 \/ fsTtl fields = Num 15552000 ->
   validatePayloadLength (fsPayload fields) = Ok tt ->
   exists received,
     deserialize serialization typeOctet versionOctet = Ok received /\
     ttl received = fsTtl fields).
Proof.
  intros Hlen Hsig Hfile Hver Hfields Haddr Hsyntax Hid.
  pose proof (deserialize_fields _ _ _ _ _ _ Hlen Hsig Hfile Hver Hfields) as Hdes.
  rewrite Haddr, Hsyntax, Hid in Hdes. simpl in Hdes.
  split; [reflexivity |]. split; [reflexivity |].
  split; [reflexivity |]. split; [reflexivity |].
  split; [exact validateTtl_outside |].
  split; [apply serialize_rejects_ttl |].
  split; [| split].
  - intros Hedge Ha Hi Hp signature Hsign.
    rewrite serialize_valid; try assumption.
    + now rewrite Hsign.
    + destruct Hedge as [-> | ->]; reflexivity.
  - intros Hout. rewrite Hdes.
    destruct (validateTtl_outside _ Hout) as [m ->]. simpl. eauto.
  - intros Hedge Hpayload. rewrite Hdes.
    assert (Httl : validateTtl (fsTtl fields) = Ok tt)
      by (destruct Hedge as [-> | ->]; reflexivity).
    rewrite Httl, Hpayload. simpl. eauto.
Qed.


(** C9. [serialize] checks the length of the recipient address and not
    its syntax. It throws a [RAMFSyntaxError] for every message whose
    address has more than 1024 characters, and the length check passes
    exactly for the addresses of at most 1024 characters. For an address
    within that length, of whatever syntax, and an id, a TTL and a
    payload that pass their checks, [serialize] returns the SignedData
    behind the format signature. The address [0DEADBEEF] is not a
    private address and, when the URL parser rejects it, not a public
    one either; [serialize] signs a message addressed to it, and
    [deserialize] throws [RAMFValidationError] for a signed field set
    that carries it. *)
Theorem serialize_skips_address_syntax message serialization typeOctet versionOctet
    key options formatSignature verification fields :
  let address := "0DEADBEEF" in
  parsesAsURL address = false ->
  (forall anyAddress,
     validateRecipientAddressLength anyAddress = Ok tt <-> strLength anyAddress <= 1024) /\
  (1024 < strLength (recipientAddress message) ->
   serialize message typeOctet versionOctet key options =
   Throw (RAMFSyntaxError
            ("Recipient address should not span more than 1024 characters (got " +:+
             Z_toString (strLength (recipientAddress message)) +:+ ")"))) /\
  (strLength (recipientAddress message) <= 1024 ->
   validateMessageIdLength (id message) = Ok tt ->
   validateTtl (ttl message) = Ok tt ->
   validatePayloadLength (payloadSerialized message) = Ok tt ->
   forall signature,
     cmsSign
       (makeImplicitlyTaggedSequence
          [ Asn1.VisibleString (recipientAddress message);
            Asn1.VisibleString (id message);
            dateToASN1DateTimeInUTC (creationDate message);
            integerOfNumber (ttl message);
            Asn1.OctetString (payloadSerialized message) ])
       key (senderCertificate message) (senderCaCertificateChain message) options
     = Ok signature ->
     serialize message typeOctet versionOctet key options =
     Ok (generateFormatSignature typeOctet versionOctet ++ signature)%list) /\
  matchesPrivateAddressRegex address = false /\
  validateRecipientAddressLength address = Ok tt /\
  (exists m, validateRecipientAddress address = Throw (RAMFValidationError m)) /\
  (recipientAddress message = address ->
   validateMessageIdLength (id message) = Ok tt ->
   validateTtl (ttl message) = Ok tt ->
   validatePayloadLength (payloadSerialized message) = Ok tt ->
   forall signature,
     cmsSign
       (makeImplicitlyTaggedSequence
          [ Asn1.VisibleString (recipientAddress message);
            Asn1.VisibleString (id message);
            dateToASN1DateTimeInUTC (creationDate message);
            integerOfNumber (ttl message);
            Asn1.OctetString (payloadSerialized message) ])
       key (senderCertificate message) (senderCaCertificateChain message) options
     = Ok signature ->
     serialize message typeOctet versionOctet key options =
     Ok (generateFormatSignature typeOctet versionOctet ++ signature)%list) /\
  (validateMessageLength serialization = Ok tt ->
   parseMessageFormatSignature (take 10 serialization) = Ok formatSignature ->
   validateFileFormatSignature formatSignature typeOctet versionOctet = Ok tt ->
   verifySignature (drop 10 serialization) = Ok verification ->
   parseMessageFields (plaintext verification) = Ok fields ->
   fsRecipientAddress fields = address ->
   exists m, deserialize serialization typeOctet versionOctet =
             Throw (RAMFValidationError m)).
Proof.
  intros address Hurl.
  assert (Hsyntax : exists m, validateRecipientAddress address = Throw (RAMFValidationError m)).
  { unfold validateRecipientAddress. rewrite Hurl. simpl. eauto. }
  assert (Hsigned :
    strLength (recipientAddress message) <= 1024 ->
    validateMessageIdLength (id message) = Ok tt ->
    validateTtl (ttl message) = Ok tt ->
    validatePayloadLength (payloadSerialized message) = Ok tt ->
    forall signature,
      cmsSign
        (makeImplicitlyTaggedSequence
           [ Asn1.VisibleString (recipientAddress message);
             Asn1.VisibleString (id message);
             dateToASN1DateTimeInUTC (creationDate message);
             integerOfNumber (ttl message);
             Asn1.OctetString (payloadSerialized message) ])
        key (senderCertificate message) (senderCaCertificateChain message) options
      = Ok signature ->
      serialize message typeOctet versionOctet key options =
      Ok (generateFormatSignature typeOctet versionOctet ++ signature)%list).
  { intros Haddr Hid Httl Hpayload signature Hsign.
    rewrite serialize_valid; try assumption; [now rewrite Hsign |].
    now apply validateRecipientAddressLength_Ok. }
  split; [exact validateRecipientAddressLength_Ok |].
  split; [apply serialize_long_address |].
  split; [exact Hsigned |].
  split; [reflexivity |]. split; [reflexivity |]. split; [exact Hsyntax |].
  split.
  - intros Haddr. apply Hsigned. rewrite Haddr. vm_compute. discriminate.
  - intros Hlen Hsig Hfile Hver Hfields Haddr.
    rewrite (deserialize_fields _ _ _ _ _ _ Hlen Hsig Hfile Hver Hfields), Haddr.
    destruct Hsyntax as [m ->]. simpl. eauto.
Qed.

(** C2, as the code has it. [serialize] makes four checks before it
    signs, in this order, and throws a [RAMFSyntaxError] at the first
    that fails: the address has at most 1024 characters, the id at most
    64, the TTL is neither below 0 nor above 15_552_000, the payload has
    at most [2^23 - 1] octets. When all four pass, the result is that of
    the signer: its exception, or the format signature of 10 octets
    followed by the SignedData, returned without a look at its length.
    The bound of 9_437_184 octets is enforced by [deserialize], before
    anything else. *)
Theorem serialize_length_unchecked message serialization typeOctet versionOctet key options :
  (1024 < strLength (recipientAddress message) ->
   serialize message typeOctet versionOctet key options =
   Throw (RAMFSyntaxError
            ("Recipient address should not span more than 1024 characters (got " +:+
             Z_toString (strLength (recipientAddress message)) +:+ ")"))) /\
  (strLength (recipientAddress message) <= 1024 ->
   64 < strLength (id message) ->
   serialize message typeOctet versionOctet key options =
   Throw (RAMFSyntaxError
            ("Id should not span more than 64 characters (got " +:+
             Z_toString (strLength (id message)) +:+ ")"))) /\
  (strLength (recipientAddress message) <= 1024 ->
   strLength (id message) <= 64 ->
   ltb (ttl message) (Num 0) = true ->
   serialize message typeOctet versionOctet key options =
   Throw (RAMFSyntaxError "TTL cannot be negative")) /\
  (strLength (recipientAddress message) <= 1024 ->
   strLength (id message) <= 64 ->
   ltb (Num 15552000) (ttl message) = true ->
   serialize message typeOctet versionOctet key options =
   Throw (RAMFSyntaxError
            ("TTL must be less than 15552000 (got " +:+ toString (ttl message) +:+ ")"))) /\
  (strLength (recipientAddress message) <= 1024 ->
   strLength (id message) <= 64 ->
   ltb (ttl message) (Num 0) = false ->
   ltb (Num 15552000) (ttl message) = false ->
   2 ^ 23 - 1 < byteLength (payloadSerialized message) ->
   serialize message typeOctet versionOctet key options =
   Throw (RAMFSyntaxError
            ("Payload size must not exceed 8 MiB (got " +:+
             Z_toString (byteLength (payloadSerialized message)) +:+ " octets)"))) /\
  (strLength (recipientAddress message) <= 1024 ->
   strLength (id message) <= 64 ->
   ltb (ttl message) (Num 0) = false ->
   ltb (Num 15552000) (ttl message) = false ->
   byteLength (payloadSerialized message) <= 2 ^ 23 - 1 ->
   (forall e,
      cmsSign
        (makeImplicitlyTaggedSequence
           [ Asn1.VisibleString (recipientAddress message);
             Asn1.VisibleString (id message);
             dateToASN1DateTimeInUTC (creationDate message);
             integerOfNumber (ttl message);
             Asn1.OctetString (payloadSerialized message) ])
        key (senderCertificate message) (senderCaCertificateChain message) options
      = Throw e ->
      serialize message typeOctet versionOctet key options = Throw e) /\
   (forall signature,
      cmsSign
        (makeImplicitlyTaggedSequence
           [ Asn1.VisibleString (recipientAddress message);
             Asn1.VisibleString (id message);
             dateToASN1DateTimeInUTC (creationDate message);
             integerOfNumber (ttl message);
             Asn1.OctetString (payloadSerialized message) ])
        key (senderCertificate message) (senderCaCertificateChain message) options
      = Ok signature ->
      serialize message typeOctet versionOctet key options =
      Ok (generateFormatSignature typeOctet versionOctet ++ signature)%list /\
      byteLength (generateFormatSignature typeOctet versionOctet ++ signature) =
      10 + byteLength signature)) /\
  (MAX_RAMF_MESSAGE_LENGTH < byteLength serialization ->
   deserialize serialization typeOctet versionOctet =
   Throw (RAMFSyntaxError ("Message should not be longer than 9 MiB (got " +:+
                           Z_toString (byteLength serialization) +:+ " octets)"))).
Proof.
  split; [apply serialize_long_address |].
  split; [apply serialize_long_id |].
  split; [| split; [| split; [| split]]].
  - intros Haddress Hid Hnegative.
    apply serialize_ttl_check; try assumption. now apply validateTtl_negative.
  - intros Haddress Hid Habove.
    apply serialize_ttl_check; try assumption.
    now rewrite (validateTtl_above_cap _ Habove).
  - intros Haddress Hid Hlow Hhigh Hlong.
    now apply serialize_long_payload.
  - intros Haddress Hid Hlow Hhigh Hpayload.
    assert (Hrun := serialize_valid message typeOctet versionOctet key options
                      (proj2 (validateRecipientAddressLength_Ok _) Haddress)
                      (proj2 (validateMessageIdLength_Ok _) Hid)
                      (proj2 (validateTtl_Ok _) (conj Hlow Hhigh))
                      (proj2 (validatePayloadLength_Ok _) Hpayload)).
    split.
    + intros e Hsign. rewrite Hrun, Hsign. reflexivity.
    + intros signature Hsign. rewrite Hrun, Hsign. split; [reflexivity |].
      unfold byteLength. rewrite length_app. simpl length. lia.
  - apply deserialize_too_long.
Qed.

End WithHost.

End RAMFProps.

(** *** The codec on the test doubles *)

Module RAMFExamples.
Import RAMF RAMFProps Mock.

Example mockWire_round_trip :
  serialize (mockMessage "0deadbeef" (Num 15552000)) Byte.x50 Byte.x00 mockKey None =
  Ok (mockWire "0deadbeef" (bigEndian 8 15552000)) /\
  deserialize (mockWire "0deadbeef" (bigEndian 8 15552000)) Byte.x50 Byte.x00 =
  Ok (mockMessage "0deadbeef" (Num 15552000)).
Proof. split; vm_compute; reflexivity. Qed.

Example type_octet_mismatch :
  deserialize (mockWire "0deadbeef" (bigEndian 8 1000)) Byte.x51 Byte.x00 =
  Throw (RAMFSyntaxError "Expected concrete message type 0x51 but got 0x50").
Proof. vm_compute. reflexivity. Qed.

Example unsafe_ttl_reaches_the_cap_check :
  Asn1.toBigInt unsafeTtlOctets = 2 ^ 53 /\
  parseMessageFields (drop 10 (mockWire "0deadbeef" unsafeTtlOctets)) =
  Ok (mockFields "0deadbeef" (Num (2 ^ 53))) /\
  deserialize (mockWire "0deadbeef" unsafeTtlOctets) Byte.x50 Byte.x00 =
  Throw (RAMFSyntaxError "TTL must be less than 15552000 (got 9007199254740992)").
Proof. repeat split; vm_compute; reflexivity. Qed.

Lemma ttl_bounds_witness :
  (exists received,
     deserialize (mockWire "0deadbeef" (bigEndian 8 15552000)) Byte.x50 Byte.x00 = Ok received /\
     ttl received = Num 15552000) /\
  (exists m,
     deserialize (mockWire "0deadbeef" (bigEndian 8 15552001)) Byte.x50 Byte.x00 =
     Throw (RAMFSyntaxError m)) /\
  (exists m,
     serialize (mockMessage "0deadbeef" (Num (-1))) Byte.x50 Byte.x00 mockKey None =
     Throw (RAMFSyntaxError m)).
Proof.
  split; [| split].
  - refine (proj2 (proj2 (proj2 (proj2 (proj2 (proj2 (proj2 (proj2
      (ttl_bounds (mockMessage "0deadbeef" (Num 15552000))
         (mockWire "0deadbeef" (bigEndian 8 15552000)) Byte.x50 Byte.x00 mockKey None
         {| concreteMessageType := Byte.x50; concreteMessageVersion := Byte.x00 |}
         (mockVerification (drop 10 (mockWire "0deadbeef" (bigEndian 8 15552000))))
         (mockFields "0deadbeef" (Num 15552000))
         eq_refl eq_refl eq_refl eq_refl eq_refl eq_refl eq_refl eq_refl))))))))
      _ eq_refl).
    right. reflexivity.
  - refine (proj1 (proj2 (proj2 (proj2 (proj2 (proj2 (proj2 (proj2
      (ttl_bounds (mockMessage "0deadbeef" (Num (-1)))
         (mockWire "0deadbeef" (bigEndian 8 15552001)) Byte.x50 Byte.x00 mockKey None
         {| concreteMessageType := Byte.x50; concreteMessageVersion := Byte.x00 |}
         (mockVerification (drop 10 (mockWire "0deadbeef" (bigEndian 8 15552001))))
         (mockFields "0deadbeef" (Num 15552001))
         eq_refl eq_refl eq_refl eq_refl eq_refl eq_refl eq_refl eq_refl))))))))
      _).
    right. reflexivity.
  - refine (proj1 (proj2 (proj2 (proj2 (proj2 (proj2
      (ttl_bounds (mockMessage "0deadbeef" (Num (-1)))
         (mockWire "0deadbeef" (bigEndian 8 15552001)) Byte.x50 Byte.x00 mockKey None
         {| concreteMessageType := Byte.x50; concreteMessageVersion := Byte.x00 |}
         (mockVerification (drop 10 (mockWire "0deadbeef" (bigEndian 8 15552001))))
         (mockFields "0deadbeef" (Num 15552001))
         eq_refl eq_refl eq_refl eq_refl eq_refl eq_refl eq_refl eq_refl))))))
      _).
    left. reflexivity.
Defined.



Lemma serialize_skips_address_syntax_witness :
  parsesAsURL "0DEADBEEF" = false /\
  serialize (mockMessage "0DEADBEEF" (Num 1000)) Byte.x50 Byte.x00 mockKey None =
  Ok (mockWire "0DEADBEEF" (bigEndian 8 1000)) /\
  (exists m,
     deserialize (mockWire "0DEADBEEF" (bigEndian 8 1000)) Byte.x50 Byte.x00 =
     Throw (RAMFValidationError m)) /\
  serialize (mockMessage longAddress (Num 1000)) Byte.x50 Byte.x00 mockKey None =
  Throw (RAMFSyntaxError
           "Recipient address should not span more than 1024 characters (got 1025)").
Proof.
  pose proof (serialize_skips_address_syntax
                (mockMessage "0DEADBEEF" (Num 1000))
                (mockWire "0DEADBEEF" (bigEndian 8 1000)) Byte.x50 Byte.x00 mockKey None
                {| concreteMessageType := Byte.x50; concreteMessageVersion := Byte.x00 |}
                (mockVerification (drop 10 (mockWire "0DEADBEEF" (bigEndian 8 1000))))
                (mockFields "0DEADBEEF" (Num 1000))
                eq_refl)
    as (_ & _ & _ & _ & _ & _ & Hserialize & Hdeserialize).
  pose proof (serialize_skips_address_syntax
                (mockMessage longAddress (Num 1000))
                [] Byte.x50 Byte.x00 mockKey None
                {| concreteMessageType := Byte.x50; concreteMessageVersion := Byte.x00 |}
                (mockVerification [])
                (mockFields "0DEADBEEF" (Num 1000))
                eq_refl)
    as (_ & Hlong & _).
  split; [reflexivity |]. split; [| split].
  - rewrite (Hserialize eq_refl eq_refl eq_refl eq_refl _ eq_refl). vm_compute. reflexivity.
  - apply Hdeserialize; reflexivity.
  - rewrite Hlong; vm_compute; reflexivity.
Defined.

Lemma byteLength_repeat (b : byte) (n : Z) : 0 <= n -> byteLength (repeat b (Z.to_nat n)) = n.
Proof. intros Hn. unfold byteLength. rewrite repeat_length. lia. Qed.

Lemma byteLength_app (a b : list byte) : byteLength (a ++ b) = byteLength a + byteLength b.
Proof. unfold byteLength. rewrite length_app. lia. Qed.

Lemma byteLength_nonneg (a : list byte) : 0 <= byteLength a.
Proof. unfold byteLength. lia. Qed.

(** On the test double, the SignedData carries the chain. *)
Lemma serialize_with_chain (chain : list X509.Certificate) :
  serialize (messageWithChain chain) Byte.x50 Byte.x00 mockKey None =
  Ok (mockWire "0deadbeef" (bigEndian 8 1000) ++
      concat (map (fun c => X509.signatureValue (X509.pkijsCertificate c)) chain))%list.
Proof. vm_compute. reflexivity. Qed.

Lemma chain_of_one_length (n : Z) :
  0 <= n ->
  byteLength (concat (map (fun c => X509.signatureValue (X509.pkijsCertificate c))
                          [certificateOfSize n])) = n.
Proof.
  intros Hn. cbn [map concat]. rewrite app_nil_r.
  change (X509.signatureValue (X509.pkijsCertificate (certificateOfSize n)))
    with (repeat Byte.x00 (Z.to_nat n)).
  now apply byteLength_repeat.
Qed.

(** C2 as the spec states it fails: a message with a short payload and a
    chain of 9_437_185 octets is serialized without an error, and the
    result is longer than any message [deserialize] accepts. *)
Lemma serialize_exceeds_message_limit :
  exists serialization,
    serialize (messageWithChain [certificateOfSize 9437185]) Byte.x50 Byte.x00 mockKey None =
    Ok serialization /\
    MAX_RAMF_MESSAGE_LENGTH < byteLength serialization /\
    exists m, deserialize serialization Byte.x50 Byte.x00 = Throw (RAMFSyntaxError m).
Proof.
  eexists. split; [apply serialize_with_chain |].
  assert (Hlong : MAX_RAMF_MESSAGE_LENGTH <
                  byteLength (mockWire "0deadbeef" (bigEndian 8 1000) ++
                              concat (map (fun c => X509.signatureValue (X509.pkijsCertificate c))
                                          [certificateOfSize 9437185]))).
  { rewrite byteLength_app, chain_of_one_length by lia.
    pose proof (byteLength_nonneg (mockWire "0deadbeef" (bigEndian 8 1000))).
    unfold MAX_RAMF_MESSAGE_LENGTH. lia. }
  split; [exact Hlong |].
  rewrite deserialize_too_long by exact Hlong. eauto.
Qed.

Lemma serialize_length_unchecked_witness :
  serialize (messageWithChain []) Byte.x50 Byte.x00 mockKey None =
  Ok (mockWire "0deadbeef" (bigEndian 8 1000)) /\
  byteLength (mockWire "0deadbeef" (bigEndian 8 1000)) = 47 /\
  serialize (mockMessage longAddress (Num 1000)) Byte.x50 Byte.x00 mockKey None =
  Throw (RAMFSyntaxError
           "Recipient address should not span more than 1024 characters (got 1025)") /\
  serialize (mockMessage "0deadbeef" (Num 15552001)) Byte.x50 Byte.x00 mockKey None =
  Throw (RAMFSyntaxError "TTL must be less than 15552000 (got 15552001)").
Proof.
  pose proof (serialize_length_unchecked (messageWithChain [])
                [] Byte.x50 Byte.x00 mockKey None)
    as (_ & _ & _ & _ & _ & Hserialize & _).
  destruct Hserialize as [_ Hsigned];
    [vm_compute; congruence | vm_compute; congruence | reflexivity | reflexivity
     | vm_compute; congruence |].
  destruct (Hsigned _ eq_refl) as [-> _].
  pose proof (serialize_length_unchecked (mockMessage longAddress (Num 1000))
                [] Byte.x50 Byte.x00 mockKey None)
    as (Hlong & _).
  pose proof (serialize_length_unchecked (mockMessage "0deadbeef" (Num 15552001))
                [] Byte.x50 Byte.x00 mockKey None)
    as (_ & _ & _ & Habove & _).
  split; [vm_compute; reflexivity |]. split; [vm_compute; reflexivity |]. split.
  - rewrite Hlong; vm_compute; reflexivity.
  - rewrite Habove; [vm_compute; reflexivity | vm_compute; congruence
                     | vm_compute; congruence | reflexivity].
Defined.

End RAMFExamples.

(** ** Dates *)

Module DateProps.

(** A time value is its day, hour, minute, second and millisecond. *)
Lemma time_fields (t : Z) :
  MakeDate (Day t) (MakeTime (HourFromTime t) (MinFromTime t) (SecFromTime t) (msFromTime t)) = t.
Proof.
  unfold MakeDate, MakeTime, Day, HourFromTime, MinFromTime, SecFromTime, msFromTime,
    msPerDay, msPerHour, msPerMinute, msPerSecond.
  pose proof (Z.div_mod t 1000 ltac:(lia)) as Hms.
  pose proof (Z.div_mod (t / 1000) 60 ltac:(lia)) as Hsec.
  pose proof (Z.div_mod (t / 60000) 60 ltac:(lia)) as Hmin.
  pose proof (Z.div_mod (t / 3600000) 24 ltac:(lia)) as Hhour.
  replace (t / 1000 / 60) with (t / 60000) in Hsec
    by (rewrite Z.div_div by lia; reflexivity).
  replace (t / 60000 / 60) with (t / 3600000) in Hmin
    by (rewrite Z.div_div by lia; reflexivity).
  replace (t / 3600000 / 24) with (t / 86400000) in Hhour
    by (rewrite Z.div_div by lia; reflexivity).
  lia.
Qed.

Lemma MakeTime_hour (hour min sec ms delta : Z) :
  MakeTime (hour - delta) min sec ms = MakeTime hour min sec ms - delta * msPerHour.
Proof. unfold MakeTime. lia. Qed.

Lemma MakeTime_ms (hour min sec ms : Z) :
  MakeTime hour min sec 0 = MakeTime hour min sec ms - ms.
Proof. unfold MakeTime. lia. Qed.

(** In local time, [setMilliseconds(0)] drops the milliseconds and
    [setHours(getHours() - n)] goes back [n] hours on the wall clock. *)
Lemma local_setMilliseconds (t : Z) :
  MakeDate (Day t) (MakeTime (HourFromTime t) (MinFromTime t) (SecFromTime t) 0) =
  1000 * (t / 1000).
Proof.
  rewrite (MakeTime_ms _ _ _ (msFromTime t)).
  unfold MakeDate. pose proof (time_fields t) as Hfields. unfold MakeDate in Hfields.
  unfold msFromTime, msPerSecond in *.
  pose proof (Z.div_mod t 1000 ltac:(lia)). lia.
Qed.

Lemma local_setHours (t delta : Z) :
  MakeDate (Day t)
    (MakeTime (HourFromTime t - delta) (MinFromTime t) (SecFromTime t) (msFromTime t)) =
  t - delta * msPerHour.
Proof.
  rewrite MakeTime_hour. pose proof (time_fields t) as Hfields.
  unfold MakeDate in *. lia.
Qed.

Lemma setMilliseconds_whole_second (tz : TimeZone) (d : Date) :
  WholeSecondZone tz -> setMilliseconds tz d 0 = 1000 * (d / 1000).
Proof.
  intros Hzone. destruct (Hzone d) as [Hoffset Hsame].
  unfold setMilliseconds, LocalTime, UTC. rewrite local_setMilliseconds, Hsame.
  pose proof (Z.div_mod (LocalTZA tz d true) 1000 ltac:(lia)) as Hk.
  rewrite Hoffset in Hk.
  replace (d + LocalTZA tz d true) with (d + (LocalTZA tz d true / 1000) * 1000) by lia.
  rewrite Z.div_add by lia. lia.
Qed.


Lemma fixedZone_whole_second (offset : Z) :
  offset mod 1000 = 0 -> WholeSecondZone (fixedZone offset).
Proof. intros Hoffset t. split; [exact Hoffset | reflexivity]. Qed.




(** A transition on a whole second between whole-second offsets, forward
    or backward, never moves a truncated date forward; during the
    repeated hour of a backward transition it moves it back. *)
Lemma zoneWithTransition_truncating (at_ before after : Z) :
  at_ mod 1000 = 0 -> before mod 1000 = 0 -> after mod 1000 = 0 ->
  TruncatingZone (zoneWithTransition at_ before after).
Proof.
  intros Hat Hbefore Hafter d.
  unfold setMilliseconds, LocalTime, UTC. rewrite local_setMilliseconds.
  unfold zoneWithTransition. cbn [LocalTZA].
  pose proof (Z.div_mod at_ 1000 ltac:(lia)) as Hat'.
  pose proof (Z.div_mod before 1000 ltac:(lia)) as Hbefore'.
  pose proof (Z.div_mod after 1000 ltac:(lia)) as Hafter'.
  destruct (Z.ltb_spec d at_) as [Hearly | Hlate].
  - pose proof (Z.mul_div_le (d + before) 1000 ltac:(lia)).
    destruct (Z.ltb_spec (1000 * ((d + before) / 1000)) (at_ + Z.max before after)); lia.
  - pose proof (Z.mul_div_le (d + after) 1000 ltac:(lia)).
    assert (Hfloor : at_ + after <= 1000 * ((d + after) / 1000)).
    { replace (at_ + after) with (1000 * (at_ / 1000 + after / 1000)) by lia.
      apply Z.mul_le_mono_nonneg_l; [lia |].
      apply Z.div_le_lower_bound; lia. }
    destruct (Z.ltb_spec (1000 * ((d + after) / 1000)) (at_ + Z.max before after)); lia.
Qed.

Example centralEuropeanZone_truncating : TruncatingZone Mock.centralEuropeanZone.
Proof. apply zoneWithTransition_truncating; reflexivity. Qed.

End DateProps.

(** ** Certificates *)

Lemma bind_Ok {A B : Type} (m : result A) (f : A -> result B) (b : B) :
  m ≫= f = Ok b -> exists a, m = Ok a /\ f a = Ok b.
Proof. destruct m as [a | e]; simpl; [eauto | discriminate]. Qed.

Lemma throwIf_Ok (cond : bool) (e : error) (u : unit) : throwIf cond e = Ok u -> cond = false.
Proof. destruct cond; [discriminate | reflexivity]. Qed.

(** Invert a chain of binds that ended well. *)
Ltac bind_inv H :=
  repeat match type of H with
         | _ ≫= _ = Ok _ =>
             let a := fresh "a" in
             let Ha := fresh "Hstep" in
             apply bind_Ok in H; destruct H as (a & Ha & H)
         end.

Module X509Props.
Import X509 DateProps.

(** *** Serial numbers *)

Lemma unsigned_from_nonneg (valueHex : list byte) (acc : Z) :
  0 <= acc ->
  acc <= fold_left (fun acc b => acc * 256 + Z.of_N (Byte.to_N b)) valueHex acc.
Proof.
  revert acc. induction valueHex as [| b rest IH]; intros acc Hacc; simpl; [lia |].
  etransitivity; [| apply IH]; lia.
Qed.

Lemma unsignedValue_nonneg (valueHex : list byte) : 0 <= Asn1.unsignedValue valueHex.
Proof. apply (unsigned_from_nonneg valueHex 0). lia. Qed.

Lemma unsigned_from_pos (valueHex : list byte) (acc : Z) :
  0 <= acc ->
  0 < acc \/ Exists (fun b => b <> Byte.x00) valueHex ->
  0 < fold_left (fun acc b => acc * 256 + Z.of_N (Byte.to_N b)) valueHex acc.
Proof.
  revert acc. induction valueHex as [| b rest IH]; intros acc Hacc Hpos; simpl.
  - destruct Hpos as [? | Hex]; [assumption | inversion Hex].
  - apply IH; [lia |].
    destruct Hpos as [? | Hex]; [left; lia |].
    inversion Hex as [? ? Hb | ? ? Hrest]; subst; [left | right; assumption].
    assert (0 < Z.of_N (Byte.to_N b)) by (destruct b; try congruence; vm_compute; reflexivity).
    lia.
Qed.

Lemma msb_of_first_octet (b : byte) :
  (127 <? Z.of_N (Byte.to_N b)) = Z.testbit (Z.of_N (Byte.to_N b)) 7.
Proof. destruct b; vm_compute; reflexivity. Qed.

(** What [generatePositiveASN1Integer] does hold: a zero octet is
    prepended exactly when the most significant bit of the first octet is
    set, and the INTEGER is never negative; it is positive unless every
    random octet is zero. *)
Lemma generatePositiveASN1Integer_sign (first : byte) (rest : list byte) :
  let random64 := first :: rest in
  (Z.testbit (Z.of_N (Byte.to_N first)) 7 = true ->
   generatePositiveASN1Integer random64 = Byte.x00 :: random64) /\
  (Z.testbit (Z.of_N (Byte.to_N first)) 7 = false ->
   generatePositiveASN1Integer random64 = random64) /\
  Asn1.toBigInt (generatePositiveASN1Integer random64) = Asn1.unsignedValue random64 /\
  0 <= Asn1.toBigInt (generatePositiveASN1Integer random64) /\
  (Exists (fun b => b <> Byte.x00) random64 ->
   0 < Asn1.toBigInt (generatePositiveASN1Integer random64)).
Proof.
  intros random64. unfold generatePositiveASN1Integer. subst random64.
  rewrite <- msb_of_first_octet.
  assert (Hvalue : Asn1.toBigInt
                     (if 127 <? Z.of_N (Byte.to_N first)
                      then Byte.x00 :: first :: rest else first :: rest) =
                   Asn1.unsignedValue (first :: rest)).
  { destruct (127 <? Z.of_N (Byte.to_N first)) eqn:Hmsb.
    - reflexivity.
    - unfold Asn1.toBigInt. now rewrite Hmsb. }
  split; [intros ->; reflexivity |]. split; [intros ->; reflexivity |].
  split; [exact Hvalue |]. rewrite Hvalue.
  split; [apply unsignedValue_nonneg |].
  intros Hex. apply (unsigned_from_pos (first :: rest) 0); [lia | right; exact Hex].
Qed.

(** C8 fails on the code for one random value: when the eight random
    octets are all zero, the serial number is the INTEGER zero. *)
Theorem serial_number_of_zero_octets :
  generatePositiveASN1Integer (repeat Byte.x00 8) = repeat Byte.x00 8 /\
  Asn1.toBigInt (generatePositiveASN1Integer (repeat Byte.x00 8)) = 0.
Proof. split; reflexivity. Qed.

Section WithHost.
Context `{!Host}.

(** *** Deserialization and validation *)

(** C10. [Certificate.deserialize] succeeds on every input that the DER
    decoder and the certificate schema accept, whatever the version and
    the validity period of the certificate; it is [validate] that throws
    [CertificateError] when the certificate is not version 3, is not yet
    valid or has expired, and accepts it otherwise. *)
Theorem deserialize_skips_validation certDer asn1Value pkijsCert currentDate :
  derDeserialize certDer = Ok asn1Value ->
  certificateFromSchema asn1Value = Ok pkijsCert ->
  let certificate := newCertificate pkijsCert in
  deserialize certDer = Ok certificate /\
  (version pkijsCert + 1 <> 3 ->
   exists m, validate currentDate certificate = Throw (CertificateError m)) /\
  (version pkijsCert + 1 = 3 -> currentDate < notBefore pkijsCert ->
   validate currentDate certificate = Throw (CertificateError "Certificate is not yet valid")) /\
  (version pkijsCert + 1 = 3 ->
   notBefore pkijsCert <= currentDate -> notAfter pkijsCert < currentDate ->
   validate currentDate certificate = Throw (CertificateError "Certificate already expired")) /\
  (version pkijsCert + 1 = 3 ->
   notBefore pkijsCert <= currentDate <= notAfter pkijsCert ->
   validate currentDate certificate = Ok tt).
Proof.
  intros Hder Hschema certificate.
  split; [unfold deserialize; rewrite Hder; simpl; rewrite Hschema; reflexivity |].
  unfold validate, startDate, expiryDate. subst certificate. simpl.
  repeat split.
  - intros Hversion.
    destruct (Z.eqb_spec (version pkijsCert + 1) 3); [contradiction |]. simpl. eauto.
  - intros -> Hearly. simpl.
    destruct (Z.ltb_spec currentDate (notBefore pkijsCert)); [reflexivity | lia].
  - intros -> Hstarted Hlate. simpl.
    destruct (Z.ltb_spec currentDate (notBefore pkijsCert)); [lia |]. simpl.
    destruct (Z.ltb_spec (notAfter pkijsCert) currentDate); [reflexivity | lia].
  - intros -> [Hstarted Hvalid]. simpl.
    destruct (Z.ltb_spec currentDate (notBefore pkijsCert)); [lia |]. simpl.
    destruct (Z.ltb_spec (notAfter pkijsCert) currentDate); [lia | reflexivity].
Qed.

End WithHost.

(** A version 1 certificate whose validity ended before it began is
    deserialized; [validate] rejects it. *)
Lemma deserialize_skips_validation_witness :
  (exists certificate,
     deserialize [Byte.x30; Byte.x00; Byte.x05; Byte.x01] = Ok certificate /\
     version (pkijsCertificate certificate) = 0 /\
     expiryDate certificate < startDate certificate) /\
  exists m,
    validate 3000 (newCertificate
                     {| version := 0; serialNumber := [Byte.x01];
                        notBefore := 5000; notAfter := 1000;
                        subject := []; issuer := []; extensions := None;
                        subjectPublicKeyInfo := None; signatureValue := [] |}) =
    Throw (CertificateError m).
Proof.
  pose proof (deserialize_skips_validation
                [Byte.x30; Byte.x00; Byte.x05; Byte.x01] _ _ 3000 eq_refl eq_refl)
    as (Hdeserialize & Hversion & _).
  split.
  - eexists. split; [exact Hdeserialize |]. split; [reflexivity |].
    vm_compute. reflexivity.
  - apply Hversion. discriminate.
Defined.

End X509Props.

(** *** Issuance *)

Module IssueProps.
Import X509 DateProps.

Section WithHost.
Context `{!Host}.





End WithHost.

End IssueProps.

Module IssueExamples.
Import X509 DateProps IssueProps Mock.


Example issue_clamps_end_date :
  issue utcZone 90000000000 (repeat Byte.x80 8) mockIssuanceOptions = Ok
    (newCertificate
       {| version := 2;
          serialNumber := Byte.x00 :: repeat Byte.x80 8;
          notBefore := 1000;
          notAfter := 86400000;
          subject := [ {| atvType := "2.5.4.3"; atvValue := Asn1.BmpString "0cafe" |} ];
          issuer := [ {| atvType := "2.5.4.3"; atvValue := Asn1.BmpString "0deadbeef" |} ];
          extensions :=
            Some [ {| critical := true; extnID := "2.5.29.19";
                      extnValue := [Byte.x30; Byte.x00] |};
                   {| critical := false; extnID := "2.5.29.35";
                      extnValue := [Byte.x30; Byte.x04; Byte.x07] |};
                   {| critical := false; extnID := "2.5.29.14";
                      extnValue := [Byte.x04; Byte.x09] |} ];
          subjectPublicKeyInfo := Some {| keyParams := "SHA-256"; keyMaterial := [Byte.x09] |};
          signatureValue := [Byte.x07] |}).
Proof. vm_compute. reflexivity. Qed.


(** The milliseconds are dropped in local time. At the end of summer
    time an end date in the second pass of the repeated hour moves back
    by the hour, before a start date that preceded it by 26 minutes, and
    [issue] throws. *)
Example issue_in_repeated_hour :
  validityStartDate repeatedHourOptions = Some 1761439400000 /\
  Z.min (expiryDate longLivedIssuer) (validityEndDate repeatedHourOptions) = 1761441000200 /\
  setMilliseconds endOfSummerTimeZone 1761439400000 0 = 1761439400000 /\
  setMilliseconds endOfSummerTimeZone 1761441000200 0 = 1761437400000 /\
  TruncatingZone endOfSummerTimeZone /\
  issue endOfSummerTimeZone 0 (repeat Byte.x80 8) repeatedHourOptions =
  Throw (CertificateError "The end date must be later than the start date").
Proof.
  split; [reflexivity |]. split; [reflexivity |].
  split; [vm_compute; reflexivity |]. split; [vm_compute; reflexivity |].
  split; [apply zoneWithTransition_truncating; reflexivity | vm_compute; reflexivity].
Qed.

End IssueExamples.

(** ** EnvelopedData *)

Module CMSProps.
Import CMS.

Lemma getAesKeySize_invalid (size : number) :
  truthyNumber (Some size) = true -> includesNumber AES_KEY_SIZES size = false ->
  getAesKeySize (Some size) =
  Throw (CMSError ("Invalid AES key size (" +:+ toString size +:+ ")")).
Proof. intros Htruthy Hout. unfold getAesKeySize. now rewrite Htruthy, Hout. Qed.

Lemma getAesKeySize_allowed (size : Z) :
  includes AES_KEY_SIZES size = true -> getAesKeySize (Some (Num size)) = Ok (Num size).
Proof.
  intros Hin. unfold getAesKeySize, truthyNumber, includesNumber. rewrite Hin.
  destruct (Z.eqb_spec size 0) as [-> | _]; [discriminate Hin | reflexivity].
Qed.

Lemma getAesKeySize_falsy (aesKeySize : option number) :
  truthyNumber aesKeySize = false -> getAesKeySize aesKeySize = Ok (Num 128).
Proof.
  intros Hfalsy. unfold getAesKeySize. rewrite Hfalsy.
  now destruct aesKeySize.
Qed.

Section WithHost.
Context `{!Host}.

Lemma extractOriginatorKeyId_absent (envelopedData : PkijsEnvelopedData) :
  filter (fun a => attrType a = oids.ORIGINATOR_EPHEMERAL_CERT_SERIAL_NUMBER)
         (default [] (unprotectedAttrs envelopedData)) = [] ->
  exists m, extractOriginatorKeyId envelopedData = Throw (CMSError m).
Proof.
  intros Habsent. unfold extractOriginatorKeyId.
  destruct (_ =? 0); simpl; [eauto |]. rewrite Habsent. eauto.
Qed.

(** X30. The failures of the EnvelopedData wrapper.
    [EnvelopedData.deserialize] throws a [CMSError] for every input
    whose EnvelopedData has a number of RecipientInfos other than one,
    or one RecipientInfo of a variant other than 1 and 2; variant 1
    gives a [SessionlessEnvelopedData] and variant 2 a
    [SessionEnvelopedData]. [getOriginatorKey] throws a [CMSError] when
    no unprotected attribute has the OID of the originator key id.
    [getAesKeySize] throws a [CMSError] that names the size for every
    key size that is truthy (neither 0 nor NaN) and is none of 128, 192
    and 256, and then neither [encrypt] returns a value. *)
Theorem envelopedData_failures envelopedDataSerialized contentInfo pkijsEnvelopedData :
  deserializeContentInfo envelopedDataSerialized = Ok contentInfo ->
  envelopedDataFromSchema (content contentInfo) = Ok pkijsEnvelopedData ->
  (length (recipientInfos pkijsEnvelopedData) <> 1%nat ->
   exists m, deserialize envelopedDataSerialized = Throw (CMSError m)) /\
  (forall recipientInfo,
     recipientInfos pkijsEnvelopedData = [recipientInfo] ->
     variant recipientInfo <> 1 -> variant recipientInfo <> 2 ->
     exists m, deserialize envelopedDataSerialized = Throw (CMSError m)) /\
  (forall recipientInfo,
     contentType contentInfo = oids.ENVELOPED_DATA ->
     recipientInfos pkijsEnvelopedData = [recipientInfo] ->
     (variant recipientInfo = 1 ->
      deserialize envelopedDataSerialized = Ok (SessionlessEnvelopedData pkijsEnvelopedData)) /\
     (variant recipientInfo = 2 ->
      deserialize envelopedDataSerialized = Ok (SessionEnvelopedData pkijsEnvelopedData))) /\
  (forall sessionEnvelopedData,
     filter (fun a => attrType a = oids.ORIGINATOR_EPHEMERAL_CERT_SERIAL_NUMBER)
            (default [] (unprotectedAttrs sessionEnvelopedData)) = [] ->
     exists m, getOriginatorKey sessionEnvelopedData = Throw (CMSError m)) /\
  (forall size,
     truthyNumber (Some size) = true -> includesNumber AES_KEY_SIZES size = false ->
     getAesKeySize (Some size) =
     Throw (CMSError ("Invalid AES key size (" +:+ toString size +:+ ")")) /\
     (forall plaintext certificate,
        isOk (sessionlessEncrypt plaintext certificate {| aesKeySize := Some size |}) = false) /\
     (forall plaintext certificate withRecipient,
        addRecipientByCertificate (newPkijsEnvelopedData None)
          (X509.pkijsCertificate certificate) = Ok withRecipient ->
        sessionlessEncrypt plaintext certificate {| aesKeySize := Some size |} =
        Throw (CMSError ("Invalid AES key size (" +:+ toString size +:+ ")"))) /\
     (forall random64 plaintext recipientSessionKey,
        isOk (sessionEncrypt random64 plaintext recipientSessionKey
                {| aesKeySize := Some size |}) = false)).
Proof.
  intros Hinfo Hschema.
  assert (Hdes :
    deserialize envelopedDataSerialized =
    (_ ← throwIf (negb (String.eqb (contentType contentInfo) oids.ENVELOPED_DATA))
           (CMSError ("ContentInfo does not wrap an EnvelopedData value (got OID " +:+
                      contentType contentInfo +:+ ")"));
     _ ← throwIf (negb (Z.of_nat (length (recipientInfos pkijsEnvelopedData)) =? 1))
           (CMSError ("EnvelopedData must have exactly one RecipientInfo (got " +:+
                      Z_toString (Z.of_nat (length (recipientInfos pkijsEnvelopedData))) +:+
                      ")"));
     match recipientInfos pkijsEnvelopedData with
     | recipientInfo :: _ =>
         _ ← throwIf (negb (includes [1; 2] (variant recipientInfo)))
               (CMSError ("Unsupported RecipientInfo (variant: " +:+
                          Z_toString (variant recipientInfo) +:+ ")"));
         Ok (if variant recipientInfo =? 1
             then SessionlessEnvelopedData pkijsEnvelopedData
             else SessionEnvelopedData pkijsEnvelopedData)
     | [] => Throw (Error "Cannot read properties of undefined (reading 'variant')")
     end)).
  { unfold deserialize. rewrite Hinfo. simpl.
    destruct (throwIf _ _); simpl; [| reflexivity]. now rewrite Hschema. }
  split; [| split; [| split; [| split]]].
  - intros Hcount. rewrite Hdes.
    destruct (negb (String.eqb _ _)); simpl; [eauto |].
    destruct (Z.eqb_spec (Z.of_nat (length (recipientInfos pkijsEnvelopedData))) 1);
      [lia |]. simpl. eauto.
  - intros recipientInfo Hone Hnot1 Hnot2. rewrite Hdes, Hone.
    destruct (negb (String.eqb _ _)); simpl; [eauto |].
    unfold includes. simpl.
    destruct (Z.eqb_spec (variant recipientInfo) 1); [contradiction |].
    destruct (Z.eqb_spec (variant recipientInfo) 2); [contradiction |]. simpl. eauto.
  - intros recipientInfo Htype Hone. rewrite Hdes, Hone, Htype. simpl.
    split; intros ->; reflexivity.
  - intros sessionEnvelopedData Habsent. unfold getOriginatorKey.
    destruct (extractOriginatorKeyId_absent _ Habsent) as [m ->]. simpl. eauto.
  - intros size Htruthy Hout.
    pose proof (getAesKeySize_invalid size Htruthy Hout) as Hsize.
    split; [exact Hsize |]. split; [| split].
    + intros plaintext certificate. unfold sessionlessEncrypt.
      destruct (addRecipientByCertificate _ _); [| reflexivity].
      cbn [mbind result_bind aesKeySize]. now rewrite Hsize.
    + intros plaintext certificate withRecipient Hadd. unfold sessionlessEncrypt.
      rewrite Hadd. cbn [mbind result_bind aesKeySize]. now rewrite Hsize.
    + intros random64 plaintext recipientSessionKey. unfold sessionEncrypt.
      destruct (addRecipientByKeyIdentifier _ _ _); [| reflexivity].
      cbn [mbind result_bind aesKeySize]. now rewrite Hsize.
Qed.

End WithHost.

(** C5 fails on the code for the key sizes 0 and NaN. Neither is one of
    128, 192 and 256, and [getAesKeySize] means to refuse such a size
    (it throws for 512 and for 128.5); yet the membership test is
    guarded by the truthiness of the size, so both are let through and
    the content is encrypted with a key of 128 bits, by either
    [encrypt]. *)
Theorem falsy_aes_key_size_accepted :
  includesNumber AES_KEY_SIZES (Num 0) = false /\
  includesNumber AES_KEY_SIZES NaN = false /\
  getAesKeySize (Some (Num 512)) = Throw (CMSError "Invalid AES key size (512)") /\
  getAesKeySize (Some (Fraction 128 1)) = Throw (CMSError "Invalid AES key size (128.5)") /\
  getAesKeySize (Some (Num 0)) = Ok (Num 128) /\
  getAesKeySize (Some NaN) = Ok (Num 128) /\
  (forall plaintext certificate,
     sessionlessEncrypt plaintext certificate {| aesKeySize := Some (Num 0) |} =
     sessionlessEncrypt plaintext certificate {| aesKeySize := Some (Num 128) |} /\
     sessionlessEncrypt plaintext certificate {| aesKeySize := Some NaN |} =
     sessionlessEncrypt plaintext certificate {| aesKeySize := Some (Num 128) |}) /\
  (forall random64 plaintext recipientSessionKey,
     sessionEncrypt random64 plaintext recipientSessionKey {| aesKeySize := Some (Num 0) |} =
     sessionEncrypt random64 plaintext recipientSessionKey {| aesKeySize := Some (Num 128) |} /\
     sessionEncrypt random64 plaintext recipientSessionKey {| aesKeySize := Some NaN |} =
     sessionEncrypt random64 plaintext recipientSessionKey {| aesKeySize := Some (Num 128) |}) /\
  isOk (sessionlessEncrypt [Byte.xab] Mock.mockCertificate {| aesKeySize := Some (Num 0) |}) =
  true /\
  isOk (sessionEncrypt [Byte.x0a] [Byte.xab]
          {| keyId := [Byte.x01]; publicKey := Mock.mockKey |} {| aesKeySize := Some NaN |}) =
  true.
Proof.
  split; [reflexivity |]. split; [reflexivity |].
  split; [vm_compute; reflexivity |]. split; [vm_compute; reflexivity |].
  split; [reflexivity |]. split; [reflexivity |].
  split; [intros; split; reflexivity |]. split; [intros; split; reflexivity |].
  split; vm_compute; reflexivity.
Qed.

Lemma envelopedData_failures_witness :
  (exists m, deserialize [Byte.x01; Byte.x02] = Throw (CMSError m)) /\
  (exists m, deserialize [Byte.x03] = Throw (CMSError m)) /\
  (exists p, deserialize [Byte.x01] = Ok (SessionlessEnvelopedData p)) /\
  (exists p, deserialize [Byte.x02] = Ok (SessionEnvelopedData p)) /\
  getAesKeySize (Some (Num 512)) = Throw (CMSError "Invalid AES key size (512)").
Proof.
  split; [| split; [| split; [| split]]].
  - edestruct (envelopedData_failures [Byte.x01; Byte.x02]) as (Hcount & _);
      [reflexivity | reflexivity |].
    apply Hcount. discriminate.
  - edestruct (envelopedData_failures [Byte.x03]) as (_ & Hvariant & _);
      [reflexivity | reflexivity |].
    apply (Hvariant _ eq_refl); discriminate.
  - edestruct (envelopedData_failures [Byte.x01]) as (_ & _ & Hkind & _);
      [reflexivity | reflexivity |].
    eexists. apply (Hkind _ eq_refl eq_refl). reflexivity.
  - edestruct (envelopedData_failures [Byte.x02]) as (_ & _ & Hkind & _);
      [reflexivity | reflexivity |].
    eexists. apply (Hkind _ eq_refl eq_refl). reflexivity.
  - edestruct (envelopedData_failures [Byte.x01]) as (_ & _ & _ & _ & Hsize);
      [reflexivity | reflexivity |].
    destruct (Hsize (Num 512) eq_refl eq_refl) as (Hthrows & _).
    rewrite Hthrows. vm_compute. reflexivity.
Defined.

End CMSProps.

(** ** The gateway channel *)

Module GatewayChannelProps.
Import GatewayChannel DateProps.

(** Where the offset of local time is fixed, the creation time of a
    cargo is the current time, without its milliseconds, minus three
    hours. *)
Lemma getCargoCreationTime_fixed_offset (offset now : Z) :
  offset mod 1000 = 0 ->
  getCargoCreationTime (fixedZone offset) now = 1000 * (now / 1000) - 3 * msPerHour.
Proof.
  intros Hoffset. unfold getCargoCreationTime.
  rewrite setMilliseconds_whole_second by now apply fixedZone_whole_second.
  unfold setHours, getHours, LocalTime, UTC, CLOCK_DRIFT_TOLERANCE_HOURS.
  rewrite local_setHours. simpl. lia.
Qed.

(** Scenario 6 of the specification, in UTC: at 2025-06-15T12:00:00Z the
    creation date is 2025-06-15T09:00:00Z. *)
Example getCargoCreationTime_utc :
  getCargoCreationTime utcZone 1749988800000 = 1749978000000 /\
  getCargoCreationTime utcZone 1749988800999 = 1749978000000.
Proof. split; reflexivity. Qed.

Section WithHost.
Context `{!Host} `{!RAMF.Host}.

(** The cargo of an iteration: its creation date and its TTL. *)
Lemma makeCargo_fields tz this now n batch cargo :
  makeCargo tz this now n batch = Ok cargo ->
  RAMF.creationDate cargo = getCargoCreationTime tz now /\
  RAMF.ttl cargo =
  Num (Z.min ((expiryDate batch - getCargoCreationTime tz now) / 1000) 15552000).
Proof.
  unfold makeCargo. intros Hcargo. bind_inv Hcargo. injection Hcargo as <-.
  split; reflexivity.
Qed.

(** Every buffer that the generator yields is the serialization of the
    cargo of one of the batches, built at the time of its iteration. *)
Lemma cargoLoop_yields tz this clock batches failure :
  forall n yielded e,
    cargoLoop tz this clock n batches failure = (yielded, e) ->
    Forall (fun cargoSerialized =>
              exists k batch cargo,
                In batch batches /\
                makeCargo tz this (clock k) k batch = Ok cargo /\
                RAMF.serialize cargo CARGO_TYPE_OCTET CARGO_VERSION_OCTET
                  (nodePrivateKey this) (signatureOptions this) = Ok cargoSerialized)
           yielded.
Proof.
  induction batches as [| batch rest IH]; intros n yielded e Hloop; simpl in Hloop.
  - injection Hloop as <- _. constructor.
  - destruct (cargoStep tz this (clock n) n batch) as [cargoSerialized | e'] eqn:Hstep.
    + destruct (cargoLoop tz this clock (S n) rest failure) as [yielded' e''] eqn:Hrest.
      injection Hloop as <- _. constructor.
      * unfold cargoStep in Hstep. bind_inv Hstep.
        exists n, batch, a. split; [now left | split; assumption].
      * eapply Forall_impl; [apply (IH _ _ _ Hrest) |].
        intros buffer (k & batch' & cargo & Hin & Hmake & Hser).
        exists k, batch', cargo. split; [now right | split; assumption].
    + injection Hloop as <- _. constructor.
Qed.

End WithHost.

(** C6 fails on the code where the offset of local time changes: in
    central European time at 2025-03-30T02:30:00Z, half an hour after the
    clocks went forward, the creation date of a cargo is
    2025-03-30T00:30:00Z, two hours before the current time and not
    three. *)
Theorem cargo_creation_time_after_clock_change :
  let now := 1743301800000 in
  let batch := {| messageSerialized := [Byte.xab]; expiryDate := now + 60000 |} in
  getHours Mock.centralEuropeanZone now = 4 /\
  getCargoCreationTime Mock.centralEuropeanZone now = now - 2 * msPerHour /\
  (exists cargo,
     makeCargo Mock.centralEuropeanZone Mock.mockChannel now 0 batch = Ok cargo /\
     RAMF.creationDate cargo = 1743294600000 /\
     RAMF.ttl cargo = Num 7260) /\
  (exists cargoSerialized received,
     generateCargoes Mock.centralEuropeanZone Mock.mockChannel (fun _ => now) [batch] =
     ([cargoSerialized], None) /\
     RAMF.deserialize cargoSerialized CARGO_TYPE_OCTET CARGO_VERSION_OCTET = Ok received /\
     RAMF.creationDate received = 1743294600000 /\
     RAMF.ttl received = Num 7260).
Proof.
  split; [reflexivity |]. split; [reflexivity |]. split.
  - eexists. split; [vm_compute; reflexivity |]. split; reflexivity.
  - eexists. eexists. split; [vm_compute; reflexivity |].
    split; [vm_compute; reflexivity |]. split; reflexivity.
Qed.

End GatewayChannelProps.

(** * Further properties *)

Lemma bind_Throw {A B : Type} (m : result A) (f : A -> result B) (e : error) :
  m ≫= f = Throw e -> m = Throw e \/ exists a, m = Ok a /\ f a = Throw e.
Proof. destruct m as [a | e']; simpl; [eauto | intros [= ->]; auto]. Qed.

Lemma throwIf_Throw (cond : bool) (e e' : error) : throwIf cond e = Throw e' -> e' = e.
Proof. destruct cond; simpl; [intros [= ->]; reflexivity | discriminate]. Qed.

Lemma tryCatch_Throw {A : Type} (m : result A) (handler : error -> error) (e : error) :
  tryCatch m handler = Throw e -> exists cause, m = Throw cause /\ e = handler cause.
Proof. destruct m as [a | cause]; simpl; [discriminate | intros [= <-]; eauto]. Qed.

Lemma tryCatch_Ok {A : Type} (m : result A) (handler : error -> error) (a : A) :
  tryCatch m handler = Ok a -> m = Ok a.
Proof. destruct m; simpl; [intros [= ->]; reflexivity | discriminate]. Qed.

Lemma octet_inj (a b : byte) : RAMF.octet a = RAMF.octet b -> a = b.
Proof.
  unfold RAMF.octet. intros Heq. apply N2Z.inj in Heq.
  pose proof (Byte.of_to_N a) as Ha. pose proof (Byte.of_to_N b) as Hb.
  rewrite Heq in Ha. congruence.
Qed.

(** ** The RAMF codec, continued *)

Module RAMFMore.
Import RAMF RAMFProps Statements.

(** A TTL that passes the check was read without rounding. *)
Lemma accepted_ttl_exact (b : Z) :
  validateTtl (Number_of_bigint b) = Ok tt ->
  Number_of_bigint b = Num b /\ 0 <= b <= RAMF_MAX_TTL.
Proof.
  intros Hok.
  destruct (Z.lt_ge_cases MAX_SAFE_INTEGER b) as [Hbig | Hsafe].
  { rewrite validateTtl_unsafe_integer in Hok by assumption. discriminate Hok. }
  unfold MAX_SAFE_INTEGER in Hsafe.
  destruct (Z.lt_ge_cases b 0) as [Hneg | Hpos].
  - exfalso. unfold Number_of_bigint in Hok.
    destruct (Z.leb_spec 0 b); [lia |].
    assert (Hround : 0 < roundToDouble (- b)).
    { destruct (Z.lt_ge_cases (- b) (2 ^ 53)).
      - rewrite roundToDouble_small by lia. lia.
      - pose proof (roundToDouble_large (- b) ltac:(lia)).
        change (2 ^ 53) with 9007199254740992 in *. lia. }
    destruct (_ <? 2 ^ 1024).
    + rewrite validateTtl_negative in Hok; [discriminate Hok |].
      simpl. apply Z.ltb_lt. lia.
    + discriminate Hok.
  - rewrite Number_of_bigint_safe in * by lia.
    split; [reflexivity |].
    now apply validateTtl_Ok, ttlAccepted_Num in Hok.
Qed.

Section WithHost.
Context `{!Host}.

Lemma parseMessageFormatSignature_Ok (serialization : list byte) formatSignature :
  parseMessageFormatSignature (take 10 serialization) = Ok formatSignature ->
  10 <= byteLength serialization /\
  take 8 serialization = FORMAT_SIGNATURE_CONSTANT /\
  concreteMessageType formatSignature = nth 8 serialization Byte.x00 /\
  concreteMessageVersion formatSignature = nth 9 serialization Byte.x00.
Proof.
  unfold parseMessageFormatSignature. intros Hparse. bind_inv Hparse.
  apply throwIf_Ok, Z.ltb_ge in Hstep.
  apply throwIf_Ok, negb_false_iff, bool_decide_eq_true in Hstep0.
  injection Hparse as <-.
  assert (Hlen : (10 <= length serialization)%nat).
  { unfold byteLength in Hstep. rewrite length_take in Hstep. lia. }
  rewrite take_take in *. rewrite !take_take in Hstep0.
  replace (8 `min` (10 `min` 10))%nat with 8%nat in Hstep0 by reflexivity.
  replace (10 `min` 10)%nat with 10%nat by reflexivity.
  split; [unfold byteLength; lia |]. split; [now symmetry |].
  cbn [concreteMessageType concreteMessageVersion].
  rewrite <- (take_drop 10 serialization) at 2 4.
  rewrite !app_nth1 by (rewrite length_take; lia). split; reflexivity.
Qed.

(** X1. Every exception of [deserialize] is a [RAMFSyntaxError] or a
    [RAMFValidationError]: the errors of the signature verification and
    of the date conversion are wrapped, and every check of the function
    throws one of the two (the schema check, the text decoder and the
    constructor of the message are taken not to throw). *)
Theorem deserialize_error_classes serialization typeOctet versionOctet e :
  deserialize serialization typeOctet versionOctet = Throw e -> isRAMFError e.
Proof.
  unfold deserialize, isRAMFError. intros Hthrow.
  repeat match type of Hthrow with
         | _ ≫= _ = Throw _ =>
             apply bind_Throw in Hthrow;
             destruct Hthrow as [Hthrow | (? & _ & Hthrow)]
         end; try discriminate.
  - apply throwIf_Throw in Hthrow. subst. eauto.
  - unfold parseMessageFormatSignature in Hthrow.
    repeat match type of Hthrow with
           | _ ≫= _ = Throw _ =>
               apply bind_Throw in Hthrow;
               destruct Hthrow as [Hthrow | (? & _ & Hthrow)]
           end; try discriminate; apply throwIf_Throw in Hthrow; subst; eauto.
  - unfold validateFileFormatSignature in Hthrow.
    repeat match type of Hthrow with
           | _ ≫= _ = Throw _ =>
               apply bind_Throw in Hthrow;
               destruct Hthrow as [Hthrow | (? & _ & Hthrow)]
           end; apply throwIf_Throw in Hthrow; subst; eauto.
  - apply tryCatch_Throw in Hthrow. destruct Hthrow as (cause & _ & ->). right. eexists. reflexivity.
  - unfold parseMessageFields in Hthrow.
    destruct (verifySchema _); [| injection Hthrow as <-; eauto].
    apply bind_Throw in Hthrow. destruct Hthrow as [Hthrow | (? & _ & Hthrow)];
      [| discriminate].
    apply tryCatch_Throw in Hthrow. destruct Hthrow as (cause & _ & ->).
    right. eexists. reflexivity.
  - apply throwIf_Throw in Hthrow. subst. eauto.
  - unfold validateRecipientAddress in Hthrow.
    destruct (parsesAsURL _); [discriminate |].
    apply throwIf_Throw in Hthrow. subst. eauto.
  - apply throwIf_Throw in Hthrow. subst. eauto.
  - apply validateTtl_throws in Hthrow. destruct Hthrow as [m ->]. eauto.
  - apply throwIf_Throw in Hthrow. subst. eauto.
Qed.

Lemma validateFileFormatSignature_Ok formatSignature typeOctet versionOctet :
  validateFileFormatSignature formatSignature typeOctet versionOctet = Ok tt ->
  concreteMessageType formatSignature = typeOctet /\
  concreteMessageVersion formatSignature = versionOctet.
Proof.
  unfold validateFileFormatSignature. intros Hcheck. bind_inv Hcheck.
  apply throwIf_Ok, negb_false_iff, Z.eqb_eq, octet_inj in Hstep.
  apply throwIf_Ok, negb_false_iff, Z.eqb_eq, octet_inj in Hcheck.
  now split.
Qed.

Lemma validateRecipientAddress_Ok (address : string) :
  validateRecipientAddress address = Ok tt ->
  parsesAsURL address = true \/ matchesPrivateAddressRegex address = true.
Proof.
  unfold validateRecipientAddress. destruct (parsesAsURL address); [auto |].
  intros Hcheck. apply throwIf_Ok, negb_false_iff in Hcheck. auto.
Qed.

(** X2. A message that [deserialize] returns came from a serialization
    of 10 to 9_437_184 octets that starts with [Relaynet] and the
    expected type and version octets, and it is within the bounds of the
    format: address of at most 1024 characters that is a URL or a string
    of lower-case hexadecimal digits, id of at most 64 characters, TTL an
    integer from 0 to 15_552_000, payload of at most [2^23 - 1] octets. *)
Theorem deserialized_message_bounds serialization typeOctet versionOctet message :
  deserialize serialization typeOctet versionOctet = Ok message ->
  10 <= byteLength serialization <= MAX_RAMF_MESSAGE_LENGTH /\
  take 8 serialization = FORMAT_SIGNATURE_CONSTANT /\
  nth 8 serialization Byte.x00 = typeOctet /\
  nth 9 serialization Byte.x00 = versionOctet /\
  withinBounds message /\
  (parsesAsURL (recipientAddress message) = true \/
   matchesPrivateAddressRegex (recipientAddress message) = true).
Proof.
  unfold deserialize. intros Hok. bind_inv Hok. injection Hok as <-.
  repeat match goal with u : unit |- _ => destruct u end.
  apply validateMessageLength_Ok in Hstep.
  apply parseMessageFormatSignature_Ok in Hstep0.
  destruct Hstep0 as (Hmin & Hprefix & Htype & Hversion).
  apply validateFileFormatSignature_Ok in Hstep1. destruct Hstep1 as [Htype' Hversion'].
  apply validateRecipientAddressLength_Ok in Hstep4.
  apply validateRecipientAddress_Ok in Hstep5.
  apply validateMessageIdLength_Ok in Hstep6.
  apply validatePayloadLength_Ok in Hstep8.
  assert (Httl : exists z, fsTtl a3 = Num z /\ 0 <= z <= RAMF_MAX_TTL).
  { unfold parseMessageFields in Hstep3.
    destruct (verifySchema (plaintext a2)) as [block |]; [| discriminate Hstep3].
    bind_inv Hstep3. injection Hstep3 as <-. cbn [fsTtl] in *.
    unfold getIntegerFromPrimitiveBlock in *.
    destruct (accepted_ttl_exact _ Hstep7) as [Hexact Hrange]. eauto. }
  unfold withinBounds. cbn [recipientAddress id ttl payloadSerialized].
  repeat split; try assumption; try lia; congruence.
Qed.

(** X3. The fields of a message that [deserialize] returns are those of
    the signed field set: the strings are the decoded octets, the date
    is the converted date, the payload is the payload octets, the
    certificates are those of the signature, and the TTL is the value of
    the INTEGER itself, an integer from 0 to 15_552_000 that the
    conversion to a number did not round. *)
Theorem deserialized_message_fields serialization typeOctet versionOctet message :
  deserialize serialization typeOctet versionOctet = Ok message ->
  exists verification block,
    cmsVerifySignature (drop 10 serialization) = Ok verification /\
    verifySchema (plaintext verification) = Some block /\
    recipientAddress message = textDecode (blockRecipientAddress block) /\
    id message = textDecode (blockId block) /\
    asn1DateTimeToDate (blockDate block) = Ok (creationDate message) /\
    ttl message = Num (Asn1.toBigInt (blockTtl block)) /\
    0 <= Asn1.toBigInt (blockTtl block) <= RAMF_MAX_TTL /\
    payloadSerialized message = blockPayload block /\
    senderCertificate message = signerCertificate verification /\
    senderCaCertificateChain message = attachedCertificates verification.
Proof.
  unfold deserialize. intros Hok. bind_inv Hok. injection Hok as <-.
  repeat match goal with u : unit |- _ => destruct u end.
  apply tryCatch_Ok in Hstep2.
  unfold parseMessageFields in Hstep3.
  destruct (verifySchema (plaintext a2)) as [block |] eqn:Hschema; [| discriminate Hstep3].
  bind_inv Hstep3. injection Hstep3 as <-. apply tryCatch_Ok in Hstep9.
  cbn [fsTtl fsRecipientAddress fsId fsDate fsPayload] in *.
  unfold getIntegerFromPrimitiveBlock in *.
  destruct (accepted_ttl_exact _ Hstep7) as [Hexact Hrange].
  exists a2, block. cbn [recipientAddress id creationDate ttl payloadSerialized
                           senderCertificate senderCaCertificateChain].
  repeat split; try assumption; try reflexivity; lia.
Qed.

(** X4. The framing errors of [deserialize], for a serialization of at
    most 9_437_184 octets: fewer than 10 octets, or a start other than
    [Relaynet], or a type or version octet other than the expected one,
    each throw a [RAMFSyntaxError]; the last two name the expected octet
    and then the actual one in hexadecimal. *)
Theorem deserialize_framing serialization typeOctet versionOctet :
  byteLength serialization <= MAX_RAMF_MESSAGE_LENGTH ->
  (byteLength serialization < 10 ->
   deserialize serialization typeOctet versionOctet =
   Throw (RAMFSyntaxError "Serialization is too small to contain RAMF format signature")) /\
  (10 <= byteLength serialization ->
   take 8 serialization <> FORMAT_SIGNATURE_CONSTANT ->
   deserialize serialization typeOctet versionOctet =
   Throw (RAMFSyntaxError
            ("RAMF format signature does not begin with " +:+ dquote +:+ "Relaynet" +:+
             dquote))) /\
  (10 <= byteLength serialization ->
   take 8 serialization = FORMAT_SIGNATURE_CONSTANT ->
   nth 8 serialization Byte.x00 <> typeOctet ->
   deserialize serialization typeOctet versionOctet =
   Throw (RAMFSyntaxError
            ("Expected concrete message type " +:+ decimalToHex (octet typeOctet) +:+
             " but got " +:+ decimalToHex (octet (nth 8 serialization Byte.x00))))) /\
  (10 <= byteLength serialization ->
   take 8 serialization = FORMAT_SIGNATURE_CONSTANT ->
   nth 8 serialization Byte.x00 = typeOctet ->
   nth 9 serialization Byte.x00 <> versionOctet ->
   deserialize serialization typeOctet versionOctet =
   Throw (RAMFSyntaxError
            ("Expected concrete message version " +:+ decimalToHex (octet versionOctet) +:+
             " but got " +:+ decimalToHex (octet (nth 9 serialization Byte.x00))))).
Proof.
  intros Hmax. apply validateMessageLength_Ok in Hmax.
  assert (Hparse :
    10 <= byteLength serialization ->
    take 8 serialization = FORMAT_SIGNATURE_CONSTANT ->
    parseMessageFormatSignature (take 10 serialization) =
    Ok {| concreteMessageType := nth 8 serialization Byte.x00;
          concreteMessageVersion := nth 9 serialization Byte.x00 |}).
  { intros Hlen Hprefix. unfold parseMessageFormatSignature.
    assert (Hlen' : (10 <= length serialization)%nat) by (unfold byteLength in Hlen; lia).
    assert (Hten : byteLength (take 10 serialization) = 10)
      by (unfold byteLength; rewrite length_take; lia).
    rewrite Hten. simpl throwIf. cbn [mbind result_bind].
    rewrite !take_take.
    replace (8 `min` (10 `min` 10))%nat with 8%nat by reflexivity.
    replace (10 `min` 10)%nat with 10%nat by reflexivity.
    rewrite Hprefix, bool_decide_eq_true_2 by reflexivity. simpl.
    rewrite !nth_firstn. reflexivity. }
  split; [| split; [| split]].
  - intros Hshort. unfold deserialize. rewrite Hmax. simpl.
    unfold parseMessageFormatSignature.
    assert (Hlen : byteLength (take 10 serialization) < 10).
    { unfold byteLength in *. rewrite length_take. lia. }
    apply Z.ltb_lt in Hlen. now rewrite Hlen.
  - intros Hlen Hprefix. unfold deserialize. rewrite Hmax. simpl.
    unfold parseMessageFormatSignature.
    assert (Hlen' : (10 <= length serialization)%nat) by (unfold byteLength in Hlen; lia).
    assert (Hten : byteLength (take 10 serialization) = 10)
      by (unfold byteLength; rewrite length_take; lia).
    rewrite Hten. simpl throwIf. cbn [mbind result_bind].
    rewrite !take_take.
    replace (8 `min` (10 `min` 10))%nat with 8%nat by reflexivity.
    rewrite bool_decide_eq_false_2 by congruence. reflexivity.
  - intros Hlen Hprefix Htype. unfold deserialize. rewrite Hmax. simpl.
    rewrite (Hparse Hlen Hprefix). simpl. unfold validateFileFormatSignature. simpl.
    destruct (Z.eqb_spec (octet (nth 8 serialization Byte.x00)) (octet typeOctet)) as [Heq | _];
      [apply octet_inj in Heq; contradiction | reflexivity].
  - intros Hlen Hprefix Htype Hversion. unfold deserialize. rewrite Hmax. simpl.
    rewrite (Hparse Hlen Hprefix). simpl. unfold validateFileFormatSignature. simpl.
    rewrite Htype, Z.eqb_refl. simpl.
    destruct (Z.eqb_spec (octet (nth 9 serialization Byte.x00)) (octet versionOctet))
      as [Heq | _]; [apply octet_inj in Heq; contradiction | reflexivity].
Qed.

Lemma serialize_Ok_inv message typeOctet versionOctet key options serialization :
  serialize message typeOctet versionOctet key options = Ok serialization ->
  fieldsAccepted message /\
  exists signature,
    cmsSign (fieldSetSerialized message) key (senderCertificate message)
      (senderCaCertificateChain message) options = Ok signature /\
    serialization = (FORMAT_SIGNATURE_CONSTANT ++ [typeOctet; versionOctet] ++ signature)%list.
Proof.
  unfold serialize. intros Hok. bind_inv Hok. injection Hok as <-.
  repeat match goal with u : unit |- _ => destruct u end.
  apply validateRecipientAddressLength_Ok in Hstep.
  apply validateMessageIdLength_Ok in Hstep0.
  apply validateTtl_Ok in Hstep1.
  apply validatePayloadLength_Ok in Hstep2.
  split; [split; [| split; [| split]]; assumption |].
  eexists. split; [exact Hstep3 |].
  reflexivity.
Qed.

Lemma serialize_within_bounds message typeOctet versionOctet key options :
  fieldsAccepted message ->
  serialize message typeOctet versionOctet key options =
  (signature ← cmsSign (fieldSetSerialized message) key (senderCertificate message)
                 (senderCaCertificateChain message) options;
   Ok (FORMAT_SIGNATURE_CONSTANT ++ [typeOctet; versionOctet] ++ signature)%list).
Proof.
  intros (Haddress & Hid & Httl & Hpayload).
  rewrite serialize_valid.
  - unfold fieldSetSerialized, generateFormatSignature.
    destruct (cmsSign _ _ _ _ _); reflexivity.
  - now apply validateRecipientAddressLength_Ok.
  - now apply validateMessageIdLength_Ok.
  - now apply validateTtl_Ok.
  - now apply validatePayloadLength_Ok.
Qed.

(** X5. [serialize] returns a serialization exactly when the four
    checks pass and the signer returns a SignedData, and the
    serialization is then [Relaynet], the type octet, the version octet
    and that SignedData. The checks pass when the address has at most
    1024 characters, the id at most 64, the payload at most [2^23 - 1]
    octets, and the TTL is neither below 0 nor above 15_552_000 as
    JavaScript compares numbers: that is a finite number from 0 to
    15_552_000, an integer or not, or NaN, with which every comparison
    is false. When a check fails the exception is a [RAMFSyntaxError];
    when all pass, an exception of the signer is the exception of
    [serialize]. *)
Theorem serialize_succeeds_iff message typeOctet versionOctet key options :
  (forall serialization,
     serialize message typeOctet versionOctet key options = Ok serialization <->
     fieldsAccepted message /\
     exists signature,
       cmsSign (fieldSetSerialized message) key (senderCertificate message)
         (senderCaCertificateChain message) options = Ok signature /\
       serialization =
       (FORMAT_SIGNATURE_CONSTANT ++ [typeOctet; versionOctet] ++ signature)%list) /\
  (~ fieldsAccepted message ->
   exists m, serialize message typeOctet versionOctet key options =
             Throw (RAMFSyntaxError m)) /\
  (fieldsAccepted message ->
   forall e,
     cmsSign (fieldSetSerialized message) key (senderCertificate message)
       (senderCaCertificateChain message) options = Throw e ->
     serialize message typeOctet versionOctet key options = Throw e) /\
  (ttlAccepted (ttl message) <->
   match ttl message with
   | Num z => 0 <= z <= RAMF_MAX_TTL
   | Fraction k e => 0 < 2 * k + 1 < RAMF_MAX_TTL * 2 ^ Z.pos e
   | NaN => True
   | Infinity | NegInfinity => False
   end).
Proof.
  split; [| split; [| split]].
  - intros serialization. split; [apply serialize_Ok_inv |].
    intros (Hbounds & signature & Hsign & ->).
    rewrite serialize_within_bounds by assumption. now rewrite Hsign.
  - intros Hout. unfold serialize.
    destruct (validateRecipientAddressLength _) as [[] | e] eqn:Haddress; simpl.
    2: { apply throwIf_Throw in Haddress. subst. eauto. }
    destruct (validateMessageIdLength _) as [[] | e] eqn:Hid; simpl.
    2: { apply throwIf_Throw in Hid. subst. eauto. }
    destruct (validateTtl _) as [[] | e] eqn:Httl; simpl.
    2: { apply validateTtl_throws in Httl. destruct Httl as [m ->]. eauto. }
    destruct (validatePayloadLength _) as [[] | e] eqn:Hpayload; simpl.
    2: { apply throwIf_Throw in Hpayload. subst. eauto. }
    exfalso. apply Hout.
    apply validateRecipientAddressLength_Ok in Haddress.
    apply validateMessageIdLength_Ok in Hid.
    apply validateTtl_Ok in Httl.
    apply validatePayloadLength_Ok in Hpayload.
    split; [| split; [| split]]; assumption.
  - intros Hbounds e Hsign.
    rewrite serialize_within_bounds by assumption. now rewrite Hsign.
  - apply ttlAccepted_cases.
Qed.

(** X6. Round trip. Take a message that [serialize] accepts, with a
    recipient address that is a URL or lower-case hexadecimal and a
    serialization of at most 9_437_184 octets. If the signature verifies
    to the signed field set, the sender certificate and the chain, and
    the field set decodes to the fields of the message, then
    [deserialize] returns the message, with the date as decoded. *)
Theorem serialize_deserialize_round_trip message typeOctet versionOctet key options
    serialization block date :
  serialize message typeOctet versionOctet key options = Ok serialization ->
  byteLength serialization <= MAX_RAMF_MESSAGE_LENGTH ->
  parsesAsURL (recipientAddress message) = true \/
  matchesPrivateAddressRegex (recipientAddress message) = true ->
  cmsVerifySignature (drop 10 serialization) =
  Ok {| plaintext := fieldSetSerialized message;
        signerCertificate := senderCertificate message;
        attachedCertificates := senderCaCertificateChain message |} ->
  verifySchema (fieldSetSerialized message) = Some block ->
  textDecode (blockRecipientAddress block) = recipientAddress message ->
  textDecode (blockId block) = id message ->
  asn1DateTimeToDate (blockDate block) = Ok date ->
  Number_of_bigint (Asn1.toBigInt (blockTtl block)) = ttl message ->
  blockPayload block = payloadSerialized message ->
  deserialize serialization typeOctet versionOctet =
  Ok {| recipientAddress := recipientAddress message;
        id := id message;
        creationDate := date;
        ttl := ttl message;
        payloadSerialized := payloadSerialized message;
        senderCertificate := senderCertificate message;
        senderCaCertificateChain := senderCaCertificateChain message |}.
Proof.
  intros Hserialize Hmax Hsyntax Hverify Hschema Haddress Hid Hdate Httl Hpayload.
  destruct (serialize_Ok_inv _ _ _ _ _ _ Hserialize)
    as ((Hlen & Hidlen & Hrange & Hpaylen) & signature & _ & ->).
  assert (Hfields :
    parseMessageFields (fieldSetSerialized message) =
    Ok {| fsRecipientAddress := recipientAddress message;
          fsId := id message;
          fsDate := date;
          fsTtl := ttl message;
          fsPayload := payloadSerialized message |}).
  { rewrite (parseMessageFields_ttl _ _ _ Hschema Hdate).
    unfold getIntegerFromPrimitiveBlock. now rewrite Haddress, Hid, Httl, Hpayload. }
  assert (Hmessage : validateMessageLength
            (FORMAT_SIGNATURE_CONSTANT ++ [typeOctet; versionOctet] ++ signature)%list = Ok tt)
    by now apply validateMessageLength_Ok.
  assert (Hfile : validateFileFormatSignature
            {| concreteMessageType := typeOctet; concreteMessageVersion := versionOctet |}
            typeOctet versionOctet = Ok tt).
  { unfold validateFileFormatSignature. cbn [concreteMessageType concreteMessageVersion].
    now rewrite !Z.eqb_refl. }
  assert (Hsignature : verifySignature
            (drop 10 (FORMAT_SIGNATURE_CONSTANT ++ [typeOctet; versionOctet] ++ signature)%list) =
            Ok {| plaintext := fieldSetSerialized message;
                  signerCertificate := senderCertificate message;
                  attachedCertificates := senderCaCertificateChain message |}).
  { unfold verifySignature. now rewrite Hverify. }
  rewrite (deserialize_fields _ _ _ _ _ _ Hmessage eq_refl Hfile Hsignature Hfields).
  cbn [fsRecipientAddress fsId fsTtl fsPayload fsDate signerCertificate attachedCertificates].
  rewrite (proj2 (validateRecipientAddressLength_Ok _) Hlen). simpl.
  assert (Hvalid : validateRecipientAddress (recipientAddress message) = Ok tt).
  { unfold validateRecipientAddress.
    destruct (parsesAsURL (recipientAddress message)); [reflexivity |].
    destruct Hsyntax as [Hurl | Hhex]; [discriminate Hurl | now rewrite Hhex]. }
  rewrite Hvalid. simpl.
  rewrite (proj2 (validateMessageIdLength_Ok _) Hidlen). simpl.
  rewrite (proj2 (validateTtl_Ok _) Hrange). simpl.
  rewrite (proj2 (validatePayloadLength_Ok _) Hpaylen). simpl.
  reflexivity.
Qed.

End WithHost.

End RAMFMore.

Module RAMFMoreExamples.
Import RAMF RAMFProps RAMFMore Statements Mock.

Lemma deserialized_message_bounds_witness :
  withinBounds (mockMessage "0deadbeef" (Num 15552000)) /\
  byteLength (mockWire "0deadbeef" (bigEndian 8 15552000)) = 47.
Proof.
  assert (Hrun : deserialize (mockWire "0deadbeef" (bigEndian 8 15552000)) Byte.x50 Byte.x00 =
                 Ok (mockMessage "0deadbeef" (Num 15552000)))
    by (vm_compute; reflexivity).
  destruct (deserialized_message_bounds _ _ _ _ Hrun) as (_ & _ & _ & _ & Hbounds & _).
  split; [exact Hbounds | vm_compute; reflexivity].
Defined.

Lemma deserialized_message_fields_witness :
  exists block,
    verifySchema (drop 10 (mockWire "0deadbeef" (bigEndian 8 1000))) = Some block /\
    Asn1.toBigInt (blockTtl block) = 1000.
Proof.
  assert (Hrun : deserialize (mockWire "0deadbeef" (bigEndian 8 1000)) Byte.x50 Byte.x00 =
                 Ok (mockMessage "0deadbeef" (Num 1000)))
    by (vm_compute; reflexivity).
  destruct (deserialized_message_fields _ _ _ _ Hrun)
    as (verification & block & Hverify & Hschema & _ & _ & _ & Httl & _).
  vm_compute in Hverify. injection Hverify as <-.
  exists block. split; [exact Hschema |].
  cbn [ttl mockMessage] in Httl. now injection Httl as <-.
Defined.

Lemma deserialize_framing_witness :
  deserialize [Byte.x52; Byte.x65] Byte.x50 Byte.x00 =
  Throw (RAMFSyntaxError "Serialization is too small to contain RAMF format signature") /\
  deserialize (mockWire "0deadbeef" (bigEndian 8 1000)) Byte.x51 Byte.x00 =
  Throw (RAMFSyntaxError "Expected concrete message type 0x51 but got 0x50") /\
  deserialize (mockWire "0deadbeef" (bigEndian 8 1000)) Byte.x50 Byte.x01 =
  Throw (RAMFSyntaxError "Expected concrete message version 0x1 but got 0x0").
Proof.
  split; [| split].
  - apply (deserialize_framing [Byte.x52; Byte.x65] Byte.x50 Byte.x00);
      vm_compute; congruence.
  - destruct (deserialize_framing (mockWire "0deadbeef" (bigEndian 8 1000))
                Byte.x51 Byte.x00) as (_ & _ & Htype & _); [vm_compute; congruence |].
    rewrite Htype; [vm_compute; reflexivity | vm_compute; congruence | reflexivity |
                    vm_compute; congruence].
  - destruct (deserialize_framing (mockWire "0deadbeef" (bigEndian 8 1000))
                Byte.x50 Byte.x01) as (_ & _ & _ & Hversion); [vm_compute; congruence |].
    rewrite Hversion; [vm_compute; reflexivity | vm_compute; congruence | reflexivity |
                       reflexivity | vm_compute; congruence].
Defined.

Lemma serialize_succeeds_iff_witness :
  (exists m, serialize (mockMessage "0deadbeef" (Num (-1))) Byte.x50 Byte.x00 mockKey None =
             Throw (RAMFSyntaxError m)) /\
  serialize (mockMessage "0deadbeef" (Num 1000)) Byte.x50 Byte.x00 mockKey None =
  Ok (mockWire "0deadbeef" (bigEndian 8 1000)) /\
  (exists serialization,
     serialize (mockMessage "0deadbeef" NaN) Byte.x50 Byte.x00 mockKey None =
     Ok serialization) /\
  (exists serialization,
     serialize (mockMessage "0deadbeef" (Fraction 0 1)) Byte.x50 Byte.x00 mockKey None =
     Ok serialization) /\
  toString (Fraction 0 1) = "0.5".
Proof.
  split; [| split; [| split; [| split]]].
  - apply (serialize_succeeds_iff (mockMessage "0deadbeef" (Num (-1)))).
    intros (_ & _ & (Hlow & _) & _). discriminate Hlow.
  - apply (serialize_succeeds_iff (mockMessage "0deadbeef" (Num 1000))).
    split.
    + split; [vm_compute; congruence |]. split; [vm_compute; congruence |].
      split; [split; reflexivity | vm_compute; congruence].
    + eexists. split; vm_compute; reflexivity.
  - eexists. apply (serialize_succeeds_iff (mockMessage "0deadbeef" NaN)).
    split.
    + split; [vm_compute; congruence |]. split; [vm_compute; congruence |].
      split; [split; reflexivity | vm_compute; congruence].
    + eexists. split; vm_compute; reflexivity.
  - eexists. apply (serialize_succeeds_iff (mockMessage "0deadbeef" (Fraction 0 1))).
    split.
    + split; [vm_compute; congruence |]. split; [vm_compute; congruence |].
      split; [split; reflexivity | vm_compute; congruence].
    + eexists. split; vm_compute; reflexivity.
  - vm_compute. reflexivity.
Defined.

Lemma serialize_deserialize_round_trip_witness :
  deserialize (mockWire "0deadbeef" (bigEndian 8 1000)) Byte.x50 Byte.x00 =
  Ok (mockMessage "0deadbeef" (Num 1000)).
Proof.
  refine (serialize_deserialize_round_trip
            (mockMessage "0deadbeef" (Num 1000)) Byte.x50 Byte.x00 mockKey None
            (mockWire "0deadbeef" (bigEndian 8 1000))
            {| blockRecipientAddress := Buffer_from "0deadbeef";
               blockId := Buffer_from "msg-1";
               blockDate := bigEndian 8 1750000000;
               blockTtl := bigEndian 8 1000;
               blockPayload := [Byte.xab; Byte.xab] |}
            1750000000000 _ _ _ _ _ _ _ _ _ _);
    try (vm_compute; reflexivity).
  - vm_compute. congruence.
  - right. vm_compute. reflexivity.
Defined.

Lemma deserialize_error_classes_witness :
  isRAMFError (RAMFSyntaxError "Serialization is too small to contain RAMF format signature").
Proof.
  apply (deserialize_error_classes [Byte.x52; Byte.x65] Byte.x50 Byte.x00).
  vm_compute. reflexivity.
Defined.

End RAMFMoreExamples.

(** ** Key generation and key stores *)

Lemma hexDigit_inj (n m : N) :
  (n < 16)%N -> (m < 16)%N -> hexDigit n = hexDigit m -> n = m.
Proof.
  intros Hn Hm.
  destruct n as [| p]; [| do 4 (try destruct p as [p | p |])]; try lia;
    (destruct m as [| q]; [| do 4 (try destruct q as [q | q |])]; try lia;
     intros Hdigit; first [reflexivity | discriminate Hdigit]).
Qed.

Lemma Buffer_toHex_inj (a b : list byte) : Buffer_toHex a = Buffer_toHex b -> a = b.
Proof.
  revert b. induction a as [| x a IH]; intros [| y b] Heq; simpl in Heq;
    try discriminate Heq; [reflexivity |].
  injection Heq as Hhi Hlo Hrest.
  pose proof (Byte.to_N_bounded x) as Hx. pose proof (Byte.to_N_bounded y) as Hy.
  apply hexDigit_inj in Hhi;
    [| apply N.Div0.div_lt_upper_bound; lia | apply N.Div0.div_lt_upper_bound; lia].
  apply hexDigit_inj in Hlo; [| apply N.mod_lt; lia | apply N.mod_lt; lia].
  f_equal; [| now apply IH].
  assert (Hto : Byte.to_N x = Byte.to_N y).
  { rewrite (N.div_mod (Byte.to_N x) 16), (N.div_mod (Byte.to_N y) 16) by lia.
    now rewrite Hhi, Hlo. }
  pose proof (Byte.of_to_N x) as Hofx. rewrite Hto, Byte.of_to_N in Hofx.
  now injection Hofx.
Qed.

Module SessionKeyMore.
Import PrivateKeyStore SessionKeyMock.

Section WithCodec.
Context (serializeKey : CryptoKey -> result (list byte))
        (deserializeKey : list byte -> string -> result CryptoKey).

Local Abbreviation backend := (mockBackendWith serializeKey deserializeKey).

Lemma save_Ok store store' key keyId owner peer :
  @saveSessionKey _ backend store key keyId owner peer = Ok store' ->
  exists der,
    serializeKey key = Ok der /\
    failOnSave store = false /\
    store' = {| sessionKeys :=
                  <[Buffer_toHex keyId := {| keySerialized := der;
                                             privateAddress := owner;
                                             peerPrivateAddress := peer |}]>
                    (sessionKeys store);
                failOnSave := failOnSave store;
                failOnFetch := failOnFetch store |}.
Proof.
  unfold saveSessionKey. cbn [derSerializePrivateKey saveSessionKeySerialized mockBackendWith].
  destruct (serializeKey key) as [der | e]; simpl; [| discriminate].
  destruct (failOnSave store); simpl; [discriminate |].
  intros [= <-]. eauto.
Qed.

Lemma retrieveData_saved store store' key keyId owner peer der other :
  @saveSessionKey _ backend store key keyId owner peer = Ok store' ->
  failOnFetch store = false ->
  serializeKey key = Ok der ->
  @retrieveSessionKeyDataOrThrowError _ backend store' keyId other =
  if negb (String.eqb owner other)
  then Throw (UnknownKeyError "Key is owned by a different node")
  else Ok {| keySerialized := der; privateAddress := owner; peerPrivateAddress := peer |}.
Proof.
  intros Hsave Hfetch Hser.
  destruct (save_Ok _ _ _ _ _ _ Hsave) as (der' & Hser' & _ & ->).
  rewrite Hser in Hser'. injection Hser' as <-.
  unfold retrieveSessionKeyDataOrThrowError.
  cbn [retrieveSessionKeyData mockBackendWith failOnFetch sessionKeys].
  rewrite Hfetch, lookup_insert_eq. reflexivity.
Qed.

(** X7. Round trip of a session key through [MockPrivateKeyStore]. After
    [saveSessionKey] returns on a store that can be read, the key id
    gives back the saved serialization under the owner's address: to any
    peer when the key was saved without a peer (or with the empty
    address), and only to that peer when it was saved with one; the
    unbound retrieval refuses a bound key; any other owner is told that
    the key is owned by a different node. *)
Theorem saved_session_key_retrieval store store' key keyId owner peer :
  @saveSessionKey _ backend store key keyId owner peer = Ok store' ->
  failOnFetch store = false ->
  exists der,
    serializeKey key = Ok der /\
    (forall given,
       truthyString peer = false \/ peer = Some given ->
       @retrieveSessionKey _ backend store' keyId owner given = deserializeKey der "P-256") /\
    (forall given,
       truthyString peer = true -> peer <> Some given ->
       @retrieveSessionKey _ backend store' keyId owner given =
       Throw (UnknownKeyError
                (boundToAnotherMessage (Buffer_toHex keyId) (templateString peer) given))) /\
    @retrieveUnboundSessionKey _ backend store' keyId owner =
    (if truthyString peer
     then Throw (UnknownKeyError ("Key " +:+ Buffer_toHex keyId +:+ " is bound"))
     else deserializeKey der "P-256") /\
    (forall other given,
       other <> owner ->
       @retrieveSessionKey _ backend store' keyId other given =
       Throw (UnknownKeyError "Key is owned by a different node") /\
       @retrieveUnboundSessionKey _ backend store' keyId other =
       Throw (UnknownKeyError "Key is owned by a different node")).
Proof.
  intros Hsave Hfetch.
  destruct (save_Ok _ _ _ _ _ _ Hsave) as (der & Hser & _ & _).
  exists der. split; [exact Hser |].
  pose proof (fun other => retrieveData_saved _ _ _ _ _ _ _ other Hsave Hfetch Hser) as Hdata.
  split; [| split; [| split]].
  - intros given Hpeer. unfold retrieveSessionKey. rewrite Hdata, String.eqb_refl.
    cbn [negb mbind result_bind peerPrivateAddress keySerialized
         derDeserializeECDHPrivateKey mockBackendWith].
    destruct Hpeer as [-> | ->]; [reflexivity |].
    rewrite bool_decide_eq_true_2 by reflexivity.
    now rewrite andb_false_r.
  - intros given Hbound Hother. unfold retrieveSessionKey. rewrite Hdata, String.eqb_refl.
    cbn [negb mbind result_bind peerPrivateAddress keySerialized].
    rewrite Hbound, bool_decide_eq_false_2 by congruence. reflexivity.
  - unfold retrieveUnboundSessionKey. rewrite Hdata, String.eqb_refl. reflexivity.
  - intros other given Hother.
    unfold retrieveSessionKey, retrieveUnboundSessionKey. rewrite Hdata.
    rewrite eqb_string_false by congruence. split; reflexivity.
Qed.

(** X8. Saving a session key changes what no other key id retrieves. *)
Theorem saved_session_key_isolation store store' key keyId owner peer keyId' :
  @saveSessionKey _ backend store key keyId owner peer = Ok store' ->
  keyId' <> keyId ->
  forall other given,
    @retrieveSessionKey _ backend store' keyId' other given =
    @retrieveSessionKey _ backend store keyId' other given /\
    @retrieveUnboundSessionKey _ backend store' keyId' other =
    @retrieveUnboundSessionKey _ backend store keyId' other.
Proof.
  intros Hsave Hid other given.
  destruct (save_Ok _ _ _ _ _ _ Hsave) as (der & _ & _ & ->).
  assert (Hdata : @retrieveSessionKeyDataOrThrowError _ backend
            {| sessionKeys :=
                 <[Buffer_toHex keyId := {| keySerialized := der;
                                            privateAddress := owner;
                                            peerPrivateAddress := peer |}]>
                   (sessionKeys store);
               failOnSave := failOnSave store;
               failOnFetch := failOnFetch store |} keyId' other =
          @retrieveSessionKeyDataOrThrowError _ backend store keyId' other).
  { unfold retrieveSessionKeyDataOrThrowError.
    cbn [retrieveSessionKeyData mockBackendWith failOnFetch sessionKeys].
    rewrite lookup_insert_ne; [reflexivity |].
    intros Heq. apply Hid. symmetry. now apply Buffer_toHex_inj. }
  unfold retrieveSessionKey, retrieveUnboundSessionKey. rewrite Hdata.
  split; reflexivity.
Qed.

End WithCodec.

Lemma saved_session_key_retrieval_witness :
  @retrieveSessionKey _ (mockBackendWith MockMore.mockSerializeKey MockMore.mockDeserializeKey)
    {| sessionKeys :=
         {[ "ab" := {| keySerialized := [Byte.x07];
                       privateAddress := "0a";
                       peerPrivateAddress := Some "0b" |} ]};
       failOnSave := false;
       failOnFetch := false |}
    [Byte.xab] "0a" "0b" =
  Ok {| keyParams := "P-256"; keyMaterial := [Byte.x07] |}.
Proof.
  destruct (saved_session_key_retrieval
              MockMore.mockSerializeKey MockMore.mockDeserializeKey
              emptyMockStore
              {| sessionKeys :=
                   {[ "ab" := {| keySerialized := [Byte.x07];
                                 privateAddress := "0a";
                                 peerPrivateAddress := Some "0b" |} ]};
                 failOnSave := false;
                 failOnFetch := false |}
              {| keyParams := "P-256"; keyMaterial := [Byte.x07] |}
              [Byte.xab] "0a" (Some "0b") eq_refl eq_refl)
    as (der & Hder & Hsame & _).
  injection Hder as <-.
  apply Hsame. now right.
Defined.

Lemma saved_session_key_isolation_witness :
  @retrieveSessionKey _ (mockBackendWith MockMore.mockSerializeKey MockMore.mockDeserializeKey)
    {| sessionKeys :=
         <[ "cd" := {| keySerialized := [Byte.x08];
                       privateAddress := "0a";
                       peerPrivateAddress := None |} ]>
         (sessionKeys boundToPeer);
       failOnSave := false;
       failOnFetch := false |}
    [Byte.xab] "0a" "0b" =
  Ok {| keyParams := "P-256"; keyMaterial := [Byte.x07] |}.
Proof.
  destruct (saved_session_key_isolation
              MockMore.mockSerializeKey MockMore.mockDeserializeKey
              boundToPeer
              {| sessionKeys :=
                   <[ "cd" := {| keySerialized := [Byte.x08];
                                 privateAddress := "0a";
                                 peerPrivateAddress := None |} ]>
                   (sessionKeys boundToPeer);
                 failOnSave := false;
                 failOnFetch := false |}
              {| keyParams := "P-256"; keyMaterial := [Byte.x08] |}
              [Byte.xcd] "0a" None [Byte.xab] eq_refl ltac:(discriminate) "0a" "0b")
    as (Hsame & _).
  rewrite Hsame. vm_compute. reflexivity.
Defined.

End SessionKeyMore.

Module IdentityKeyMore.
Import KeyGenerators IdentityKeys.

Lemma generateRSAKeyPair_Ok `{!Engine} (options : RSAKeyGenOptions) keyPair :
  generateRSAKeyPair options = Ok keyPair <->
  ltb (default (Num 2048) (KeyGenerators.modulus options)) (Num 2048) = false /\
  default "SHA-256" (KeyGenerators.hashingAlgorithm options) <> "SHA-1" /\
  generateRSAPSSKey (default (Num 2048) (KeyGenerators.modulus options))
    (default "SHA-256" (KeyGenerators.hashingAlgorithm options)) = Ok keyPair.
Proof.
  unfold generateRSAKeyPair.
  destruct (ltb (default (Num 2048) (KeyGenerators.modulus options)) (Num 2048)); simpl.
  - split; [discriminate | intros [Hlow _]; discriminate Hlow].
  - destruct (String.eqb_spec (default "SHA-256" (KeyGenerators.hashingAlgorithm options))
                "SHA-1"); simpl.
    + split; [discriminate | tauto].
    + tauto.
Qed.

(** X9. [generateRSAKeyPair] and RS-018. The modulus and the hash name
    are those of the options, 2048 and SHA-256 by default. When the
    modulus is below 2048 the function throws an error that names it.
    Otherwise, when the hash name is the string [SHA-1], it throws
    [SHA-1 is disallowed by RS-018]. Otherwise it is the call of the
    crypto engine for that modulus and that name, whatever the engine
    does; so a key pair is returned exactly when the modulus is not
    below 2048 (which is so of NaN also), the name is not that very
    string, and the engine generates the pair. The name is compared as
    written: [sha-1] is handed to the engine. *)
Theorem generateRSAKeyPair_RS018 `{!Engine} (options : RSAKeyGenOptions) :
  let modulus := default (Num 2048) (KeyGenerators.modulus options) in
  let hashingAlgorithm := default "SHA-256" (KeyGenerators.hashingAlgorithm options) in
  (forall keyPair,
     generateRSAKeyPair options = Ok keyPair <->
     ltb modulus (Num 2048) = false /\ hashingAlgorithm <> "SHA-1" /\
     generateRSAPSSKey modulus hashingAlgorithm = Ok keyPair) /\
  (ltb modulus (Num 2048) = true ->
   generateRSAKeyPair options =
   Throw (Error ("RSA modulus must be => 2048 per RS-018 (got " +:+ toString modulus +:+ ")"))) /\
  (ltb modulus (Num 2048) = false -> hashingAlgorithm = "SHA-1" ->
   generateRSAKeyPair options = Throw (Error "SHA-1 is disallowed by RS-018")) /\
  (ltb modulus (Num 2048) = false -> hashingAlgorithm <> "SHA-1" ->
   generateRSAKeyPair options = generateRSAPSSKey modulus hashingAlgorithm) /\
  (ltb modulus (Num 2048) = false -> hashingAlgorithm = "sha-1" ->
   generateRSAKeyPair options = generateRSAPSSKey modulus "sha-1") /\
  (forall z, modulus = Num z -> ltb modulus (Num 2048) = false <-> 2048 <= z) /\
  (modulus = NaN -> ltb modulus (Num 2048) = false).
Proof.
  intros modulus hashingAlgorithm. unfold generateRSAKeyPair.
  fold modulus hashingAlgorithm.
  assert (Hother :
    ltb modulus (Num 2048) = false -> hashingAlgorithm <> "SHA-1" ->
    (_ ← throwIf (ltb modulus (Num 2048))
           (Error ("RSA modulus must be => 2048 per RS-018 (got " +:+ toString modulus +:+
                   ")"));
     _ ← throwIf (String.eqb hashingAlgorithm "SHA-1") (Error "SHA-1 is disallowed by RS-018");
     generateRSAPSSKey modulus hashingAlgorithm) =
    generateRSAPSSKey modulus hashingAlgorithm).
  { intros -> Hname. simpl.
    destruct (String.eqb_spec hashingAlgorithm "SHA-1"); [contradiction | reflexivity]. }
  split; [| split; [| split; [| split; [| split; [| split]]]]].
  - intros keyPair.
    destruct (ltb modulus (Num 2048)) eqn:Hlow; simpl.
    + split; [discriminate | intros [Hfalse _]; discriminate Hfalse].
    + destruct (String.eqb_spec hashingAlgorithm "SHA-1"); simpl;
        [split; [discriminate | tauto] | tauto].
  - intros ->. reflexivity.
  - intros -> ->. reflexivity.
  - exact Hother.
  - intros Hlow Hname. rewrite Hother by (assumption || (rewrite Hname; discriminate)).
    now rewrite Hname.
  - intros z ->. simpl. apply Z.ltb_ge.
  - intros ->. reflexivity.
Qed.

Lemma generateRSAKeyPair_RS018_witness :
  @generateRSAKeyPair MockMore.mockEngine
    {| modulus := Some (Num 1024); hashingAlgorithm := None |} =
  Throw (Error "RSA modulus must be => 2048 per RS-018 (got 1024)") /\
  @generateRSAKeyPair MockMore.mockEngine
    {| modulus := None; hashingAlgorithm := Some "SHA-1" |} =
  Throw (Error "SHA-1 is disallowed by RS-018") /\
  @generateRSAKeyPair MockMore.mockEngine
    {| modulus := None; hashingAlgorithm := Some "sha-1" |} =
  Ok {| privateKey := {| keyParams := "sha-1"; keyMaterial := [Byte.x08; Byte.x00; Byte.x01] |};
        publicKey := {| keyParams := "sha-1"; keyMaterial := [Byte.x08; Byte.x00; Byte.x02] |} |} /\
  @generateRSAKeyPair MockMore.mockEngine
    {| modulus := Some NaN; hashingAlgorithm := None |} =
  Throw (Error "Value is outside the range of an unsigned long").
Proof.
  split; [| split; [| split]].
  - rewrite (proj1 (proj2 (@generateRSAKeyPair_RS018 MockMore.mockEngine
                             {| modulus := Some (Num 1024); hashingAlgorithm := None |})));
      [vm_compute; reflexivity | reflexivity].
  - apply (@generateRSAKeyPair_RS018 MockMore.mockEngine
             {| modulus := None; hashingAlgorithm := Some "SHA-1" |}); reflexivity.
  - rewrite (proj1 (proj2 (proj2 (proj2 (proj2
               (@generateRSAKeyPair_RS018 MockMore.mockEngine
                  {| modulus := None; hashingAlgorithm := Some "sha-1" |}))))));
      reflexivity.
  - rewrite (proj1 (proj2 (proj2 (proj2
               (@generateRSAKeyPair_RS018 MockMore.mockEngine
                  {| modulus := Some NaN; hashingAlgorithm := None |})))));
      [reflexivity | reflexivity | discriminate].
Defined.

Section WithBackend.
Context {S : Type} `{!Backend S}.

(** X10. What [generateIdentityKeyPair] throws: the error of the key
    generator or of the address function as it came, or, when the store
    fails to save the private key, a [KeyStoreError] that names the
    private address and carries the message of the cause. *)
Theorem generateIdentityKeyPair_errors (store : S) keyOptions e :
  generateIdentityKeyPair store keyOptions = Throw e ->
  storeGenerateRSAKeyPair keyOptions = Throw e \/
  exists keyPair,
    storeGenerateRSAKeyPair keyOptions = Ok keyPair /\
    (getPrivateAddressFromIdentityKey (publicKey keyPair) = Throw e \/
     exists privateAddress cause,
       getPrivateAddressFromIdentityKey (publicKey keyPair) = Ok privateAddress /\
       saveIdentityKey store privateAddress (privateKey keyPair) = Throw cause /\
       e = KeyStoreError ("Failed to save key for " +:+ privateAddress +:+ ": " +:+
                          message cause)).
Proof.
  unfold generateIdentityKeyPair. intros Hthrow.
  destruct (storeGenerateRSAKeyPair keyOptions) as [keyPair | e1]; simpl in Hthrow;
    [| left; now injection Hthrow as ->].
  right. exists keyPair. split; [reflexivity |].
  destruct (getPrivateAddressFromIdentityKey (publicKey keyPair)) as [privateAddress | e2];
    simpl in Hthrow; [| left; now injection Hthrow as ->].
  right. exists privateAddress.
  destruct (saveIdentityKey store privateAddress (privateKey keyPair)) as [store' | cause];
    simpl in Hthrow; [discriminate Hthrow |].
  exists cause. injection Hthrow as <-.
  split; [reflexivity |]. split; [reflexivity |].
  unfold wrapCause. now rewrite append_assoc.
Qed.

End WithBackend.

Section WithMock.
Context `{!Engine} (addressOf : CryptoKey -> result string).

Local Abbreviation backend := (mockBackend addressOf).

(** X11. [generateIdentityKeyPair] on [MockPrivateKeyStore]. When it
    returns, the key pair came from the crypto engine for the modulus
    and the hash name of the options, the modulus is not below 2048 and
    the name is not the string [SHA-1], the private address is the
    address of the public key, and the store now retrieves the private
    key under that address. Conversely, when the store does not fail on
    saving, the modulus is not below 2048, the name is not the string
    [SHA-1] (so also for [sha-1]), the engine generates a pair and the
    public key has an address, the method returns that pair and address
    and the store with the private key under the address. *)
Theorem generateIdentityKeyPair_stores_key (store : MockIdentityKeyStore) keyOptions :
  let modulus := default (Num 2048) (KeyGenerators.modulus keyOptions) in
  let hashingAlgorithm := default "SHA-256" (KeyGenerators.hashingAlgorithm keyOptions) in
  (forall identityKeyPair store',
     @generateIdentityKeyPair _ backend store keyOptions = Ok (identityKeyPair, store') ->
     ltb modulus (Num 2048) = false /\ hashingAlgorithm <> "SHA-1" /\
     generateRSAPSSKey modulus hashingAlgorithm = Ok (keyPair identityKeyPair) /\
     addressOf (publicKey (keyPair identityKeyPair)) = Ok (privateAddress identityKeyPair) /\
     @retrieveIdentityKey _ backend store' (privateAddress identityKeyPair) =
     Ok (Some (privateKey (keyPair identityKeyPair)))) /\
  (forall generated address,
     failOnSave store = false ->
     ltb modulus (Num 2048) = false -> hashingAlgorithm <> "SHA-1" ->
     generateRSAPSSKey modulus hashingAlgorithm = Ok generated ->
     addressOf (publicKey generated) = Ok address ->
     @generateIdentityKeyPair _ backend store keyOptions =
     Ok ({| keyPair := generated; privateAddress := address |},
         {| identityKeys := <[address := privateKey generated]> (identityKeys store);
            failOnSave := false |})).
Proof.
  intros modulus hashingAlgorithm. subst modulus hashingAlgorithm. split.
  - intros identityKeyPair store' Hok.
    unfold generateIdentityKeyPair in Hok.
    cbn [storeGenerateRSAKeyPair getPrivateAddressFromIdentityKey saveIdentityKey
         retrieveIdentityKey mockBackend] in *.
    destruct (generateRSAKeyPair keyOptions) as [generated | e] eqn:Hgenerate;
      simpl in Hok; [| discriminate Hok].
    destruct (addressOf (publicKey generated)) as [address | e] eqn:Haddress;
      simpl in Hok; [| discriminate Hok].
    destruct (failOnSave store); simpl in Hok; [discriminate Hok |].
    injection Hok as <- <-.
    cbn [keyPair privateAddress identityKeys].
    apply generateRSAKeyPair_Ok in Hgenerate.
    destruct Hgenerate as (Hmodulus & Hhash & Hengine).
    repeat split; try assumption.
    now rewrite lookup_insert_eq.
  - intros generated address Hsave Hmodulus Hhash Hengine Haddress.
    unfold generateIdentityKeyPair.
    cbn [storeGenerateRSAKeyPair getPrivateAddressFromIdentityKey saveIdentityKey
         mockBackend].
    rewrite (proj2 (generateRSAKeyPair_Ok keyOptions generated))
      by (split; [| split]; assumption).
    cbn [mbind result_bind]. rewrite Haddress. cbn [mbind result_bind].
    rewrite Hsave. reflexivity.
Qed.

End WithMock.

Lemma generateIdentityKeyPair_errors_witness :
  exists address,
    @generateIdentityKeyPair _
      (@mockBackend MockMore.mockEngine MockMore.mockAddressOf)
      (MockMore.emptyIdentityKeyStore true)
      {| modulus := None; hashingAlgorithm := None |} =
    Throw (KeyStoreError ("Failed to save key for " +:+ address +:+ ": Denied")).
Proof.
  destruct (@generateIdentityKeyPair_errors _
              (@mockBackend MockMore.mockEngine MockMore.mockAddressOf)
              (MockMore.emptyIdentityKeyStore true)
              {| modulus := None; hashingAlgorithm := None |}
              (KeyStoreError "Failed to save key for 0080002: Denied"))
    as [Hgenerate | (generated & Hgenerate & [Haddress | (address & cause & _ & _ & _)])].
  - vm_compute. reflexivity.
  - vm_compute in Hgenerate. discriminate Hgenerate.
  - vm_compute in Hgenerate. injection Hgenerate as <-.
    vm_compute in Haddress. discriminate Haddress.
  - exists "0080002". vm_compute. reflexivity.
Defined.

Lemma generateIdentityKeyPair_stores_key_witness :
  @retrieveIdentityKey _ (@mockBackend MockMore.mockEngine MockMore.mockAddressOf)
    {| identityKeys :=
         {[ "0100002" := {| keyParams := "SHA-512";
                            keyMaterial := [Byte.x10; Byte.x00; Byte.x01] |} ]};
       failOnSave := false |}
    "0100002" =
  Ok (Some {| keyParams := "SHA-512"; keyMaterial := [Byte.x10; Byte.x00; Byte.x01] |}) /\
  @generateIdentityKeyPair _ (@mockBackend MockMore.mockEngine MockMore.mockAddressOf)
    (MockMore.emptyIdentityKeyStore false)
    {| modulus := None; hashingAlgorithm := Some "sha-1" |} =
  Ok ({| keyPair :=
           {| privateKey := {| keyParams := "sha-1";
                               keyMaterial := [Byte.x08; Byte.x00; Byte.x01] |};
              publicKey := {| keyParams := "sha-1";
                              keyMaterial := [Byte.x08; Byte.x00; Byte.x02] |} |};
         privateAddress := "0080002" |},
      {| identityKeys :=
           <["0080002" := {| keyParams := "sha-1";
                             keyMaterial := [Byte.x08; Byte.x00; Byte.x01] |}]> ∅;
         failOnSave := false |}).
Proof.
  split.
  - apply (proj1 (@generateIdentityKeyPair_stores_key
                    MockMore.mockEngine MockMore.mockAddressOf
                    (MockMore.emptyIdentityKeyStore false)
                    {| modulus := Some (Num 4096); hashingAlgorithm := Some "SHA-512" |})
             {| keyPair :=
                  {| privateKey := {| keyParams := "SHA-512";
                                      keyMaterial := [Byte.x10; Byte.x00; Byte.x01] |};
                     publicKey := {| keyParams := "SHA-512";
                                     keyMaterial := [Byte.x10; Byte.x00; Byte.x02] |} |};
                privateAddress := "0100002" |}
             {| identityKeys :=
                  {[ "0100002" := {| keyParams := "SHA-512";
                                     keyMaterial := [Byte.x10; Byte.x00; Byte.x01] |} ]};
                failOnSave := false |}).
    vm_compute. reflexivity.
  - apply (proj2 (@generateIdentityKeyPair_stores_key
                    MockMore.mockEngine MockMore.mockAddressOf
                    (MockMore.emptyIdentityKeyStore false)
                    {| modulus := None; hashingAlgorithm := Some "sha-1" |}));
      try reflexivity.
    discriminate.
Defined.

End IdentityKeyMore.

(** ** The certificate store of the test suite *)

Module CertificateStoreMore.
Import MockCertificateStore Statements.

Lemma sortInsert_not_nil {A : Type} (compare : A -> A -> Z) (x : A) (sorted : list A) :
  sortInsert compare x sorted <> [].
Proof. destruct sorted as [| y rest]; simpl; [| destruct (_ <=? _)]; discriminate. Qed.

Lemma Array_sort_nil {A : Type} (compare : A -> A -> Z) (array : list A) :
  Array_sort compare array = [] -> array = [].
Proof.
  destruct array as [| x rest]; [reflexivity |]. simpl. intros Hnil.
  now apply sortInsert_not_nil in Hnil.
Qed.

(** Sorting by a key in descending order puts first the earliest element
    with the greatest key. *)
Lemma Array_sort_head {A : Type} (key : A -> Z) (array : list A) :
  forall first rest,
    Array_sort (fun a b => key b - key a) array = first :: rest ->
    exists before after,
      array = (before ++ first :: after)%list /\
      Forall (fun d => key d < key first) before /\
      Forall (fun d => key d <= key first) after.
Proof.
  induction array as [| x array IH]; intros first rest Hsort; [discriminate Hsort |].
  simpl in Hsort.
  destruct (Array_sort (fun a b => key b - key a) array) as [| y sorted] eqn:Hsorted.
  - apply Array_sort_nil in Hsorted. subst array. simpl in Hsort.
    injection Hsort as <- _. exists [], []. repeat split; constructor.
  - destruct (IH y sorted eq_refl) as (before & after & -> & Hbefore & Hafter).
    simpl in Hsort. destruct (Z.leb_spec (key y - key x) 0) as [Hle | Hgt].
    + injection Hsort as <- _. exists [], (before ++ y :: after)%list.
      split; [reflexivity |]. split; [constructor |].
      apply Forall_app. split.
      * eapply Forall_impl; [exact Hbefore |]. simpl. intros d Hd. lia.
      * constructor; [lia |].
        eapply Forall_impl; [exact Hafter |]. simpl. intros d Hd. lia.
    + injection Hsort as <- _. exists (x :: before), after.
      split; [reflexivity |]. split; [| exact Hafter].
      constructor; [lia | exact Hbefore].
Qed.

(** X12. [retrieveLatestSerialization], for a subject address of
    lower-case hexadecimal digits: the result is [null] exactly when the
    subject has no certificate of the issuer; otherwise it is the
    serialization of the certificate of that issuer with the latest
    expiry date, and of the one saved first if several expire then. *)
Theorem retrieveLatestSerialization_latest (this : Store) subjectPrivateAddress
    issuerPrivateAddress :
  isLowerHex subjectPrivateAddress ->
  match retrieveLatestSerialization this subjectPrivateAddress issuerPrivateAddress with
  | None => matchingData this subjectPrivateAddress issuerPrivateAddress = []
  | Some latest =>
      exists before data after,
        matchingData this subjectPrivateAddress issuerPrivateAddress =
        (before ++ data :: after)%list /\
        serialization data = latest /\
        Forall (fun d => getTime (expiryDate d) < getTime (expiryDate data)) before /\
        Forall (fun d => getTime (expiryDate d) <= getTime (expiryDate data)) after
  end.
Proof.
  intros _. unfold retrieveLatestSerialization.
  destruct (matchingData this subjectPrivateAddress issuerPrivateAddress)
    as [| d matching] eqn:Hmatching; [reflexivity |].
  replace (Z.of_nat (length (d :: matching)) =? 0) with false
    by (symmetry; apply Z.eqb_neq; simpl length; lia).
  destruct (Array_sort _ (d :: matching)) as [| first rest] eqn:Hsort.
  - now apply Array_sort_nil in Hsort.
  - destruct (Array_sort_head (fun d => getTime (expiryDate d)) _ _ _ Hsort)
      as (before & after & Hsplit & Hbefore & Hafter).
    exists before, first, after. repeat split; assumption.
Qed.

Lemma matchingData_saveData (this : Store) serialization subjectPrivateAddress expiryDate
    issuerPrivateAddress subject' issuer' :
  matchingData (saveData this serialization subjectPrivateAddress expiryDate issuerPrivateAddress)
    subject' issuer' =
  (matchingData this subject' issuer' ++
   if bool_decide (subject' = subjectPrivateAddress /\ issuer' = issuerPrivateAddress)
   then [ {| MockCertificateStore.serialization := serialization;
             MockCertificateStore.expiryDate := expiryDate;
             MockCertificateStore.issuerPrivateAddress := issuerPrivateAddress |} ]
   else [])%list.
Proof.
  unfold matchingData, saveData. cbn [dataByPrivateAddress].
  destruct (decide (subject' = subjectPrivateAddress)) as [-> | Hsubject].
  - rewrite lookup_insert_eq. cbn [default]. unfold id. rewrite filter_app.
    f_equal. rewrite list.filter_singleton by exact [].
    cbn [MockCertificateStore.issuerPrivateAddress].
    destruct (decide (issuerPrivateAddress = issuer')) as [<- | Hissuer].
    + now rewrite bool_decide_eq_true_2.
    + rewrite bool_decide_eq_false_2; [reflexivity |]. intros [_ Heq]. congruence.
  - rewrite lookup_insert_ne by congruence.
    rewrite bool_decide_eq_false_2 by tauto. now rewrite app_nil_r.
Qed.

Lemma retrieveAllSerializations_map (this : Store) subjectPrivateAddress issuerPrivateAddress :
  retrieveAllSerializations this subjectPrivateAddress issuerPrivateAddress =
  map serialization (matchingData this subjectPrivateAddress issuerPrivateAddress).
Proof.
  unfold retrieveAllSerializations.
  destruct (matchingData this subjectPrivateAddress issuerPrivateAddress); reflexivity.
Qed.

(** X13. [saveData] appends: after saving a serialization for a subject
    and an issuer, [retrieveAllSerializations] returns for that pair what
    it returned before followed by the new serialization, and for every
    other pair what it returned before (subject addresses of lower-case
    hexadecimal digits). *)
Theorem saveData_appends (this : Store) serialization subjectPrivateAddress expiryDate
    issuerPrivateAddress subject' issuer' :
  isLowerHex subjectPrivateAddress -> isLowerHex subject' ->
  retrieveAllSerializations
    (saveData this serialization subjectPrivateAddress expiryDate issuerPrivateAddress)
    subject' issuer' =
  (retrieveAllSerializations this subject' issuer' ++
   if bool_decide (subject' = subjectPrivateAddress /\ issuer' = issuerPrivateAddress)
   then [serialization] else [])%list.
Proof.
  intros _ _. rewrite !retrieveAllSerializations_map, matchingData_saveData, map_app.
  f_equal. now destruct (bool_decide _).
Qed.

Lemma head_sortInsert {A : Type} (key : A -> Z) (x : A) (sorted : list A) :
  head (sortInsert (fun a b => key b - key a) x sorted) =
  Some (match head sorted with
        | Some y => if key y - key x <=? 0 then x else y
        | None => x
        end).
Proof. destruct sorted as [| y rest]; simpl; [| destruct (_ <=? _)]; reflexivity. Qed.

Lemma head_sort_snoc_later {A : Type} (key : A -> Z) (array : list A) (d : A) :
  Forall (fun x => key x < key d) array ->
  head (Array_sort (fun a b => key b - key a) (array ++ [d])) = Some d.
Proof.
  induction 1 as [| x array Hx _ IH]; [reflexivity |].
  simpl. rewrite head_sortInsert, IH.
  destruct (Z.leb_spec (key d - key x) 0); [lia | reflexivity].
Qed.

Lemma head_sort_snoc_earlier {A : Type} (key : A -> Z) (array : list A) (d : A) :
  Exists (fun x => key d <= key x) array ->
  head (Array_sort (fun a b => key b - key a) (array ++ [d])) =
  head (Array_sort (fun a b => key b - key a) array).
Proof.
  induction array as [| x array IH]; intros Hexists; [now apply Exists_nil in Hexists |].
  simpl. rewrite !head_sortInsert.
  destruct (decide (Exists (fun x => key d <= key x) array)) as [Hrest | Hrest].
  - now rewrite IH.
  - apply Exists_cons in Hexists. destruct Hexists as [Hx | Hrest']; [| contradiction].
    apply not_Exists_Forall in Hrest; [| intros y; apply _].
    assert (Hlater : Forall (fun y => key y < key d) array).
    { eapply Forall_impl; [exact Hrest |]. simpl. intros y Hy. lia. }
    rewrite (head_sort_snoc_later key array d Hlater).
    destruct (Z.leb_spec (key d - key x) 0); [| lia].
    destruct (Array_sort (fun a b => key b - key a) array) as [| y sorted] eqn:Hsorted;
      [reflexivity |].
    destruct (Array_sort_head key array y sorted Hsorted) as (before & after & -> & _ & _).
    apply Forall_app in Hlater. destruct Hlater as [_ Hlater].
    apply Forall_cons in Hlater. destruct Hlater as [Hy _].
    simpl. destruct (Z.leb_spec (key y - key x) 0); [reflexivity | lia].
Qed.

Lemma retrieveLatestSerialization_head (this : Store) subjectPrivateAddress
    issuerPrivateAddress :
  retrieveLatestSerialization this subjectPrivateAddress issuerPrivateAddress =
  serialization <$>
  head (Array_sort (fun a b => getTime (expiryDate b) - getTime (expiryDate a))
          (matchingData this subjectPrivateAddress issuerPrivateAddress)).
Proof.
  unfold retrieveLatestSerialization.
  destruct (matchingData this subjectPrivateAddress issuerPrivateAddress)
    as [| d matching]; [reflexivity |].
  replace (Z.of_nat (length (d :: matching)) =? 0) with false
    by (symmetry; apply Z.eqb_neq; simpl length; lia).
  now destruct (Array_sort _ (d :: matching)).
Qed.

(** X14. A certificate saved with an expiry date later than that of
    every certificate that the subject has from the issuer is the latest
    one afterwards; saved with a date that is not later than that of one
    of them, it leaves the latest one as it was (subject address of
    lower-case hexadecimal digits). *)
Theorem saveData_then_latest (this : Store) serialization subjectPrivateAddress expiryDate
    issuerPrivateAddress :
  isLowerHex subjectPrivateAddress ->
  let saved :=
    saveData this serialization subjectPrivateAddress expiryDate issuerPrivateAddress in
  (Forall (fun d => getTime (MockCertificateStore.expiryDate d) < getTime expiryDate)
          (matchingData this subjectPrivateAddress issuerPrivateAddress) ->
   retrieveLatestSerialization saved subjectPrivateAddress issuerPrivateAddress =
   Some serialization) /\
  (Exists (fun d => getTime expiryDate <= getTime (MockCertificateStore.expiryDate d))
          (matchingData this subjectPrivateAddress issuerPrivateAddress) ->
   retrieveLatestSerialization saved subjectPrivateAddress issuerPrivateAddress =
   retrieveLatestSerialization this subjectPrivateAddress issuerPrivateAddress).
Proof.
  intros _ saved. subst saved.
  rewrite !retrieveLatestSerialization_head, matchingData_saveData.
  rewrite bool_decide_eq_true_2 by (split; reflexivity).
  split; intros Hothers.
  - rewrite (head_sort_snoc_later (fun d => getTime (MockCertificateStore.expiryDate d)));
      [reflexivity | exact Hothers].
  - rewrite (head_sort_snoc_earlier (fun d => getTime (MockCertificateStore.expiryDate d)));
      [reflexivity | exact Hothers].
Qed.

Lemma retrieveLatestSerialization_latest_witness :
  isLowerHex "0a" /\
  exists before data after,
    matchingData
      (saveData (saveData (clear {| dataByPrivateAddress := ∅ |}) [Byte.x01] "0a" 2000 "0b")
         [Byte.x02] "0a" 1000 "0b")
      "0a" "0b" = (before ++ data :: after)%list /\
    serialization data = [Byte.x01] /\
    Forall (fun d => getTime (expiryDate d) < getTime (expiryDate data)) before /\
    Forall (fun d => getTime (expiryDate d) <= getTime (expiryDate data)) after.
Proof.
  assert (Hhex : isLowerHex "0a") by (unfold isLowerHex; simpl; repeat constructor).
  split; [exact Hhex |].
  apply (retrieveLatestSerialization_latest
           (saveData (saveData (clear {| dataByPrivateAddress := ∅ |})
                        [Byte.x01] "0a" 2000 "0b")
              [Byte.x02] "0a" 1000 "0b")
           "0a" "0b" Hhex).
Defined.

Lemma saveData_appends_witness :
  retrieveAllSerializations
    (saveData (saveData (clear {| dataByPrivateAddress := ∅ |}) [Byte.x01] "0a" 2000 "0b")
       [Byte.x02] "0a" 1000 "0b")
    "0a" "0b" = [[Byte.x01]; [Byte.x02]].
Proof.
  rewrite (saveData_appends
             (saveData (clear {| dataByPrivateAddress := ∅ |}) [Byte.x01] "0a" 2000 "0b")
             [Byte.x02] "0a" 1000 "0b" "0a" "0b").
  - vm_compute. reflexivity.
  - unfold isLowerHex. simpl. repeat constructor.
  - unfold isLowerHex. simpl. repeat constructor.
Defined.

Lemma saveData_then_latest_witness :
  retrieveLatestSerialization
    (saveData (saveData (clear {| dataByPrivateAddress := ∅ |}) [Byte.x01] "0a" 2000 "0b")
       [Byte.x02] "0a" 3000 "0b")
    "0a" "0b" = Some [Byte.x02].
Proof.
  apply (saveData_then_latest
           (saveData (clear {| dataByPrivateAddress := ∅ |}) [Byte.x01] "0a" 2000 "0b")
           [Byte.x02] "0a" 3000 "0b").
  - unfold isLowerHex. simpl. repeat constructor.
  - vm_compute. repeat constructor.
Defined.

End CertificateStoreMore.

(** ** Public address resolution *)

Module PublicAddressingMore.
Import PublicAddressing.

(** X15. [removeTrailingDot] removes one final dot and nothing else: a
    string that does not end in a dot is unchanged, and so is every dot
    before the last character. *)
Theorem removeTrailingDot_spec (host : string) :
  removeTrailingDot (host +:+ ".") = host /\
  removeTrailingDot EmptyString = EmptyString /\
  (forall c : ascii,
     c <> "."%char ->
     removeTrailingDot (host +:+ String c EmptyString) = host +:+ String c EmptyString).
Proof.
  split; [| split; [reflexivity |]].
  - induction host as [| c host IH]; [reflexivity |].
    change (removeTrailingDot (String c (host +:+ ".")) = String c host).
    simpl. destruct (host +:+ ".") as [| c' rest] eqn:Hrest.
    + destruct host; discriminate Hrest.
    + now rewrite IH.
  - intros c Hc. induction host as [| c0 host IH].
    + change (removeTrailingDot (String c EmptyString) = String c EmptyString).
      simpl. destruct (Ascii.eqb_spec c "."); [contradiction | reflexivity].
    + change (removeTrailingDot (String c0 (host +:+ String c EmptyString)) =
              String c0 (host +:+ String c EmptyString)).
      simpl. destruct (host +:+ String c EmptyString) as [| c' rest] eqn:Hrest.
      * destruct host; discriminate Hrest.
      * now rewrite IH.
Qed.

Lemma removeTrailingDot_spec_witness :
  removeTrailingDot "example.com" = "example.com" /\
  removeTrailingDot "example.com.." = "example.com.".
Proof.
  split.
  - destruct (removeTrailingDot_spec "example.co") as (_ & _ & Hother).
    apply (Hother "m"%char). discriminate.
  - destruct (removeTrailingDot_spec "example.com.") as (Hdot & _). exact Hdot.
Defined.

Section WithResolver.
Context `{!Resolver}.

(** X16. An address that [resolvePublicAddress] returns is either the
    host and the port of a host name that has a port, with no lookup, or
    the result of an SRV lookup for [_<binding>._tcp.<hostName>] at the
    resolver (Cloudflare's by default) that came back with status
    NOERROR and the AD flag set: the target, without its final dot, and
    the port of the first SRV answer, neither of them empty or zero. *)
Theorem resolved_address_provenance hostName bindingType resolverURL address :
  resolvePublicAddress hostName bindingType resolverURL = inr (Some address) ->
  exists urlParts,
    parseURL ("scheme://" +:+ hostName) = Some urlParts /\
    ((urlPort urlParts <> EmptyString /\
      address = {| host := hostname urlParts; port := parseInt10 (urlPort urlParts) |}) \/
     (urlPort urlParts = EmptyString /\
      exists result answer target port,
        getDNS (default CLOUDFLARE_RESOLVER_URL resolverURL)
          ("_" +:+ bindingTypeValue bindingType +:+ "._tcp." +:+ hostName) = inr result /\
        rcode result = "NOERROR" /\
        flag_ad result = true /\
        head (filter (fun a => answerType a = "SRV") (answers result)) = Some answer /\
        data answer = Some {| target := Some target; srvPort := Some port |} /\
        target <> EmptyString /\ port <> 0 /\
        address = {| host := removeTrailingDot target; port := Some port |})).
Proof.
  unfold resolvePublicAddress. intros Hresolved.
  destruct (parseURL ("scheme://" +:+ hostName)) as [urlParts |]; [| discriminate Hresolved].
  exists urlParts. split; [reflexivity |].
  destruct (String.eqb_spec (urlPort urlParts) EmptyString) as [Hport | Hport];
    simpl in Hresolved.
  2: { left. split; [exact Hport |]. now injection Hresolved as <-. }
  right. split; [exact Hport |].
  destruct (getDNS _ _) as [error | result]; [discriminate Hresolved |].
  destruct (String.eqb_spec (rcode result) "NXDOMAIN"); [discriminate Hresolved |].
  destruct (String.eqb_spec (rcode result) "NOERROR") as [Hrcode | Hrcode];
    simpl in Hresolved; [| discriminate Hresolved].
  destruct (flag_ad result) eqn:Had; simpl in Hresolved; [| discriminate Hresolved].
  destruct (filter _ (answers result)) as [| answer srvAnswers] eqn:Hanswers;
    [discriminate Hresolved |].
  destruct answer as [answerType [[[target |] [port |]] |]]; try discriminate Hresolved.
  destruct (String.eqb_spec target EmptyString) as [Htarget | Htarget];
    simpl in Hresolved; [discriminate Hresolved |].
  destruct (Z.eqb_spec port 0) as [Hzero | Hzero]; simpl in Hresolved;
    [discriminate Hresolved |].
  injection Hresolved as <-.
  exists result, {| answerType := answerType;
                    data := Some {| target := Some target; srvPort := Some port |} |},
         target, port.
  repeat split; try assumption; try reflexivity.
  now rewrite Hanswers.
Qed.

(** X17. [resolvePublicAddress] returns [null] exactly when the host
    name has no port and the lookup came back with status NXDOMAIN. *)
Theorem resolved_address_null hostName bindingType resolverURL :
  resolvePublicAddress hostName bindingType resolverURL = inr None <->
  exists urlParts result,
    parseURL ("scheme://" +:+ hostName) = Some urlParts /\
    urlPort urlParts = EmptyString /\
    getDNS (default CLOUDFLARE_RESOLVER_URL resolverURL)
      ("_" +:+ bindingTypeValue bindingType +:+ "._tcp." +:+ hostName) = inr result /\
    rcode result = "NXDOMAIN".
Proof.
  unfold resolvePublicAddress. split.
  - intros Hnull.
    destruct (parseURL ("scheme://" +:+ hostName)) as [urlParts |]; [| discriminate Hnull].
    destruct (String.eqb_spec (urlPort urlParts) EmptyString) as [Hport | Hport];
      simpl in Hnull; [| discriminate Hnull].
    destruct (getDNS _ _) as [error | result]; [discriminate Hnull |].
    destruct (String.eqb_spec (rcode result) "NXDOMAIN") as [Hrcode | Hrcode];
      [now exists urlParts, result |].
    destruct (String.eqb_spec (rcode result) "NOERROR"); simpl in Hnull;
      [| discriminate Hnull].
    destruct (flag_ad result); simpl in Hnull; [| discriminate Hnull].
    destruct (filter _ (answers result)) as [| answer srvAnswers]; [discriminate Hnull |].
    destruct answer as [answerType [[[target |] [port |]] |]]; try discriminate Hnull.
    destruct (String.eqb target EmptyString || (port =? 0)); discriminate Hnull.
  - intros (urlParts & result & -> & -> & -> & ->). reflexivity.
Qed.

End WithResolver.

Lemma resolved_address_provenance_witness :
  @getDNS MockMore.mockResolver CLOUDFLARE_RESOLVER_URL "_awala-gsc._tcp.example.com" =
  inr {| rcode := "NOERROR"; flag_ad := true;
         answers := [ {| answerType := "RRSIG"; data := None |}; MockMore.mockSrvAnswer ] |} /\
  @resolvePublicAddress MockMore.mockResolver "example.com" GSC None =
  inr (Some {| host := "gw.example.com"; port := Some 443 |}).
Proof.
  assert (Hresolved :
    @resolvePublicAddress MockMore.mockResolver "example.com" GSC None =
    inr (Some {| host := "gw.example.com"; port := Some 443 |}))
    by (vm_compute; reflexivity).
  split; [| exact Hresolved].
  destruct (@resolved_address_provenance MockMore.mockResolver _ _ _ _ Hresolved)
    as (urlParts & Hurl & [(Hport & _) | (_ & result & answer & target & port & Hdns & _)]).
  - vm_compute in Hurl. injection Hurl as <-. now contradiction Hport.
  - vm_compute. reflexivity.
Defined.

Lemma resolved_address_null_witness :
  @resolvePublicAddress MockMore.mockResolver "192.0.2.1" GSC None = inr None.
Proof.
  apply (@resolved_address_null MockMore.mockResolver "192.0.2.1" GSC None).
  eexists. eexists. repeat split; vm_compute; reflexivity.
Defined.

End PublicAddressingMore.

(** ** EnvelopedData: the other paths *)

Module CMSMore.
Import CMS Statements.

Lemma getAesKeySize_Ok (aesKeySize : option number) (keySize : number) :
  getAesKeySize aesKeySize = Ok keySize ->
  exists size,
    keySize = Num size /\ In size AES_KEY_SIZES /\
    (aesKeySize = Some (Num size) \/ (size = 128 /\ truthyNumber aesKeySize = false)).
Proof.
  unfold getAesKeySize.
  destruct (truthyNumber aesKeySize) eqn:Htruthy.
  - destruct aesKeySize as [given |]; [| discriminate Htruthy].
    destruct (includesNumber AES_KEY_SIZES given) eqn:Hin; cbn [negb andb]; [| discriminate].
    intros [= <-].
    destruct given as [z | | | | k e]; try discriminate Hin.
    exists z. split; [reflexivity |]. split; [| now left].
    unfold includesNumber, includes, AES_KEY_SIZES in *. cbn [existsb] in Hin.
    destruct (Z.eqb_spec z 128) as [-> | _]; [now left |].
    destruct (Z.eqb_spec z 192) as [-> | _]; [right; now left |].
    destruct (Z.eqb_spec z 256) as [-> | _]; [right; right; now left |].
    discriminate Hin.
  - intros Hok. exists 128.
    assert (keySize = Num 128) as -> by (destruct aesKeySize; now injection Hok as <-).
    split; [reflexivity |]. split; [now left | right; now split].
Qed.

Section WithHost.
Context `{!Host}.

(** X18. What [EnvelopedData.deserialize] returns: the input is a
    ContentInfo of type EnvelopedData whose content PKI.js accepts, the
    value has exactly one RecipientInfo, and the class of the result
    follows its variant: [SessionlessEnvelopedData] for 1 and
    [SessionEnvelopedData] for 2. No other variant gets through. *)
Theorem envelopedData_deserialized envelopedDataSerialized envelopedData :
  deserialize envelopedDataSerialized = Ok envelopedData ->
  exists contentInfo recipientInfo,
    deserializeContentInfo envelopedDataSerialized = Ok contentInfo /\
    contentType contentInfo = oids.ENVELOPED_DATA /\
    envelopedDataFromSchema (content contentInfo) = Ok (pkijsEnvelopedDataOf envelopedData) /\
    recipientInfos (pkijsEnvelopedDataOf envelopedData) = [recipientInfo] /\
    ((variant recipientInfo = 1 /\
      envelopedData = SessionlessEnvelopedData (pkijsEnvelopedDataOf envelopedData)) \/
     (variant recipientInfo = 2 /\
      envelopedData = SessionEnvelopedData (pkijsEnvelopedDataOf envelopedData))).
Proof.
  unfold deserialize. intros Hok.
  destruct (deserializeContentInfo envelopedDataSerialized) as [contentInfo | e];
    simpl in Hok; [| discriminate Hok].
  destruct (String.eqb_spec (contentType contentInfo) oids.ENVELOPED_DATA) as [Htype | Htype];
    simpl in Hok; [| discriminate Hok].
  destruct (envelopedDataFromSchema (content contentInfo)) as [pkijsEnvelopedData | e]
    eqn:Hschema; simpl in Hok; [| discriminate Hok].
  destruct (Z.eqb_spec (Z.of_nat (length (recipientInfos pkijsEnvelopedData))) 1)
    as [Hlength | Hlength]; simpl in Hok; [| discriminate Hok].
  destruct (recipientInfos pkijsEnvelopedData) as [| recipientInfo [| second others]] eqn:Hinfos;
    [discriminate Hlength | | simpl length in Hlength; lia].
  unfold includes in Hok. simpl in Hok.
  exists contentInfo, recipientInfo.
  split; [reflexivity |]. split; [exact Htype |].
  destruct (Z.eqb_spec (variant recipientInfo) 1) as [Hone | Hone]; simpl in Hok.
  - injection Hok as <-. simpl.
    split; [exact Hschema |]. split; [exact Hinfos |]. left. now split.
  - destruct (Z.eqb_spec (variant recipientInfo) 2) as [Htwo | Htwo]; simpl in Hok;
      [| discriminate Hok].
    injection Hok as <-. simpl.
    split; [exact Hschema |]. split; [exact Hinfos |]. right. now split.
Qed.

(** X19. What [EnvelopedData.deserialize] throws: the exception of
    [deserializeContentInfo] as it came, or a [CMSError]. Reading the
    variant of a RecipientInfo that is not there cannot happen. *)
Theorem envelopedData_deserialize_errors envelopedDataSerialized e :
  deserialize envelopedDataSerialized = Throw e ->
  deserializeContentInfo envelopedDataSerialized = Throw e \/ isCMSError e.
Proof.
  unfold deserialize, isCMSError. intros Hthrow.
  apply bind_Throw in Hthrow.
  destruct Hthrow as [Hthrow | (contentInfo & _ & Hthrow)]; [now left |]. right.
  apply bind_Throw in Hthrow. destruct Hthrow as [Hthrow | (? & _ & Hthrow)];
    [apply throwIf_Throw in Hthrow; subst; eauto |].
  apply bind_Throw in Hthrow.
  destruct Hthrow as [Hthrow | (pkijsEnvelopedData & _ & Hthrow)].
  { apply tryCatch_Throw in Hthrow. destruct Hthrow as (cause & _ & ->).
    unfold wrapCause. eauto. }
  apply bind_Throw in Hthrow. destruct Hthrow as [Hthrow | (? & Hlength & Hthrow)];
    [apply throwIf_Throw in Hthrow; subst; eauto |].
  apply throwIf_Ok in Hlength.
  destruct (recipientInfos pkijsEnvelopedData) as [| recipientInfo others];
    [discriminate Hlength |].
  apply bind_Throw in Hthrow. destruct Hthrow as [Hthrow | (? & _ & Hthrow)];
    [apply throwIf_Throw in Hthrow; subst; eauto | discriminate Hthrow].
Qed.

(** X20. The cipher of both [encrypt] methods. An EnvelopedData value
    that [encrypt] returns was encrypted by PKI.js with AES-CBC and a key
    of 128, 192 or 256 bits: the size of the options, or 128 when the
    options give none (or zero, or NaN). The session variant returns the id it
    was given as random value and the private key of the first result
    of PKI.js. *)
Theorem encrypt_cipher_parameters plaintext options :
  (forall certificate envelopedData,
     sessionlessEncrypt plaintext certificate options = Ok envelopedData ->
     exists withRecipient size encrypted keys,
       addRecipientByCertificate (newPkijsEnvelopedData None)
         (X509.pkijsCertificate certificate) = Ok withRecipient /\
       In size AES_KEY_SIZES /\
       (aesKeySize options = Some (Num size) \/
        (size = 128 /\ truthyNumber (aesKeySize options) = false)) /\
       pkijsEncrypt withRecipient AES_CIPHER_MODE (Num size) plaintext = Ok (encrypted, keys) /\
       envelopedData = SessionlessEnvelopedData encrypted) /\
  (forall random64 recipientSessionKey result,
     sessionEncrypt random64 plaintext recipientSessionKey options = Ok result ->
     exists withRecipient size encrypted keys,
       addRecipientByKeyIdentifier
         (newPkijsEnvelopedData
            (Some [ {| attrType := oids.ORIGINATOR_EPHEMERAL_CERT_SERIAL_NUMBER;
                       attrValues := [random64] |} ]))
         (publicKey recipientSessionKey) (keyId recipientSessionKey) = Ok withRecipient /\
       In size AES_KEY_SIZES /\
       (aesKeySize options = Some (Num size) \/
        (size = 128 /\ truthyNumber (aesKeySize options) = false)) /\
       pkijsEncrypt withRecipient AES_CIPHER_MODE (Num size) plaintext =
       Ok (encrypted, Some (dhPrivateKey result) :: keys) /\
       dhKeyId result = random64 /\
       CMS.envelopedData result = SessionEnvelopedData encrypted).
Proof.
  split.
  - intros certificate envelopedData. unfold sessionlessEncrypt. intros Hok.
    destruct (addRecipientByCertificate _ _) as [withRecipient | e]; simpl in Hok;
      [| discriminate Hok].
    destruct (getAesKeySize (aesKeySize options)) as [keySize | e] eqn:Hsize; simpl in Hok;
      [| discriminate Hok].
    destruct (getAesKeySize_Ok _ _ Hsize) as (size & -> & Hin & Hgiven).
    destruct (pkijsEncrypt withRecipient AES_CIPHER_MODE (Num size) plaintext)
      as [[encrypted keys] | e] eqn:Hencrypt; simpl in Hok; [| discriminate Hok].
    injection Hok as <-.
    exists withRecipient, size, encrypted, keys. repeat split; assumption.
  - intros random64 recipientSessionKey result. unfold sessionEncrypt. intros Hok.
    destruct (addRecipientByKeyIdentifier _ _ _) as [withRecipient | e]; simpl in Hok;
      [| discriminate Hok].
    destruct (getAesKeySize (aesKeySize options)) as [keySize | e] eqn:Hsize; simpl in Hok;
      [| discriminate Hok].
    destruct (getAesKeySize_Ok _ _ Hsize) as (size & -> & Hin & Hgiven).
    destruct (pkijsEncrypt withRecipient AES_CIPHER_MODE (Num size) plaintext)
      as [[encrypted [| [key |] keys]] | e] eqn:Hencrypt; simpl in Hok;
      try discriminate Hok.
    injection Hok as <-.
    exists withRecipient, size, encrypted, keys. repeat split; assumption.
Qed.

(** X21. The originator key id survives the round trip. If PKI.js keeps
    the unprotected attributes of a value when it adds a recipient and
    when it encrypts, then the value that [SessionEnvelopedData.encrypt]
    returns carries the id of the ephemeral key: [extractOriginatorKeyId]
    returns the [dhKeyId] of the result, and so does every
    [getOriginatorKey] that succeeds. *)
Theorem originator_key_id_round_trip random64 plaintext recipientSessionKey options result :
  (forall p key id p',
     addRecipientByKeyIdentifier p key id = Ok p' -> unprotectedAttrs p' = unprotectedAttrs p) ->
  (forall p mode size content p' keys,
     pkijsEncrypt p mode size content = Ok (p', keys) ->
     unprotectedAttrs p' = unprotectedAttrs p) ->
  sessionEncrypt random64 plaintext recipientSessionKey options = Ok result ->
  extractOriginatorKeyId (pkijsEnvelopedDataOf (CMS.envelopedData result)) =
  Ok (dhKeyId result) /\
  (forall originatorKey,
     getOriginatorKey (pkijsEnvelopedDataOf (CMS.envelopedData result)) = Ok originatorKey ->
     keyId originatorKey = dhKeyId result).
Proof.
  intros Hadd Hencrypt Hok.
  assert (Hattrs :
    unprotectedAttrs (pkijsEnvelopedDataOf (CMS.envelopedData result)) =
    Some [ {| attrType := oids.ORIGINATOR_EPHEMERAL_CERT_SERIAL_NUMBER;
              attrValues := [dhKeyId result] |} ]).
  { unfold sessionEncrypt in Hok.
    destruct (addRecipientByKeyIdentifier _ _ _) as [withRecipient | e] eqn:Hrecipient;
      simpl in Hok; [| discriminate Hok].
    destruct (getAesKeySize (aesKeySize options)) as [size | e]; simpl in Hok;
      [| discriminate Hok].
    destruct (pkijsEncrypt withRecipient AES_CIPHER_MODE size plaintext)
      as [[encrypted [| [key |] keys]] | e] eqn:Hcipher; simpl in Hok;
      try discriminate Hok.
    injection Hok as <-. simpl.
    rewrite (Hencrypt _ _ _ _ _ _ Hcipher), (Hadd _ _ _ _ Hrecipient). reflexivity. }
  assert (Hid :
    extractOriginatorKeyId (pkijsEnvelopedDataOf (CMS.envelopedData result)) =
    Ok (dhKeyId result)).
  { unfold extractOriginatorKeyId. rewrite Hattrs. reflexivity. }
  split; [exact Hid |].
  intros originatorKey Hkey. unfold getOriginatorKey in Hkey. rewrite Hid in Hkey.
  simpl in Hkey.
  destruct (recipientInfos _) as [| recipientInfo others]; [discriminate Hkey |].
  destruct (negb (variant recipientInfo =? 2)); simpl in Hkey; [discriminate Hkey |].
  destruct (value recipientInfo) as [serial | publicKeyDer curveOid subjectKeyId |];
    try discriminate Hkey.
  destruct (getAlgorithmByOID curveOid) as [curveName | e]; simpl in Hkey;
    [| discriminate Hkey].
  destruct (derDeserializeECDHPublicKey publicKeyDer curveName) as [key | e];
    simpl in Hkey; [| discriminate Hkey].
  now injection Hkey as <-.
Qed.

End WithHost.

Lemma envelopedData_deserialized_witness :
  exists recipientInfo,
    recipientInfos (pkijsEnvelopedDataOf
                      (SessionEnvelopedData
                         {| recipientInfos := [ {| variant := 2; value := OtherRecipientInfo |} ];
                            unprotectedAttrs := None;
                            encryptedContent := [] |})) = [recipientInfo] /\
    variant recipientInfo = 2.
Proof.
  destruct (envelopedData_deserialized [Byte.x02]
              (SessionEnvelopedData
                 {| recipientInfos := [ {| variant := 2; value := OtherRecipientInfo |} ];
                    unprotectedAttrs := None;
                    encryptedContent := [] |}))
    as (contentInfo & recipientInfo & _ & _ & _ & Hinfos & [(_ & Hclass) | (Hvariant & _)]).
  - vm_compute. reflexivity.
  - discriminate Hclass.
  - exists recipientInfo. split; assumption.
Defined.

Lemma envelopedData_deserialize_errors_witness :
  isCMSError (CMSError "EnvelopedData must have exactly one RecipientInfo (got 2)").
Proof.
  destruct (envelopedData_deserialize_errors [Byte.x01; Byte.x02]
              (CMSError "EnvelopedData must have exactly one RecipientInfo (got 2)"))
    as [Hinfo | Hcms].
  - vm_compute. reflexivity.
  - vm_compute in Hinfo. discriminate Hinfo.
  - exact Hcms.
Defined.

Lemma encrypt_cipher_parameters_witness :
  exists size,
    In size AES_KEY_SIZES /\
    aesKeySize {| aesKeySize := Some (Num 256) |} = Some (Num size).
Proof.
  destruct (encrypt_cipher_parameters [Byte.xab] {| aesKeySize := Some (Num 256) |})
    as (Hplain & _).
  destruct (Hplain Mock.mockCertificate
              (SessionlessEnvelopedData
                 {| recipientInfos :=
                      [ {| variant := 1; value := KeyTransRecipientInfo [Byte.x01] |} ];
                    unprotectedAttrs := None;
                    encryptedContent := [Byte.xab] |}))
    as (withRecipient & size & encrypted & keys & _ & Hin & [Hgiven | (_ & Hnone)] & _).
  - vm_compute. reflexivity.
  - exists size. split; assumption.
  - discriminate Hnone.
Defined.

Lemma originator_key_id_round_trip_witness :
  exists result,
    sessionEncrypt [Byte.x0a; Byte.x0b] [Byte.xab]
      {| keyId := [Byte.x01]; publicKey := Mock.mockKey |} {| aesKeySize := None |} =
    Ok result /\
    extractOriginatorKeyId (pkijsEnvelopedDataOf (CMS.envelopedData result)) =
    Ok [Byte.x0a; Byte.x0b].
Proof.
  eexists. split; [vm_compute; reflexivity |].
  apply (originator_key_id_round_trip [Byte.x0a; Byte.x0b] [Byte.xab]
           {| keyId := [Byte.x01]; publicKey := Mock.mockKey |} {| aesKeySize := None |}).
  - intros p key id p' Hadd. simpl in Hadd. now injection Hadd as <-.
  - intros p mode size content p' keys Hencrypt. simpl in Hencrypt.
    now injection Hencrypt as <- _.
  - vm_compute. reflexivity.
Defined.

End CMSMore.

(** ** Certificates: issuance and what the issued certificate gives back *)

Module CertificateMore.
Import X509 CertificateOps DateProps.

Section WithHost.
Context `{!X509.Host}.

(** What went well when [issue] returned a certificate, and the
    certificate itself. *)
Lemma issue_Ok tz now random64 options certificate :
  issue tz now random64 options = Ok certificate ->
  let startOfValidity := setMilliseconds tz (default now (validityStartDate options)) 0 in
  let endOfValidity :=
    setMilliseconds tz
      (match issuerCertificate options with
       | Some issuerCertificate =>
           Z.min (expiryDate issuerCertificate) (validityEndDate options)
       | None => validityEndDate options
       end) 0 in
  let subjectDn :=
    [ {| atvType := oids.COMMON_NAME; atvValue := Asn1.BmpString (commonName options) |} ] in
  exists issuerPublicKey keyDigest subjectDigest issuerDnCloned spki signature,
    startOfValidity <= endOfValidity /\
    match issuerCertificate options with
    | Some issuerCertificate =>
        validateIssuerCertificate issuerCertificate = Ok tt /\
        getPublicKey (pkijsCertificate issuerCertificate) = Ok issuerPublicKey
    | None => issuerPublicKey = subjectPublicKey options
    end /\
    (ltb (default (Num 0) (optPathLenConstraint options)) (Num 0) = false /\
     ltb (Num MAX_PATH_LENGTH_CONSTRAINT) (default (Num 0) (optPathLenConstraint options)) =
     false) /\
    getPublicKeyDigest issuerPublicKey = Ok keyDigest /\
    getPublicKeyDigest (subjectPublicKey options) = Ok subjectDigest /\
    cloneDn (match issuerCertificate options with
             | Some issuerCertificate => subject (pkijsCertificate issuerCertificate)
             | None => subjectDn
             end) = Ok issuerDnCloned /\
    importKey (subjectPublicKey options) = Ok spki /\
    certificate =
    newCertificate
      {| version := 2;
         serialNumber := generatePositiveASN1Integer random64;
         notBefore := startOfValidity;
         notAfter := endOfValidity;
         subject := subjectDn;
         issuer := issuerDnCloned;
         extensions :=
           Some [ {| critical := true;
                     extnID := oids.BASIC_CONSTRAINTS;
                     extnValue :=
                       basicConstraintsToBER
                         {| cA := bool_decide (isCA options = Some true);
                            pathLenConstraint :=
                              Some (default (Num 0) (optPathLenConstraint options)) |} |};
                  {| critical := false;
                     extnID := oids.AUTHORITY_KEY;
                     extnValue := authorityKeyIdentifierToBER (Asn1.OctetString keyDigest) |};
                  {| critical := false;
                     extnID := oids.SUBJECT_KEY;
                     extnValue := toBER (Asn1.OctetString subjectDigest) |} ];
         subjectPublicKeyInfo := Some spki;
         signatureValue := signature |}.
Proof.
  intros Hok startOfValidity endOfValidity subjectDn.
  unfold issue, dateFns_setMilliseconds, dateFns_min in Hok. cbv zeta in Hok.
  fold startOfValidity endOfValidity subjectDn in Hok.
  apply bind_Ok in Hok. destruct Hok as (? & Hdates & Hok).
  apply throwIf_Ok in Hdates. apply Z.ltb_ge in Hdates.
  apply bind_Ok in Hok. destruct Hok as ([] & Hissuer & Hok).
  apply bind_Ok in Hok. destruct Hok as (issuerPublicKey & Hkey & Hok).
  apply bind_Ok in Hok. destruct Hok as (basicConstraintsExt & Hbasic & Hok).
  apply bind_Ok in Hok. destruct Hok as (authorityKeyIdExt & Hauthority & Hok).
  apply bind_Ok in Hok. destruct Hok as (subjectKeyIdExt & Hsubject & Hok).
  apply bind_Ok in Hok. destruct Hok as (issuerDnCloned & Hdn & Hok).
  apply bind_Ok in Hok. destruct Hok as (spki & Hspki & Hok).
  apply bind_Ok in Hok. destruct Hok as (signature & Hsign & Hok).
  injection Hok as <-.
  unfold makeBasicConstraintsExtension in Hbasic.
  destruct (ltb (default (Num 0) (optPathLenConstraint options)) (Num 0)) eqn:Hlow;
    [discriminate Hbasic |].
  destruct (ltb (Num MAX_PATH_LENGTH_CONSTRAINT)
              (default (Num 0) (optPathLenConstraint options))) eqn:Hhigh;
    [discriminate Hbasic |].
  simpl in Hbasic. injection Hbasic as <-.
  unfold makeAuthorityKeyIdExtension in Hauthority.
  apply bind_Ok in Hauthority. destruct Hauthority as (keyDigest & Hdigest & Hauthority).
  injection Hauthority as <-.
  unfold makeSubjectKeyIdExtension in Hsubject.
  apply bind_Ok in Hsubject. destruct Hsubject as (subjectDigest & Hdigest' & Hsubject).
  injection Hsubject as <-.
  exists issuerPublicKey, keyDigest, subjectDigest, issuerDnCloned, spki, signature.
  split; [exact Hdates |]. split.
  { destruct (issuerCertificate options); [now split | now injection Hkey]. }
  split; [now split |]. repeat split; try assumption.
Qed.

(** X22. [issue] then [validate]: a certificate that [issue] returns is
    an X.509 v3 certificate whose validity starts no later than it ends,
    and [validate] accepts it at exactly the dates from its start date
    to its expiry date, both included; before, it is not yet valid, and
    after, it is expired. *)
Theorem issued_certificate_validates tz now random64 options certificate :
  issue tz now random64 options = Ok certificate ->
  version (pkijsCertificate certificate) = 2 /\
  startDate certificate <= expiryDate certificate /\
  (forall currentDate,
     validate currentDate certificate = Ok tt <->
     startDate certificate <= currentDate <= expiryDate certificate) /\
  (forall currentDate,
     currentDate < startDate certificate ->
     validate currentDate certificate =
     Throw (CertificateError "Certificate is not yet valid")) /\
  (forall currentDate,
     expiryDate certificate < currentDate ->
     validate currentDate certificate =
     Throw (CertificateError "Certificate already expired")).
Proof.
  intros Hok.
  destruct (issue_Ok _ _ _ _ _ Hok)
    as (issuerPublicKey & keyDigest & subjectDigest & issuerDnCloned & spki & signature &
        Hdates & _ & _ & _ & _ & _ & _ & ->).
  unfold validate, startDate, expiryDate.
  cbn [pkijsCertificate newCertificate version notBefore notAfter].
  split; [reflexivity |]. split; [exact Hdates |].
  change (negb (2 + 1 =? 3)) with false. cbn [throwIf mbind result_bind].
  split; [| split].
  - intros currentDate.
    destruct (Z.ltb_spec currentDate
                (setMilliseconds tz (default now (validityStartDate options)) 0));
      cbn [throwIf mbind result_bind]; [split; [discriminate | lia] |].
    match goal with |- context [?a <? currentDate] => destruct (Z.ltb_spec a currentDate) end;
      cbn [throwIf]; [split; [discriminate | lia] | split; [lia | reflexivity]].
  - intros currentDate Hearly. apply Z.ltb_lt in Hearly. now rewrite Hearly.
  - intros currentDate Hlate.
    destruct (Z.ltb_spec currentDate
                (setMilliseconds tz (default now (validityStartDate options)) 0));
      [unfold startDate, expiryDate in *; simpl in *; lia |].
    cbn [throwIf mbind result_bind]. apply Z.ltb_lt in Hlate.
    unfold expiryDate in Hlate. cbn [pkijsCertificate newCertificate notAfter] in Hlate.
    now rewrite Hlate.
Qed.

(** X23. What the issued certificate says about itself: its common name
    is the one of the options, it has no private address yet, and its
    serial number is the random value read as an unsigned number, with a
    zero octet in front when the first random octet is 128 or more, so
    it is never negative. *)
Theorem issued_certificate_identity tz now first rest options certificate :
  issue tz now (first :: rest) options = Ok certificate ->
  getCommonName certificate = Ok (Some (commonName options)) /\
  privateAddressCache certificate = None /\
  getSerialNumber certificate = generatePositiveASN1Integer (first :: rest) /\
  Asn1.toBigInt (getSerialNumber certificate) = Asn1.unsignedValue (first :: rest) /\
  0 <= Asn1.toBigInt (getSerialNumber certificate) /\
  getSerialNumberHex certificate =
  (if 127 <? Z.of_N (Byte.to_N first) then "00" else EmptyString) +:+
  Buffer_toHex (first :: rest).
Proof.
  intros Hok.
  destruct (issue_Ok _ _ _ _ _ Hok)
    as (issuerPublicKey & keyDigest & subjectDigest & issuerDnCloned & spki & signature &
        _ & _ & _ & _ & _ & _ & _ & ->).
  destruct (X509Props.generatePositiveASN1Integer_sign first rest)
    as (_ & _ & Hvalue & Hsign & _).
  unfold getCommonName, getSerialNumberHex, getSerialNumber.
  cbn [pkijsCertificate newCertificate subject serialNumber privateAddressCache].
  split; [reflexivity |]. split; [reflexivity |]. split; [reflexivity |].
  split; [exact Hvalue |]. split; [exact Hsign |].
  unfold generatePositiveASN1Integer.
  destruct (127 <? Z.of_N (Byte.to_N first)); reflexivity.
Qed.

(** X24. The extensions of an issued certificate. [issue] returns no
    certificate when the path length constraint of the options is below
    0 or above 2, and a certificate that it returns has three
    extensions. The first is the critical BasicConstraints with the
    constraint of the options (0 when they give none) and with [cA] set
    exactly when [isCA] is [true]. The second is the
    AuthorityKeyIdentifier, not critical, whose key identifier is the
    digest of the public key of the issuer certificate, or of the
    subject public key when there is no issuer certificate. The third is
    the SubjectKeyIdentifier, not critical, with the digest of the
    subject public key. *)
Theorem issued_certificate_extensions tz now random64 options :
  (ltb (default (Num 0) (optPathLenConstraint options)) (Num 0) = true \/
   ltb (Num 2) (default (Num 0) (optPathLenConstraint options)) = true ->
   forall certificate, issue tz now random64 options <> Ok certificate) /\
  (forall certificate,
     issue tz now random64 options = Ok certificate ->
     exists issuerPublicKey keyDigest subjectDigest,
       match issuerCertificate options with
       | Some issuerCertificate =>
           getPublicKey (pkijsCertificate issuerCertificate) = Ok issuerPublicKey
       | None => issuerPublicKey = subjectPublicKey options
       end /\
       getPublicKeyDigest issuerPublicKey = Ok keyDigest /\
       getPublicKeyDigest (subjectPublicKey options) = Ok subjectDigest /\
       extensions (pkijsCertificate certificate) =
       Some [ {| critical := true;
                 extnID := oids.BASIC_CONSTRAINTS;
                 extnValue :=
                   basicConstraintsToBER
                     {| cA := bool_decide (isCA options = Some true);
                        pathLenConstraint :=
                          Some (default (Num 0) (optPathLenConstraint options)) |} |};
              {| critical := false;
                 extnID := oids.AUTHORITY_KEY;
                 extnValue := authorityKeyIdentifierToBER (Asn1.OctetString keyDigest) |};
              {| critical := false;
                 extnID := oids.SUBJECT_KEY;
                 extnValue := toBER (Asn1.OctetString subjectDigest) |} ]).
Proof.
  split.
  - intros Hout certificate Hok.
    destruct (issue_Ok _ _ _ _ _ Hok)
      as (issuerPublicKey & keyDigest & subjectDigest & issuerDnCloned & spki & signature &
          _ & _ & (Hlow & Hhigh) & _).
    unfold MAX_PATH_LENGTH_CONSTRAINT in Hhigh.
    destruct Hout as [Hout | Hout]; congruence.
  - intros certificate Hok.
    destruct (issue_Ok _ _ _ _ _ Hok)
      as (issuerPublicKey & keyDigest & subjectDigest & issuerDnCloned & spki & signature &
          _ & Hissuer & _ & Hauthority & Hdigest & _ & _ & ->).
    exists issuerPublicKey, keyDigest, subjectDigest.
    split; [destruct (issuerCertificate options); [apply Hissuer | exact Hissuer] |].
    split; [exact Hauthority |]. split; [exact Hdigest | reflexivity].
Qed.

Section WithOps.
Context `{!CertificateOps.Host}.

(** X25. The private address of the issuer. Let PKI.js parse the
    AuthorityKeyIdentifier that it encoded back to the same key
    identifier, and let the private address of a key be a zero followed
    by the digest of the key in hexadecimal. Then the issuer private
    address of a certificate that [issue] returns is the subject private
    address of the issuer certificate (computed for the first time), and
    for a self-issued certificate it is its own subject private address
    whenever that is computed from the key that the options gave. *)
Theorem issued_certificate_issuer_address tz now random64 options certificate :
  (forall keyIdentifier,
     authorityKeyIdentifierOf (authorityKeyIdentifierToBER (Asn1.OctetString keyIdentifier)) =
     Some (Some keyIdentifier)) ->
  (forall key digest,
     getPublicKeyDigest key = Ok digest ->
     getPrivateAddressFromIdentityKey key = Ok ("0" +:+ Buffer_toHex digest)) ->
  issue tz now random64 options = Ok certificate ->
  exists address,
    getIssuerPrivateAddress certificate = Ok (Some address) /\
    match issuerCertificate options with
    | Some issuerCertificate =>
        privateAddressCache issuerCertificate = None ->
        exists cached,
          calculateSubjectPrivateAddress issuerCertificate = Ok (address, cached)
    | None =>
        getPrivateAddressFromIdentityKey (subjectPublicKey options) = Ok address
    end.
Proof.
  intros Hparse Haddress Hok.
  destruct (issue_Ok _ _ _ _ _ Hok)
    as (issuerPublicKey & keyDigest & subjectDigest & issuerDnCloned & spki & signature &
        _ & Hissuer & _ & Hdigest & _ & _ & _ & ->).
  exists ("0" +:+ Buffer_toHex keyDigest). split.
  - unfold getIssuerPrivateAddress.
    cbn [pkijsCertificate newCertificate extensions].
    change (List.find _ _) with
      (Some {| critical := false;
               extnID := oids.AUTHORITY_KEY;
               extnValue := authorityKeyIdentifierToBER (Asn1.OctetString keyDigest) |}).
    cbn [extnValue]. now rewrite Hparse.
  - destruct (issuerCertificate options) as [issuerCertificate |].
    + destruct Hissuer as (_ & Hkey). intros Hcache.
      unfold calculateSubjectPrivateAddress. rewrite Hcache. cbn [truthyString negb].
      rewrite Hkey. cbn [mbind result_bind].
      rewrite (Haddress _ _ Hdigest). cbn [mbind result_bind]. eauto.
    + subst issuerPublicKey. now apply Haddress.
Qed.

(** X26. [calculateSubjectPrivateAddress] computes once. When a call
    returns an address that is not empty, the certificate keeps it, and
    every later call returns that address whatever the key and the
    address function would give then; the certificate is otherwise
    unchanged. *)
Theorem calculateSubjectPrivateAddress_cached (certificate cached : Certificate) address :
  calculateSubjectPrivateAddress certificate = Ok (address, cached) ->
  pkijsCertificate cached = pkijsCertificate certificate /\
  (address <> EmptyString ->
   privateAddressCache cached = Some address /\
   forall (otherHost : X509.Host) (otherOps : CertificateOps.Host),
     @calculateSubjectPrivateAddress otherHost otherOps cached = Ok (address, cached)).
Proof.
  unfold calculateSubjectPrivateAddress.
  destruct (truthyString (privateAddressCache certificate)) eqn:Hcache; cbn [negb].
  - intros [= <- <-]. split; [reflexivity |]. intros Hfull.
    destruct (privateAddressCache certificate) as [stored |]; [| discriminate Hcache].
    split; [reflexivity |]. intros otherHost otherOps.
    cbn [privateAddressCache]. now rewrite Hcache.
  - intros Hcomputed.
    apply bind_Ok in Hcomputed. destruct Hcomputed as (key & _ & Hcomputed).
    apply bind_Ok in Hcomputed. destruct Hcomputed as (computed & _ & Hcomputed).
    injection Hcomputed as <- <-. split; [reflexivity |]. intros Hfull.
    split; [reflexivity |]. intros otherHost otherOps.
    cbn [privateAddressCache]. now rewrite truthyString_Some.
Qed.

End WithOps.

End WithHost.

Lemma issued_certificate_validates_witness :
  exists certificate,
    issue utcZone 0 (repeat Byte.x80 8) Mock.mockIssuanceOptions = Ok certificate /\
    startDate certificate <= expiryDate certificate /\
    validate (startDate certificate) certificate = Ok tt.
Proof.
  destruct (issue utcZone 0 (repeat Byte.x80 8) Mock.mockIssuanceOptions)
    as [certificate | e] eqn:Hrun; [| vm_compute in Hrun; discriminate Hrun].
  destruct (issued_certificate_validates _ _ _ _ _ Hrun) as (_ & Hdates & Hinside & _).
  exists certificate. split; [reflexivity |]. split; [exact Hdates |].
  apply Hinside. lia.
Defined.

Lemma issued_certificate_identity_witness :
  exists certificate,
    issue utcZone 0 (repeat Byte.x80 8) Mock.mockIssuanceOptions = Ok certificate /\
    getCommonName certificate = Ok (Some "0cafe") /\
    getSerialNumberHex certificate = "008080808080808080".
Proof.
  destruct (issue utcZone 0 (repeat Byte.x80 8) Mock.mockIssuanceOptions)
    as [certificate | e] eqn:Hrun; [| vm_compute in Hrun; discriminate Hrun].
  destruct (issued_certificate_identity utcZone 0 Byte.x80 (repeat Byte.x80 7)
              Mock.mockIssuanceOptions certificate Hrun)
    as (Hname & _ & _ & _ & _ & Hhex).
  exists certificate. split; [reflexivity |]. split; [exact Hname | exact Hhex].
Defined.

Lemma issued_certificate_extensions_witness :
  issue utcZone 0 (repeat Byte.x80 8)
    {| issuerPrivateKey := Mock.mockKey;
       subjectPublicKey := Mock.mockKey;
       commonName := "0cafe";
       validityStartDate := None;
       validityEndDate := 1000;
       issuerCertificate := None;
       isCA := Some true;
       optPathLenConstraint := Some (Num 3) |} <> Ok Mock.mockCertificate /\
  exists certificate authorityKeyId,
    issue utcZone 0 (repeat Byte.x80 8) Mock.mockIssuanceOptions = Ok certificate /\
    default [] (extensions (pkijsCertificate certificate)) !! 1%nat = Some authorityKeyId /\
    extnValue authorityKeyId = authorityKeyIdentifierToBER (Asn1.OctetString [Byte.x07]).
Proof.
  split.
  - apply (issued_certificate_extensions utcZone 0 (repeat Byte.x80 8)
             {| issuerPrivateKey := Mock.mockKey;
                subjectPublicKey := Mock.mockKey;
                commonName := "0cafe";
                validityStartDate := None;
                validityEndDate := 1000;
                issuerCertificate := None;
                isCA := Some true;
                optPathLenConstraint := Some (Num 3) |}).
    right. reflexivity.
  - destruct (issue utcZone 0 (repeat Byte.x80 8) Mock.mockIssuanceOptions)
      as [certificate | e] eqn:Hrun; [| vm_compute in Hrun; discriminate Hrun].
    destruct (proj2 (issued_certificate_extensions utcZone 0 (repeat Byte.x80 8)
                       Mock.mockIssuanceOptions) certificate Hrun)
      as (issuerPublicKey & keyDigest & subjectDigest & Hissuer & Hauthority & _ & Hextensions).
    cbn in Hissuer. injection Hissuer as <-.
    cbn in Hauthority. injection Hauthority as <-.
    exists certificate. eexists. split; [reflexivity |].
    rewrite Hextensions. split; reflexivity.
Defined.

Lemma issued_certificate_issuer_address_witness :
  exists certificate address cached,
    issue utcZone 0 (repeat Byte.x80 8) Mock.mockIssuanceOptions = Ok certificate /\
    @getIssuerPrivateAddress MockMore.certificateOpsHost certificate = Ok (Some address) /\
    @calculateSubjectPrivateAddress Mock.x509Host MockMore.certificateOpsHost
      Mock.mockCertificate = Ok (address, cached).
Proof.
  destruct (issue utcZone 0 (repeat Byte.x80 8) Mock.mockIssuanceOptions)
    as [certificate | e] eqn:Hrun; [| vm_compute in Hrun; discriminate Hrun].
  destruct (@issued_certificate_issuer_address Mock.x509Host MockMore.certificateOpsHost
              utcZone 0 (repeat Byte.x80 8) Mock.mockIssuanceOptions certificate)
    as (address & Hissuer & Hsubject).
  - intros keyIdentifier. reflexivity.
  - intros key digest Hdigest. simpl in Hdigest. injection Hdigest as <-. reflexivity.
  - exact Hrun.
  - destruct (Hsubject eq_refl) as (cached & Hcached).
    exists certificate, address, cached.
    split; [reflexivity |]. split; [exact Hissuer | exact Hcached].
Defined.

Lemma calculateSubjectPrivateAddress_cached_witness :
  exists cached,
    @calculateSubjectPrivateAddress Mock.x509Host MockMore.certificateOpsHost
      Mock.mockCertificate = Ok ("007", cached) /\
    privateAddressCache cached = Some "007" /\
    @calculateSubjectPrivateAddress Mock.x509Host MockMore.certificateOpsHost cached =
    Ok ("007", cached).
Proof.
  eexists. split; [vm_compute; reflexivity |].
  edestruct (@calculateSubjectPrivateAddress_cached Mock.x509Host MockMore.certificateOpsHost
               Mock.mockCertificate) as (_ & Hcached); [vm_compute; reflexivity |].
  destruct (Hcached ltac:(discriminate)) as (Hstored & Hagain).
  split; [exact Hstored | apply Hagain].
Defined.

End CertificateMore.

(** ** The cargo generator, continued *)

Module GatewayChannelMore.
Import GatewayChannel.

Section WithHost.
Context `{!Host} `{!RAMF.Host}.

(** X27. The TTL of a cargo is the whole number of seconds from its
    creation date to the expiry date of its batch, capped at
    15_552_000; it is negative exactly when the batch expires before the
    creation date, that is, more than the clock drift tolerance ago, and
    then the serialization of the cargo fails with a
    [RAMFSyntaxError]. *)
Theorem cargo_ttl_window tz this now n batch cargo :
  makeCargo tz this now n batch = Ok cargo ->
  exists ttl,
    RAMF.ttl cargo = Num ttl /\
    ttl = Z.min ((expiryDate batch - getCargoCreationTime tz now) / 1000) RAMF.RAMF_MAX_TTL /\
    ttl <= RAMF.RAMF_MAX_TTL /\
    (0 <= ttl <-> getCargoCreationTime tz now <= expiryDate batch) /\
    (RAMF.validateTtl (RAMF.ttl cargo) = Ok tt <->
     getCargoCreationTime tz now <= expiryDate batch) /\
    (expiryDate batch < getCargoCreationTime tz now ->
     exists m, cargoStep tz this now n batch = Throw (RAMFSyntaxError m)).
Proof.
  intros Hmake.
  destruct (GatewayChannelProps.makeCargo_fields _ _ _ _ _ _ Hmake) as (_ & Httl).
  set (creation := getCargoCreationTime tz now) in *.
  set (ttl := Z.min ((expiryDate batch - creation) / 1000) 15552000) in *.
  assert (Hsign : 0 <= ttl <-> creation <= expiryDate batch).
  { subst ttl.
    pose proof (Z.div_mod (expiryDate batch - creation) 1000 ltac:(lia)) as Hdiv.
    pose proof (Z.mod_pos_bound (expiryDate batch - creation) 1000 ltac:(lia)) as Hmod.
    split; intros Hle; lia. }
  exists ttl. split; [exact Httl |]. split; [reflexivity |].
  split; [subst ttl; unfold RAMF.RAMF_MAX_TTL; lia |]. split; [exact Hsign |]. split.
  - rewrite Httl. split.
    + intros Hvalid. apply RAMFProps.validateTtl_Ok, RAMFProps.ttlAccepted_Num in Hvalid.
      apply Hsign. lia.
    + intros Hle. apply RAMFProps.validateTtl_in_range.
      split; [now apply Hsign | subst ttl; unfold RAMF.RAMF_MAX_TTL; lia].
  - intros Hexpired. unfold cargoStep. rewrite Hmake. cbn [mbind result_bind].
    apply RAMFProps.serialize_rejects_ttl. left. rewrite Httl. simpl.
    apply Z.ltb_lt. lia.
Qed.

Lemma cargoLoop_in_order tz this clock batches failure :
  forall n yielded e,
    cargoLoop tz this clock n batches failure = (yielded, e) ->
    (forall i cargoSerialized,
       yielded !! i = Some cargoSerialized ->
       exists batch,
         batches !! i = Some batch /\
         cargoStep tz this (clock (n + i)%nat) (n + i)%nat batch = Ok cargoSerialized) /\
    ((length yielded = length batches /\ e = failure) \/
     (exists batch cause,
        batches !! length yielded = Some batch /\
        cargoStep tz this (clock (n + length yielded)%nat) (n + length yielded)%nat batch =
        Throw cause /\
        e = Some cause)).
Proof.
  induction batches as [| batch rest IH]; intros n yielded e Hloop; simpl in Hloop.
  - injection Hloop as <- <-. split; [intros i c Hi; discriminate Hi | now left].
  - destruct (cargoStep tz this (clock n) n batch) as [cargoSerialized | cause] eqn:Hstep.
    + destruct (cargoLoop tz this clock (S n) rest failure) as [yielded' e'] eqn:Hrest.
      injection Hloop as <- <-.
      destruct (IH _ _ _ Hrest) as (Hyielded & Hend). split.
      * intros [| i] c Hi.
        -- injection Hi as <-. exists batch. rewrite Nat.add_0_r. now split.
        -- destruct (Hyielded i c Hi) as (batch' & Hbatch & Hcargo).
           exists batch'. rewrite Nat.add_succ_r. now split.
      * destruct Hend as [(Hlength & ->) | (batch' & cause & Hbatch & Hcause & ->)].
        -- left. simpl. now rewrite Hlength.
        -- right. exists batch', cause. simpl length. rewrite Nat.add_succ_r.
           now repeat split.
    + injection Hloop as <- <-. split; [intros i c Hi; discriminate Hi |].
      right. exists batch, cause. simpl. rewrite Nat.add_0_r. now repeat split.
Qed.

(** X28. [generateCargoes] yields in order and stops at the first
    failure. The [i]-th buffer it yields is the serialized cargo of the
    [i]-th batch, built at the time of the [i]-th iteration. Either
    every batch gave a buffer, and the generator ends as the batching
    did, or the generator ends with the exception of the first batch
    whose cargo could not be built or serialized, having yielded the
    buffers of the batches before it and nothing after. *)
Theorem generateCargoes_in_order tz this clock messages yielded e :
  generateCargoes tz this clock messages = (yielded, e) ->
  let batches := fst (batchMessagesSerialized messages) in
  (forall i cargoSerialized,
     yielded !! i = Some cargoSerialized ->
     exists batch,
       batches !! i = Some batch /\
       cargoStep tz this (clock i) i batch = Ok cargoSerialized) /\
  ((length yielded = length batches /\ e = snd (batchMessagesSerialized messages)) \/
   (exists batch cause,
      batches !! length yielded = Some batch /\
      cargoStep tz this (clock (length yielded)) (length yielded) batch = Throw cause /\
      e = Some cause)).
Proof.
  unfold generateCargoes.
  destruct (batchMessagesSerialized messages) as [batches failure]. intros Hloop. simpl.
  exact (cargoLoop_in_order _ _ _ _ _ _ _ _ Hloop).
Qed.

(** X29. Where the offset of local time is a fixed whole number of
    seconds, the creation date of a cargo is the current time without
    its milliseconds, minus three hours, whatever the offset, and the
    TTL counts the seconds from then to the expiry date of the batch. *)
Theorem cargo_creation_date_fixed_offset offset this now n batch cargo :
  offset mod 1000 = 0 ->
  makeCargo (fixedZone offset) this now n batch = Ok cargo ->
  RAMF.creationDate cargo = 1000 * (now / 1000) - CLOCK_DRIFT_TOLERANCE_HOURS * msPerHour /\
  now - CLOCK_DRIFT_TOLERANCE_HOURS * msPerHour - 999 <= RAMF.creationDate cargo
    <= now - CLOCK_DRIFT_TOLERANCE_HOURS * msPerHour /\
  RAMF.ttl cargo =
  Num (Z.min ((expiryDate batch -
               (1000 * (now / 1000) - CLOCK_DRIFT_TOLERANCE_HOURS * msPerHour)) / 1000)
             RAMF.RAMF_MAX_TTL).
Proof.
  intros Hoffset Hmake.
  destruct (GatewayChannelProps.makeCargo_fields _ _ _ _ _ _ Hmake) as (Hdate & Httl).
  rewrite (GatewayChannelProps.getCargoCreationTime_fixed_offset offset now Hoffset)
    in Hdate, Httl.
  unfold CLOCK_DRIFT_TOLERANCE_HOURS, msPerHour in *.
  split; [exact Hdate |]. split; [| exact Httl].
  rewrite Hdate.
  pose proof (Z.div_mod now 1000 ltac:(lia)) as Hdiv.
  pose proof (Z.mod_pos_bound now 1000 ltac:(lia)) as Hmod.
  lia.
Qed.

End WithHost.

Lemma cargo_creation_date_fixed_offset_witness :
  exists cargo,
    makeCargo (fixedZone 7200000) Mock.mockChannel 1749988800999 0
      {| messageSerialized := [Byte.xab]; expiryDate := 1749988860000 |} = Ok cargo /\
    RAMF.creationDate cargo = 1749978000000.
Proof.
  destruct (makeCargo (fixedZone 7200000) Mock.mockChannel 1749988800999 0
              {| messageSerialized := [Byte.xab]; expiryDate := 1749988860000 |})
    as [cargo | e] eqn:Hmake; [| vm_compute in Hmake; discriminate Hmake].
  destruct (cargo_creation_date_fixed_offset 7200000 _ _ _ _ _ eq_refl Hmake)
    as (Hdate & _).
  exists cargo. split; [reflexivity |]. rewrite Hdate. reflexivity.
Defined.

Lemma cargo_ttl_window_witness :
  exists cargo,
    makeCargo utcZone Mock.mockChannel 1749988800000 0
      {| messageSerialized := [Byte.xab]; expiryDate := 1749970000000 |} = Ok cargo /\
    RAMF.ttl cargo = Num (-8000) /\
    exists m,
      cargoStep utcZone Mock.mockChannel 1749988800000 0
        {| messageSerialized := [Byte.xab]; expiryDate := 1749970000000 |} =
      Throw (RAMFSyntaxError m).
Proof.
  destruct (makeCargo utcZone Mock.mockChannel 1749988800000 0
              {| messageSerialized := [Byte.xab]; expiryDate := 1749970000000 |})
    as [cargo | e] eqn:Hmake; [| vm_compute in Hmake; discriminate Hmake].
  destruct (cargo_ttl_window _ _ _ _ _ _ Hmake) as (ttl & Httl & Hvalue & _ & _ & _ & Hfails).
  exists cargo. split; [reflexivity |]. split.
  - rewrite Httl, Hvalue. reflexivity.
  - apply Hfails. vm_compute. reflexivity.
Defined.

Lemma generateCargoes_in_order_witness :
  exists first,
    generateCargoes utcZone Mock.mockChannel (fun _ => 1749988800000)
      [ {| messageSerialized := [Byte.xab]; expiryDate := 1749988860000 |};
        {| messageSerialized := [Byte.xcd]; expiryDate := 1749970000000 |};
        {| messageSerialized := [Byte.xef]; expiryDate := 1749988860000 |} ] =
    ([first], Some (RAMFSyntaxError "TTL cannot be negative")) /\
    cargoStep utcZone Mock.mockChannel 1749988800000 0
      {| messageSerialized := [Byte.xab]; expiryDate := 1749988860000 |} = Ok first.
Proof.
  eexists. split; [vm_compute; reflexivity |].
  edestruct (generateCargoes_in_order utcZone Mock.mockChannel (fun _ => 1749988800000)
               [ {| messageSerialized := [Byte.xab]; expiryDate := 1749988860000 |};
                 {| messageSerialized := [Byte.xcd]; expiryDate := 1749970000000 |};
                 {| messageSerialized := [Byte.xef]; expiryDate := 1749988860000 |} ])
    as (Hyielded & _); [vm_compute; reflexivity |].
  destruct (Hyielded 0%nat _ eq_refl) as (batch & Hbatch & Hcargo).
  simpl in Hbatch. injection Hbatch as <-. exact Hcargo.
Defined.

End GatewayChannelMore.
